(** * KeePassXC message boxes: scripted answers and button construction

    A shallow embedding of the [MessageBox] class of KeePassXC and of
    [DatabaseWidget::deleteEntries], which calls it, followed by the other
    functions of [DatabaseWidget] and [DatabaseSettingsWidgetMasterKey] that
    confirm with the operator: changing the master key, saving, locking,
    opening a URL and searching.

    The sources hold two revisions of [MessageBox.cpp]:
    - [unnamed/part_001] with its header [unnamed/part_000]: the Qt
      standard-button entry points [critical], [information], [question],
      [warning] with the slot [m_nextAnswer], next to [newQuestion] with the
      slot [m_newNextAnswer]. It is module [TwoSlot] below.
    - [src/gui/MessageBox.cpp]: one [messageBox] behind all four entry
      points, one slot [m_nextAnswer]. It is module [OneSlot] below.

    Integers are [Z] with the wrap-around of the C++ type written out,
    [QAbstractButton*] is an address in [N] (0 is [nullptr]), the static
    members are fields of a state record, and the operator in front of the
    screen is a function from the dialog on display to the button activated. *)

From Stdlib Require Import ZArith NArith List String Bool Lia Sorted.
Import ListNotations.
Open Scope Z_scope.

Set Implicit Arguments.

(** ** A state monad with failure

    [None] stands for a run with no result: a loop that never leaves, or a
    use of an uninitialised variable. *)

Definition M (S A : Type) : Type := S -> option (A * S).

Definition ret {S A : Type} (a : A) : M S A := fun s => Some (a, s).

Definition bind {S A B : Type} (m : M S A) (k : A -> M S B) : M S B :=
  fun s => match m s with
           | Some (a, s') => k a s'
           | None => None
           end.

Definition get {S : Type} : M S S := fun s => Some (s, s).

Definition modify {S : Type} (f : S -> S) : M S unit := fun s => Some (tt, f s).

Definition stuck {S A : Type} : M S A := fun _ => None.

Declare Scope monad_scope.
Delimit Scope monad_scope with monad.
Notation "x <- m ;; k" := (bind m (fun x => k))
  (at level 61, m at next level, right associativity) : monad_scope.
Notation "m ;;; k" := (bind m (fun _ => k))
  (at level 61, right associativity) : monad_scope.
Open Scope monad_scope.

(** ** The Qt side *)

Module Qt.

(** [QAbstractButton*] and [QWidget*]. *)
Definition ptr : Type := N.
Definition nullptr : ptr := 0%N.

(** [QMessageBox::Icon]. *)
Inductive Icon : Type := NoIcon | Information | Warning | Critical | Question.

(** [QMessageBox::ButtonRole], the roles the sources use. *)
Inductive ButtonRole : Type :=
| AcceptRole | RejectRole | DestructiveRole | ApplyRole
| ResetRole | HelpRole | YesRole | NoRole.

Record PushButton : Type := mkPushButton {
  handle : ptr;
  label : string;
  role : ButtonRole
}.

(** A [QMessageBox] object: what the sources set on it. [boxDefault] is
    [None] until [setDefaultButton] is called. *)
Record QMessageBox : Type := mkQMessageBox {
  boxParent : ptr;
  boxIcon : Icon;
  windowTitle : string;
  boxText : string;
  boxButtons : list PushButton;
  boxDefault : option ptr
}.

Definition newBox (parent : ptr) : QMessageBox :=
  mkQMessageBox parent NoIcon EmptyString EmptyString [] None.

Definition setIcon (i : Icon) (b : QMessageBox) : QMessageBox :=
  mkQMessageBox (boxParent b) i (windowTitle b) (boxText b) (boxButtons b) (boxDefault b).

Definition setWindowTitle (t : string) (b : QMessageBox) : QMessageBox :=
  mkQMessageBox (boxParent b) (boxIcon b) t (boxText b) (boxButtons b) (boxDefault b).

Definition setText (t : string) (b : QMessageBox) : QMessageBox :=
  mkQMessageBox (boxParent b) (boxIcon b) (windowTitle b) t (boxButtons b) (boxDefault b).

Definition setDefaultButton (p : ptr) (b : QMessageBox) : QMessageBox :=
  mkQMessageBox (boxParent b) (boxIcon b) (windowTitle b) (boxText b) (boxButtons b) (Some p).

Definition pushButton (pb : PushButton) (b : QMessageBox) : QMessageBox :=
  mkQMessageBox (boxParent b) (boxIcon b) (windowTitle b) (boxText b)
                (boxButtons b ++ [pb]) (boxDefault b).

(** What was put on the screen: a box built by the program, or one of Qt's
    static convenience dialogs ([QMessageBox::question] and the like). *)
Inductive Shown : Type :=
| Custom (box : QMessageBox)
| Standard (icon : Icon) (parent : ptr) (title text : string)
           (buttons defaultButton : Z).

(** [QMap<QAbstractButton*, Button>]: kept in ascending key order, one entry
    per key. *)
Definition QMap : Type := list (ptr * Z).

Fixpoint qmap_insert (k : ptr) (v : Z) (m : QMap) : QMap :=
  match m with
  | [] => [(k, v)]
  | (k', v') :: m' =>
      if (k <? k')%N then (k, v) :: m
      else if (k =? k')%N then (k, v) :: m'
      else (k', v') :: qmap_insert k v m'
  end.

Definition qmap_find (k : ptr) (m : QMap) : option Z :=
  option_map snd (find (fun e => (fst e =? k)%N) m).

(** [m[k]]: the value at [k]; an absent key is first inserted with the
    default-constructed value, which is 0 for an enumeration. *)
Definition qmap_index (k : ptr) (m : QMap) : Z * QMap :=
  match qmap_find k m with
  | Some v => (v, m)
  | None => (0, qmap_insert k 0 m)
  end.

(** [m.keys(v)]: the keys whose value is [v], ascending. *)
Definition qmap_keys (v : Z) (m : QMap) : list ptr :=
  map fst (filter (fun e => snd e =? v) m).

(** [QMessageBox::StandardButton], as Qt's [qmessagebox.h] declares it, every
    enumerator in the order of the declaration: the buttons, the two markers
    [FirstButton] and [LastButton], and the obsolete [YesAll], [NoAll],
    [Default], [Escape], [FlagMask] and [ButtonMask = ~FlagMask]. Qt is an
    external library: these values are Qt's published ones. *)
Module StandardButton.
Definition NoButton : Z := 0x00000000.
Definition Ok : Z := 0x00000400.
Definition Save : Z := 0x00000800.
Definition SaveAll : Z := 0x00001000.
Definition Open : Z := 0x00002000.
Definition Yes : Z := 0x00004000.
Definition YesToAll : Z := 0x00008000.
Definition No : Z := 0x00010000.
Definition NoToAll : Z := 0x00020000.
Definition Abort : Z := 0x00040000.
Definition Retry : Z := 0x00080000.
Definition Ignore : Z := 0x00100000.
Definition Close : Z := 0x00200000.
Definition Cancel : Z := 0x00400000.
Definition Discard : Z := 0x00800000.
Definition Help : Z := 0x01000000.
Definition Apply : Z := 0x02000000.
Definition Reset : Z := 0x04000000.
Definition RestoreDefaults : Z := 0x08000000.
Definition FirstButton : Z := Ok.
Definition LastButton : Z := RestoreDefaults.
Definition YesAll : Z := YesToAll.
Definition NoAll : Z := NoToAll.
Definition Default : Z := 0x00000100.
Definition Escape : Z := 0x00000200.
Definition FlagMask : Z := 0x00000300.
Definition ButtonMask : Z := Z.lnot FlagMask.

Definition all : list Z :=
  [NoButton; Ok; Save; SaveAll; Open; Yes; YesToAll; No; NoToAll; Abort; Retry;
   Ignore; Close; Cancel; Discard; Help; Apply; Reset; RestoreDefaults;
   FirstButton; LastButton; YesAll; NoAll; Default; Escape; FlagMask; ButtonMask].
End StandardButton.

End Qt.
Import Qt.

(** ** What both revisions share *)

(** The part of the program state both revisions have: the static
    [m_buttonMap], the next address the allocator hands out for a button
    (addresses are fresh; the allocator is a counter), and the dialogs
    executed so far, oldest first. *)
Record Env : Type := mkEnv {
  m_buttonMap : QMap;
  heap_next : ptr;
  screen : list Shown
}.

Definition set_buttonMap (m : QMap) (e : Env) : Env :=
  mkEnv m (heap_next e) (screen e).

(** [box.addButton(text, role)]: a new button at a fresh address. *)
Definition QMessageBox_addButton (box : QMessageBox) (text : string) (r : ButtonRole)
  : M Env (QMessageBox * ptr) :=
  fun e =>
    let p := heap_next e in
    Some ((pushButton (mkPushButton p text r) box, p),
          mkEnv (m_buttonMap e) (N.succ p) (screen e)).

(** [box.exec()], then [box.clickedButton()]: the box goes on the screen and
    the operator answers. *)
Definition exec (click : QMessageBox -> ptr) (box : QMessageBox) : M Env ptr :=
  fun e => Some (click box, mkEnv (m_buttonMap e) (heap_next e) (screen e ++ [Custom box])).

(** A static convenience dialog of Qt: shown, and answered by the operator. *)
Definition QMessageBox_static (answer : Shown -> Z) (icon : Icon) (parent : ptr)
    (title text : string) (buttons defaultButton : Z) : M Env Z :=
  fun e =>
    let d := Standard icon parent title text buttons defaultButton in
    Some (answer d, mkEnv (m_buttonMap e) (heap_next e) (screen e ++ [d])).

(** [Button returnButton = m_buttonMap[p]]. *)
Definition buttonMap_index (p : ptr) : M Env Z :=
  fun e => let '(v, m) := qmap_index p (m_buttonMap e) in Some (v, set_buttonMap m e).

(** [m_buttonMap.insert(b, button)]. *)
Definition buttonMap_insert (p : ptr) (button : Z) : M Env unit :=
  modify (fun e => set_buttonMap (qmap_insert p button (m_buttonMap e)) e).

(** [m_buttonMap.clear()]. *)
Definition buttonMap_clear : M Env unit := modify (set_buttonMap []).

(** [b <<= 1] on an unsigned variable of [width] bits. *)
Definition shl1 (width : Z) (b : Z) : Z := Z.shiftl b 1 mod 2 ^ width.

(** The cases of the [switch] in [addButton]: value, text, role. *)
Definition Cases : Type := list (Z * (string * ButtonRole)).

Definition switch (cases : Cases) (button : Z) : option (string * ButtonRole) :=
  option_map snd (find (fun c => fst c =? button) cases).

(** [MessageBox::addButton]. [case NoButton] returns at once. A value with no
    case leaves the local [b] uninitialised before it is inserted in the map:
    no result. *)
Definition addButton_switch (cases : Cases) (box : QMessageBox) (button : Z)
  : M Env QMessageBox :=
  if button =? 0 then ret box
  else match switch cases button with
       | Some (text, r) =>
           added <- QMessageBox_addButton box text r ;;
           buttonMap_insert (snd added) button ;;;
           ret (fst added)
       | None => stuck
       end.

(** [for (uintN_t b = First; b <= Last; b <<= 1) if (b & buttons)
    addButton(box, static_cast<Button>(b));] entered at [b]. The fuel counts
    the tests of the loop condition still allowed. *)
Fixpoint for_buttons (cases : Cases) (width last : Z) (fuel : nat)
    (b buttons : Z) (box : QMessageBox) : M Env QMessageBox :=
  match fuel with
  | O => stuck
  | S fuel' =>
      if b <=? last then
        box' <- (if Z.land b buttons =? 0 then ret box
                 else addButton_switch cases box b) ;;
        for_buttons cases width last fuel' (shl1 width b) buttons box'
      else ret box
  end.

(** The loop variable doubles, so after [width] shifts it is 0 and stays 0
    (lemma [shl1_exhausts]): a loop that has passed [width + 1] tests never
    leaves, and [width + 1] tests are all the fuel a run can need. *)
Definition loop_fuel (width : Z) : nat := S (Z.to_nat width).

(** ** The revision with two slots ([unnamed/part_000], [unnamed/part_001]) *)

Module TwoSlot.

(** [enum Button : uint32_t] of the header. *)
Definition NoButton : Z := 0.
Definition Ok : Z := Z.shiftl 1 1.
Definition Open : Z := Z.shiftl 1 2.
Definition Save : Z := Z.shiftl 1 3.
Definition Cancel : Z := Z.shiftl 1 4.
Definition Close : Z := Z.shiftl 1 5.
Definition Discard : Z := Z.shiftl 1 6.
Definition Apply : Z := Z.shiftl 1 7.
Definition Reset : Z := Z.shiftl 1 8.
Definition RestoreDefaults : Z := Z.shiftl 1 9.
Definition Help : Z := Z.shiftl 1 10.
Definition SaveAll : Z := Z.shiftl 1 11.
Definition Yes : Z := Z.shiftl 1 12.
Definition YesToAll : Z := Z.shiftl 1 13.
Definition No : Z := Z.shiftl 1 14.
Definition NoToAll : Z := Z.shiftl 1 15.
Definition Abort : Z := Z.shiftl 1 16.
Definition Retry : Z := Z.shiftl 1 17.
Definition Ignore : Z := Z.shiftl 1 18.
Definition Overwrite : Z := Z.shiftl 1 19.
Definition Delete : Z := Z.shiftl 1 20.
Definition First : Z := Ok.
Definition Last : Z := Delete.

(** The enumerators between the loop markers, in declaration order. *)
Definition all_buttons : list Z :=
  [Ok; Open; Save; Cancel; Close; Discard; Apply; Reset; RestoreDefaults; Help;
   SaveAll; Yes; YesToAll; No; NoToAll; Abort; Retry; Ignore; Overwrite; Delete].

Definition addButton_cases : Cases :=
  [(Ok, ("Ok", AcceptRole));
   (Open, ("Open", AcceptRole));
   (Save, ("Save", AcceptRole));
   (Cancel, ("Cancel", RejectRole));
   (Close, ("Close", RejectRole));
   (Discard, ("Discard", DestructiveRole));
   (Apply, ("Apply", ApplyRole));
   (Reset, ("Reset", ResetRole));
   (RestoreDefaults, ("RestoreDefaults", ResetRole));
   (Help, ("Help", HelpRole));
   (SaveAll, ("SaveAll", AcceptRole));
   (Yes, ("Yes", YesRole));
   (YesToAll, ("YesToAll", YesRole));
   (No, ("No", NoRole));
   (NoToAll, ("NoToAll", NoRole));
   (Abort, ("Abort", RejectRole));
   (Retry, ("Retry", AcceptRole));
   (Ignore, ("Ignore", AcceptRole));
   (Overwrite, ("Overwrite", DestructiveRole));
   (Delete, ("Delete", DestructiveRole))]%string.

(** The static members, and the world around them. [m_nextAnswer] holds a
    [QMessageBox::StandardButton], [m_newNextAnswer] a [MessageBox::Button]. *)
Record World : Type := mkWorld {
  m_nextAnswer : Z;
  m_newNextAnswer : Z;
  env : Env
}.

(** The static initialisers: both slots [NoButton], the map empty. *)
Definition initial : World :=
  mkWorld StandardButton.NoButton NoButton (mkEnv [] 1%N []).

Definition set_m_nextAnswer (v : Z) (w : World) : World :=
  mkWorld v (m_newNextAnswer w) (env w).

Definition set_m_newNextAnswer (v : Z) (w : World) : World :=
  mkWorld (m_nextAnswer w) v (env w).

(** Run a computation on the shared part of the state. *)
Definition in_env {A : Type} (m : M Env A) : M World A :=
  fun w => match m (env w) with
           | Some (a, e) => Some (a, mkWorld (m_nextAnswer w) (m_newNextAnswer w) e)
           | None => None
           end.

Definition addButton : QMessageBox -> Z -> M Env QMessageBox :=
  addButton_switch addButton_cases.

(** The body shared, word for word, by [critical], [information], [question]
    and [warning]; [icon] names the static Qt dialog each one calls. *)
Definition standardBox (icon : Icon) (answer : Shown -> Z) (parent : ptr)
    (title text : string) (buttons defaultButton : Z) : M World Z :=
  w <- get ;;
  if m_nextAnswer w =? StandardButton.NoButton then
    in_env (QMessageBox_static answer icon parent title text buttons defaultButton)
  else
    let returnButton := m_nextAnswer w in
    modify (set_m_nextAnswer StandardButton.NoButton) ;;;
    ret returnButton.

Definition critical := standardBox Critical.
Definition information := standardBox Information.
Definition question := standardBox Question.
Definition warning := standardBox Warning.

Definition newQuestion (click : QMessageBox -> ptr) (parent : ptr)
    (title text : string) (buttons defaultButton : Z) : M World Z :=
  w <- get ;;
  if m_newNextAnswer w =? NoButton then
    let question := setText text (setWindowTitle title (setIcon Question (newBox parent))) in
    question <- in_env (for_buttons addButton_cases 32 Last (loop_fuel 32)
                                    First buttons question) ;;
    clicked <- in_env (exec click question) ;;
    returnButton <- in_env (buttonMap_index clicked) ;;
    in_env buttonMap_clear ;;;
    ret returnButton
  else
    let returnButton := m_newNextAnswer w in
    modify (set_m_newNextAnswer NoButton) ;;;
    ret returnButton.

Definition setNextAnswer (button : Z) : M World unit :=
  modify (set_m_nextAnswer button).

Definition setNewNextAnswer (button : Z) : M World unit :=
  modify (set_m_newNextAnswer button).

End TwoSlot.

(** ** The revision with one slot ([src/gui/MessageBox.cpp]) *)

Module OneSlot.

(** The header of this revision is not among the sources. The enumerators the
    earlier header declares keep their values. *)
Definition NoButton : Z := TwoSlot.NoButton.
Definition Ok : Z := TwoSlot.Ok.
Definition Open : Z := TwoSlot.Open.
Definition Save : Z := TwoSlot.Save.
Definition Cancel : Z := TwoSlot.Cancel.
Definition Close : Z := TwoSlot.Close.
Definition Discard : Z := TwoSlot.Discard.
Definition Apply : Z := TwoSlot.Apply.
Definition Reset : Z := TwoSlot.Reset.
Definition RestoreDefaults : Z := TwoSlot.RestoreDefaults.
Definition Help : Z := TwoSlot.Help.
Definition SaveAll : Z := TwoSlot.SaveAll.
Definition Yes : Z := TwoSlot.Yes.
Definition YesToAll : Z := TwoSlot.YesToAll.
Definition No : Z := TwoSlot.No.
Definition NoToAll : Z := TwoSlot.NoToAll.
Definition Abort : Z := TwoSlot.Abort.
Definition Retry : Z := TwoSlot.Retry.
Definition Ignore : Z := TwoSlot.Ignore.
Definition Overwrite : Z := TwoSlot.Overwrite.
Definition Delete : Z := TwoSlot.Delete.

(** Modelled from the spec: the declaration of [Move] is missing (the header
    of this revision). The spec lists [Move, Empty, Remove, Skip] after
    [Delete, Overwrite] as further bit flags of the same enumeration; they
    take the next bits, in the order of the cases of [addButton]. *)
Definition Move : Z := Z.shiftl 1 21.

(** Modelled from the spec: the declaration of [Empty] is missing; the bit
    flag after [Move]. *)
Definition Empty : Z := Z.shiftl 1 22.

(** Modelled from the spec: the declaration of [Remove] is missing; the bit
    flag after [Empty]. *)
Definition Remove : Z := Z.shiftl 1 23.

(** Modelled from the spec: the declaration of [Skip] is missing; the bit
    flag after [Remove]. *)
Definition Skip : Z := Z.shiftl 1 24.

Definition First : Z := Ok.

(** Modelled from the spec: the loop marker [Last] of this revision is
    missing with the header. The spec has the loop run over the defined range
    [First..Last]; the earlier header asks to update [Last] when a button is
    added, so it is the last enumerator. *)
Definition Last : Z := Skip.

Definition all_buttons : list Z :=
  TwoSlot.all_buttons ++ [Move; Empty; Remove; Skip].

Definition addButton_cases : Cases :=
  TwoSlot.addButton_cases ++
  [(Move, ("Move", AcceptRole));
   (Empty, ("Empty", DestructiveRole));
   (Remove, ("Remove", DestructiveRole));
   (Skip, ("Skip", RejectRole))]%string.

Record World : Type := mkWorld {
  m_nextAnswer : Z;
  env : Env
}.

Definition initial : World := mkWorld NoButton (mkEnv [] 1%N []).

Definition set_m_nextAnswer (v : Z) (w : World) : World := mkWorld v (env w).

Definition in_env {A : Type} (m : M Env A) : M World A :=
  fun w => match m (env w) with
           | Some (a, e) => Some (a, mkWorld (m_nextAnswer w) e)
           | None => None
           end.

Definition addButton : QMessageBox -> Z -> M Env QMessageBox :=
  addButton_switch addButton_cases.

(** The part of [messageBox] between the loop and [exec]. *)
Definition chooseDefault (defaultButton : Z) (msgBox : QMessageBox) : M Env QMessageBox :=
  if negb (defaultButton =? NoButton) then
    e <- get ;;
    let defPtrList := qmap_keys defaultButton (m_buttonMap e) in
    match defPtrList with
    | p :: _ => ret (setDefaultButton p msgBox)
    | [] => ret msgBox
    end
  else ret msgBox.

Definition messageBox (click : QMessageBox -> ptr) (parent : ptr) (icon : Icon)
    (title text : string) (buttons defaultButton : Z) : M World Z :=
  w <- get ;;
  if m_nextAnswer w =? NoButton then
    let msgBox := setText text (setWindowTitle title (setIcon icon (newBox parent))) in
    msgBox <- in_env (for_buttons addButton_cases 64 Last (loop_fuel 64)
                                  First buttons msgBox) ;;
    msgBox <- in_env (chooseDefault defaultButton msgBox) ;;
    clicked <- in_env (exec click msgBox) ;;
    returnButton <- in_env (buttonMap_index clicked) ;;
    in_env buttonMap_clear ;;;
    ret returnButton
  else
    let returnButton := m_nextAnswer w in
    modify (set_m_nextAnswer NoButton) ;;;
    ret returnButton.

Definition critical (click : QMessageBox -> ptr) (parent : ptr) :=
  messageBox click parent Critical.
Definition information (click : QMessageBox -> ptr) (parent : ptr) :=
  messageBox click parent Information.
Definition question (click : QMessageBox -> ptr) (parent : ptr) :=
  messageBox click parent Question.
Definition warning (click : QMessageBox -> ptr) (parent : ptr) :=
  messageBox click parent Warning.

Definition setNextAnswer (button : Z) : M World unit :=
  modify (set_m_nextAnswer button).

End OneSlot.

(** ** [DatabaseWidget::deleteEntries]

    The second source text of [src/gui/dbsettings/DatabaseSettingsWidgetMasterKey.cpp]
    is [DatabaseWidget.cpp]; it calls the revision with two slots. *)

Module DatabaseWidget.

Record Entry : Type := mkEntry {
  uuid : N;
  title : string
}.

(** The database as [deleteEntries] sees it: the entries outside the recycle
    bin, the recycle bin when there is one, and the metadata flag. *)
Record Database : Type := mkDatabase {
  entries : list Entry;
  recycleBin : option (list Entry);
  recycleBinEnabled : bool
}.

Definition same_entry (a b : Entry) : bool := (uuid a =? uuid b)%N.

Definition findEntryByUuid (u : N) (g : list Entry) : bool :=
  existsb (fun e => (uuid e =? u)%N) g.

(** [delete entry]: the entry leaves the group that holds it. *)
Definition delete_entry (x : Entry) (d : Database) : Database :=
  let keep := filter (fun e => negb (same_entry e x)) in
  mkDatabase (keep (entries d)) (option_map keep (recycleBin d)) (recycleBinEnabled d).

(** [m_db->recycleEntry(entry)]: the entry moves to the recycle bin, which is
    created when absent. *)
Definition recycleEntry (x : Entry) (d : Database) : Database :=
  let keep := filter (fun e => negb (same_entry e x)) in
  mkDatabase (keep (entries d))
             (Some (match recycleBin d with Some b => b | None => [] end ++ [x]))
             (recycleBinEnabled d).

Record Widget : Type := mkWidget {
  statics : TwoSlot.World;
  m_db : Database;
  exit_code : option Z
}.

Definition in_MessageBox {A : Type} (m : M TwoSlot.World A) : M Widget A :=
  fun s => match m (statics s) with
           | Some (a, w) => Some (a, mkWidget w (m_db s) (exit_code s))
           | None => None
           end.

Definition on_db (f : Database -> Database) : M Widget unit :=
  modify (fun s => mkWidget (statics s) (f (m_db s)) (exit_code s)).

(** [QApplication::exit(code)]: the event loop is told to leave with [code]. *)
Definition QApplication_exit (code : Z) : M Widget unit :=
  modify (fun s => mkWidget (statics s) (m_db s) (Some code)).

(** [Q_ASSERT(cond)]: aborts in a debug build, nothing in a release build. *)
Definition Q_ASSERT {S : Type} (debug cond : bool) : M S unit :=
  if debug && negb cond then stuck else ret tt.

Fixpoint for_each {S A : Type} (l : list A) (body : A -> M S unit) : M S unit :=
  match l with
  | [] => ret tt
  | x :: l' => body x ;;; for_each l' body
  end.

Section DeleteEntries.

(** The translated and formatted texts, which depend on the locale. *)
Variable tr_delete_prompt : list Entry -> string.
Variable tr_move_prompt : list Entry -> string.
Variable tr_delete_title : string.
Variable tr_move_title : nat -> string.
Variable tr_Move : string.
Variable tr_Cancel : string.

(** [selectedEntries] are the entries of the selected rows. [refreshSearch]
    only redraws the view and is left out. In the recycle branch the box is
    built on Qt directly; [addButton(QMessageBox::Cancel)] is Qt's standard
    Cancel button, with the reject role. *)
Definition deleteEntries (debug : bool) (click : QMessageBox -> ptr) (this : ptr)
    (selectedEntries : list Entry) : M Widget unit :=
  Q_ASSERT debug (negb (Nat.eqb (List.length selectedEntries) 0)) ;;;
  match selectedEntries with
  | [] => ret tt
  | first :: _ =>
      s <- get ;;
      let inRecycleBin :=
        match recycleBin (m_db s) with
        | Some bin => findEntryByUuid (uuid first) bin
        | None => false
        end in
      if inRecycleBin || negb (recycleBinEnabled (m_db s)) then
        let prompt := tr_delete_prompt selectedEntries in
        answer <- in_MessageBox
                    (TwoSlot.newQuestion click this tr_delete_title prompt
                       (Z.lor TwoSlot.Delete TwoSlot.Cancel) TwoSlot.NoButton) ;;
        (if answer =? TwoSlot.Delete then
           for_each selectedEntries (fun entry => on_db (delete_entry entry))
         else ret tt) ;;;
        in_MessageBox (TwoSlot.setNewNextAnswer TwoSlot.NoToAll) ;;;
        setAnswer <- in_MessageBox
                       (TwoSlot.newQuestion click this tr_delete_title prompt
                          (Z.lor TwoSlot.Delete TwoSlot.Cancel) TwoSlot.NoButton) ;;
        if negb (setAnswer =? TwoSlot.NoToAll) then QApplication_exit 22
        else ret tt
      else
        let prompt := tr_move_prompt selectedEntries in
        let question :=
          setText prompt
            (setWindowTitle (tr_move_title (List.length selectedEntries))
               (setIcon Question (newBox nullptr))) in
        moved <- in_MessageBox
                   (TwoSlot.in_env (QMessageBox_addButton question tr_Move AcceptRole)) ;;
        cancelled <- in_MessageBox
                       (TwoSlot.in_env
                          (QMessageBox_addButton (fst moved) tr_Cancel RejectRole)) ;;
        let cancel := snd cancelled in
        let question := setDefaultButton cancel (fst cancelled) in
        clicked <- in_MessageBox (TwoSlot.in_env (exec click question)) ;;
        if (clicked =? cancel)%N then ret tt
        else for_each selectedEntries (fun entry => on_db (recycleEntry entry))
  end.

End DeleteEntries.

End DatabaseWidget.

(** ** [DatabaseSettingsWidgetMasterKey]

    The first source text of [src/gui/dbsettings/DatabaseSettingsWidgetMasterKey.cpp].
    It calls the revision with one slot. The three key component widgets, the
    keys and the composite key are declared elsewhere: a widget is what
    [save] asks of it, a key is its type identifier and an identity. *)

Module MasterKeySettings.

(** [KeyComponentWidget::Page]. *)
Inductive Page : Type := AddNew | Edit | LeaveOrRemove.

Definition page_eqb (a b : Page) : bool :=
  match a, b with
  | AddNew, AddNew | Edit, Edit | LeaveOrRemove, LeaveOrRemove => true
  | _, _ => false
  end.

Record Key : Type := mkKey {
  key_uuid : N;
  key_id : N
}.

(** [CompositeKey]: two lists of shared pointers, [None] being a null
    pointer. *)
Record CompositeKey : Type := mkCompositeKey {
  keys : list (option Key);
  challengeResponseKeys : list (option Key)
}.

(** A [KeyComponentWidget]: its visible page, [validate(error)] (the result
    and the text left in [error]) and [addToCompositeKey(key)] (the result and
    the key as the widget leaves it). *)
Record Component : Type := mkComponent {
  visiblePage : Page;
  validate : string -> bool * string;
  component_addToCompositeKey : CompositeKey -> bool * CompositeKey
}.

Record Settings : Type := mkSettings {
  m_isDirty : bool;
  m_passwordEditWidget : Component;
  m_keyFileEditWidget : Component;
  m_yubiKeyEditWidget : Component;
  db_key : option CompositeKey;
  statics : OneSlot.World;
  editFinished : list bool
}.

Definition set_isDirty (b : bool) (s : Settings) : Settings :=
  mkSettings b (m_passwordEditWidget s) (m_keyFileEditWidget s)
             (m_yubiKeyEditWidget s) (db_key s) (statics s) (editFinished s).

(** [m_db->setKey(newKey)]. *)
Definition setKey (k : CompositeKey) : M Settings unit :=
  modify (fun s => mkSettings (m_isDirty s) (m_passwordEditWidget s)
                              (m_keyFileEditWidget s) (m_yubiKeyEditWidget s)
                              (Some k) (statics s) (editFinished s)).

(** [emit editFinished(accepted)]. *)
Definition emit_editFinished (accepted : bool) : M Settings unit :=
  modify (fun s => mkSettings (m_isDirty s) (m_passwordEditWidget s)
                              (m_keyFileEditWidget s) (m_yubiKeyEditWidget s)
                              (db_key s) (statics s) (editFinished s ++ [accepted])).

Definition in_MessageBox {A : Type} (m : M OneSlot.World A) : M Settings A :=
  fun s => match m (statics s) with
           | Some (a, w) =>
               Some (a, mkSettings (m_isDirty s) (m_passwordEditWidget s)
                                   (m_keyFileEditWidget s) (m_yubiKeyEditWidget s)
                                   (db_key s) w (editFinished s))
           | None => None
           end.

Definition is_null {A : Type} (p : option A) : bool :=
  match p with Some _ => false | None => true end.

Section Save.

(** The build switch [WITH_XC_YUBIKEY]. *)
Variable WITH_XC_YUBIKEY : bool.

(** [PasswordKey::UUID], [FileKey::UUID], [YkChallengeResponseKey::UUID]. *)
Variable PasswordKey_UUID : N.
Variable FileKey_UUID : N.
Variable YkChallengeResponseKey_UUID : N.

(** The translated texts. *)
Variable tr_Unknown_error : string.
Variable tr_Failed_to_change_master_key : string.
Variable tr_No_encryption_key_added : string.
Variable tr_You_must_add_a_key : string.
Variable tr_No_password_set : string.
Variable tr_WARNING_no_password : string.

Variable debug : bool.
Variable click : QMessageBox -> ptr.
Variable this : ptr.

(** Which list of the composite key an old key goes back to: the two
    overloads of [addToCompositeKey] differ in this only. *)
Inductive OldKeyKind : Type := PlainKey | ChallengeResponse.

Definition add_old (kind : OldKeyKind) (oldKey : option Key) (k : CompositeKey)
  : CompositeKey :=
  match kind with
  | PlainKey => mkCompositeKey (keys k ++ [oldKey]) (challengeResponseKeys k)
  | ChallengeResponse => mkCompositeKey (keys k) (challengeResponseKeys k ++ [oldKey])
  end.

(** [DatabaseSettingsWidgetMasterKey::addToCompositeKey], both overloads.
    [newKey] is passed by reference: the result carries it. The default
    button of [critical] is the default argument, [NoButton]. *)
Definition addToCompositeKey (kind : OldKeyKind) (widget : Component)
    (newKey : CompositeKey) (oldKey : option Key) : M Settings (bool * CompositeKey) :=
  if page_eqb (visiblePage widget) Edit then
    let error := tr_Unknown_error in
    let validated := validate widget error in
    let error := snd validated in
    if fst validated then
      let added := component_addToCompositeKey widget newKey in
      if fst added then ret (true, snd added)
      else
        in_MessageBox (OneSlot.critical click this tr_Failed_to_change_master_key
                         error OneSlot.Ok OneSlot.NoButton) ;;;
        ret (false, snd added)
    else
      in_MessageBox (OneSlot.critical click this tr_Failed_to_change_master_key
                       error OneSlot.Ok OneSlot.NoButton) ;;;
      ret (false, newKey)
  else if page_eqb (visiblePage widget) LeaveOrRemove then
    DatabaseWidget.Q_ASSERT debug (negb (is_null oldKey)) ;;;
    ret (true, add_old kind oldKey newKey)
  else ret (true, newKey).

(** The two loops of [save] over the keys of the database: the last key of
    each type. [key->uuid()] on a null pointer has no result. *)
Definition last_of_type (uuid1 uuid2 : option N) (l : list (option Key))
  : option (option Key * option Key) :=
  fold_left
    (fun acc key =>
       match acc, key with
       | Some (k1, k2), Some k =>
           if match uuid1 with Some u => (key_uuid k =? u)%N | None => false end
           then Some (key, k2)
           else if match uuid2 with Some u => (key_uuid k =? u)%N | None => false end
                then Some (k1, key)
                else Some (k1, k2)
       | _, _ => None
       end)
    l (Some (None, None)).

Definition lift_option {S A : Type} (o : option A) : M S A :=
  match o with Some a => ret a | None => stuck end.

(** [DatabaseSettingsWidgetMasterKey::save]. *)
Definition save : M Settings bool :=
  s <- get ;;
  let dirty :=
    ((m_isDirty s || page_eqb (visiblePage (m_passwordEditWidget s)) Edit)
     || page_eqb (visiblePage (m_keyFileEditWidget s)) Edit)
    || (WITH_XC_YUBIKEY && page_eqb (visiblePage (m_yubiKeyEditWidget s)) Edit) in
  modify (set_isDirty dirty) ;;;
  if match db_key s with
     | Some k => negb (Nat.eqb (List.length (keys k)) 0) && negb dirty
     | None => false
     end
  then ret true
  else
    let newKey := mkCompositeKey [] [] in
    dbKey <- lift_option (db_key s) ;;
    plain <- lift_option
               (last_of_type (Some PasswordKey_UUID) (Some FileKey_UUID) (keys dbKey)) ;;
    let passwordKey := fst plain in
    let fileKey := snd plain in
    cr <- lift_option
            (last_of_type (Some YkChallengeResponseKey_UUID) None
                          (challengeResponseKeys dbKey)) ;;
    let ykCrKey := fst cr in
    r1 <- addToCompositeKey PlainKey (m_passwordEditWidget s) newKey passwordKey ;;
    if negb (fst r1) then ret false
    else
      r2 <- addToCompositeKey PlainKey (m_keyFileEditWidget s) (snd r1) fileKey ;;
      if negb (fst r2) then ret false
      else
        r3 <- (if WITH_XC_YUBIKEY
               then addToCompositeKey ChallengeResponse (m_yubiKeyEditWidget s)
                                      (snd r2) ykCrKey
               else ret (true, snd r2)) ;;
        if negb (fst r3) then ret false
        else
          let newKey := snd r3 in
          if Nat.eqb (List.length (keys newKey)) 0
             && Nat.eqb (List.length (challengeResponseKeys newKey)) 0
          then
            in_MessageBox (OneSlot.critical click this tr_No_encryption_key_added
                             tr_You_must_add_a_key OneSlot.Ok OneSlot.Ok) ;;;
            ret false
          else
            proceed <-
              (if page_eqb (visiblePage (m_passwordEditWidget s)) AddNew
               then
                 answer <- in_MessageBox
                             (OneSlot.warning click this tr_No_password_set
                                tr_WARNING_no_password
                                (Z.lor OneSlot.Yes OneSlot.Cancel) OneSlot.Cancel) ;;
                 ret (answer =? OneSlot.Yes)
               else ret true) ;;
            if negb proceed then ret false
            else
              setKey newKey ;;;
              emit_editFinished true ;;;
              ret true.

End Save.

End MasterKeySettings.

(** ** [DatabaseWidget]: saving and the file watcher

    [currentMode], [isLocked], [save], [saveAs], [blockAutoReload],
    [unblockAutoReload], [onWatchedFileChanged] and [updateFilePath] of
    [DatabaseWidget.cpp]. The database file, the configuration, the file
    dialog and the file system are outside: what they answer is given by
    functions, what is asked of them is logged in the state. *)

Module SaveFlow.

(** The children of the stacked widget, in the order the constructor adds
    them. *)
Inductive StackWidget : Type :=
| MainWidget | EditEntryWidget | EditGroupWidget | DatabaseSettingDialog
| HistoryEditEntryWidget | DatabaseOpenWidget | CsvImportWizard
| Keepass1OpenWidget.

(** [DatabaseWidget::Mode]. *)
Inductive Mode : Type := ModeNone | ViewMode | LockedMode | ImportMode | EditMode.

Definition Mode_eqb (a b : Mode) : bool :=
  match a, b with
  | ModeNone, ModeNone | ViewMode, ViewMode | LockedMode, LockedMode
  | ImportMode, ImportMode | EditMode, EditMode => true
  | _, _ => false
  end.

(** [MessageWidget::MessageType], the one value these functions use. *)
Inductive MessageType : Type := MessageError.

(** The configuration: the boolean entries by name. *)
Definition Config : Type := string -> option bool.

Definition config_get (c : Config) (key : string) (defaultValue : bool) : bool :=
  match c key with Some b => b | None => defaultValue end.

Definition config_set (c : Config) (key : string) (value : bool) : Config :=
  fun k => if String.eqb k key then Some value else c k.

(** What is asked of the [QFileSystemWatcher]. *)
Inductive WatcherCall : Type :=
| addPath (path : string)
| removePath (path : string)
| setObjectName (name : string).

(** A single-shot [QTimer]: [Some t] while it runs, with [t] ms to go until
    it times out; [start(500)] gives [Some 500]. *)
Definition QTimer : Type := option Z.

Record Saver : Type := mkSaver {
  statics : TwoSlot.World;
  currentWidget : option StackWidget;
  db_readOnly : bool;
  db_filePath : string;
  config : Config;
  m_ignoreAutoReload : bool;
  m_fileWatchTimer : QTimer;
  m_fileWatchUnblockTimer : QTimer;
  m_fileWatcher : list WatcherCall;
  writes : list (string * bool * bool);
  asked : list string;
  messages : list (string * MessageType)
}.

Definition currentMode (s : Saver) : Mode :=
  match currentWidget s with
  | None => ModeNone
  | Some MainWidget => ViewMode
  | Some DatabaseOpenWidget | Some Keepass1OpenWidget => LockedMode
  | Some CsvImportWizard => ImportMode
  | Some _ => EditMode
  end.

Definition isLocked (s : Saver) : bool := Mode_eqb (currentMode s) LockedMode.

Definition in_MessageBox {A : Type} (m : M TwoSlot.World A) : M Saver A :=
  fun s => match m (statics s) with
           | Some (a, w) =>
               Some (a, mkSaver w (currentWidget s) (db_readOnly s) (db_filePath s)
                                (config s) (m_ignoreAutoReload s) (m_fileWatchTimer s)
                                (m_fileWatchUnblockTimer s) (m_fileWatcher s)
                                (writes s) (asked s) (messages s))
           | None => None
           end.

Definition set_db (readOnly : bool) (filePath : string) (s : Saver) : Saver :=
  mkSaver (statics s) (currentWidget s) readOnly filePath (config s)
          (m_ignoreAutoReload s) (m_fileWatchTimer s) (m_fileWatchUnblockTimer s)
          (m_fileWatcher s) (writes s) (asked s) (messages s).

Definition set_config (c : Config) (s : Saver) : Saver :=
  mkSaver (statics s) (currentWidget s) (db_readOnly s) (db_filePath s) c
          (m_ignoreAutoReload s) (m_fileWatchTimer s) (m_fileWatchUnblockTimer s)
          (m_fileWatcher s) (writes s) (asked s) (messages s).

Definition set_reload (ignore : bool) (timer unblock : QTimer) (s : Saver) : Saver :=
  mkSaver (statics s) (currentWidget s) (db_readOnly s) (db_filePath s) (config s)
          ignore timer unblock
          (m_fileWatcher s) (writes s) (asked s) (messages s).

Definition ask_watcher (c : WatcherCall) : M Saver unit :=
  modify (fun s =>
            mkSaver (statics s) (currentWidget s) (db_readOnly s) (db_filePath s)
                    (config s) (m_ignoreAutoReload s) (m_fileWatchTimer s)
                    (m_fileWatchUnblockTimer s) (m_fileWatcher s ++ [c])
                    (writes s) (asked s) (messages s)).

Definition log_write (w : string * bool * bool) (s : Saver) : Saver :=
  mkSaver (statics s) (currentWidget s) (db_readOnly s) (db_filePath s) (config s)
          (m_ignoreAutoReload s) (m_fileWatchTimer s) (m_fileWatchUnblockTimer s)
          (m_fileWatcher s) (writes s ++ [w]) (asked s) (messages s).

Definition log_asked (suggested : string) (s : Saver) : Saver :=
  mkSaver (statics s) (currentWidget s) (db_readOnly s) (db_filePath s) (config s)
          (m_ignoreAutoReload s) (m_fileWatchTimer s) (m_fileWatchUnblockTimer s)
          (m_fileWatcher s) (writes s) (asked s ++ [suggested]) (messages s).

(** [DatabaseWidget::showMessage]: the text and type handed to the message
    widget. *)
Definition showMessage (text : string) (type : MessageType) : M Saver unit :=
  modify (fun s =>
            mkSaver (statics s) (currentWidget s) (db_readOnly s) (db_filePath s)
                    (config s) (m_ignoreAutoReload s) (m_fileWatchTimer s)
                    (m_fileWatchUnblockTimer s) (m_fileWatcher s)
                    (writes s) (asked s) (messages s ++ [(text, type)])).

(** [DatabaseWidget::blockAutoReload]. *)
Definition blockAutoReload (block : bool) : M Saver unit :=
  if block then
    modify (fun s => set_reload true None (m_fileWatchUnblockTimer s) s)
  else
    modify (fun s => set_reload (m_ignoreAutoReload s) (m_fileWatchTimer s) (Some 500) s).

(** [DatabaseWidget::onWatchedFileChanged]. *)
Definition onWatchedFileChanged : M Saver unit :=
  s <- get ;;
  if m_ignoreAutoReload s then ret tt
  else if negb (MasterKeySettings.is_null (m_fileWatchTimer s)) then ret tt
  else modify (fun s => set_reload (m_ignoreAutoReload s) (Some 500)
                                   (m_fileWatchUnblockTimer s) s).

(** [dt] ms go by in which no timer times out: a running timer has [dt] ms
    less to go. There is no such step when a timer has [dt] ms to go or
    less. *)
Definition QTimer_outlasts (dt : Z) (t : QTimer) : bool :=
  match t with
  | Some togo => dt <? togo
  | None => true
  end.

Definition QTimer_later (dt : Z) (t : QTimer) : QTimer :=
  option_map (fun togo => togo - dt) t.

Definition time_passes (dt : Z) : M Saver unit :=
  s <- get ;;
  if QTimer_outlasts dt (m_fileWatchTimer s)
     && QTimer_outlasts dt (m_fileWatchUnblockTimer s)
  then modify (fun s => set_reload (m_ignoreAutoReload s)
                          (QTimer_later dt (m_fileWatchTimer s))
                          (QTimer_later dt (m_fileWatchUnblockTimer s)) s)
  else stuck.

Section Outside.

(** The build switch [Q_OS_LINUX], and [statfs]: the file system type of a
    path, or a failure. *)
Variable Q_OS_LINUX : bool.
Variable statfs : string -> option Z.

(** [m_db->save(&errorMessage, atomic, backup)]: the outcome of the [n]-th
    write, with the error text it leaves. The configuration entry
    [BackupBeforeSave] is read without a default; an absent entry counts as
    false. *)
Variable disk : nat -> string -> bool -> bool -> bool * string.

(** [fileDialog()->getSaveFileName(...)]: the path chosen at the [n]-th
    request, empty when the dialog is cancelled. *)
Variable chooser : nat -> string -> string.

(** [QFileInfo(path).exists()]. *)
Variable file_exists : string -> bool.

(** The path offered when the database has none that exists: last directory,
    translated file name and suffix. *)
Variable default_save_path : string.

(** The translated texts. *)
Variable tr_Disable_safe_saves : string.
Variable tr_failed_multiple_times : string.
Variable tr_Writing_failed : string -> string.

Variable debug : bool.
Variable answer : Shown -> Z.

(** How long the operator leaves a dialog open, in ms. *)
Variable elapsed : Shown -> N.

Variable this : ptr.

Definition NFS_SUPER_MAGIC : Z := 0x6969.

(** [DatabaseWidget::updateFilePath]. *)
Definition updateFilePath (filePath : string) : M Saver unit :=
  s <- get ;;
  (if negb (String.eqb (db_filePath s) EmptyString)
   then ask_watcher (removePath (db_filePath s))
   else ret tt) ;;;
  (if Q_OS_LINUX then
     let forcePolling :=
       match statfs filePath with
       | Some f_type => f_type =? NFS_SUPER_MAGIC
       | None => true
       end in
     let objectName :=
       if forcePolling then "_qt_autotest_force_engine_poller"%string
       else EmptyString in
     ask_watcher (setObjectName objectName)
   else ret tt) ;;;
  ask_watcher (addPath filePath) ;;;
  modify (fun s => set_db (db_readOnly s) filePath s).

(** [DatabaseWidget::unblockAutoReload]. *)
Definition unblockAutoReload : M Saver unit :=
  modify (fun s => set_reload false (m_fileWatchTimer s) (m_fileWatchUnblockTimer s) s) ;;;
  s <- get ;;
  updateFilePath (db_filePath s).

(** [m_fileWatchUnblockTimer] times out. The constructor makes the timer
    single-shot and connects its signal to [unblockAutoReload]. *)
Definition unblockTimer_timeout : M Saver unit :=
  modify (fun s => set_reload (m_ignoreAutoReload s) (m_fileWatchTimer s) None s) ;;;
  unblockAutoReload.

(** The event loop of the dialog [save] shows, open for [dt] ms.
    [m_fileWatchUnblockTimer], which [blockAutoReload(false)] has just
    started, times out in it when it has no more than [dt] ms to go, and has
    [dt] ms less to go otherwise. [m_fileWatchTimer] does not run:
    [blockAutoReload(true)] has stopped it. What other programs do to the
    file while the dialog is open is outside. *)
Definition dialog_event_loop (dt : Z) : M Saver unit :=
  s <- get ;;
  match m_fileWatchUnblockTimer s with
  | Some t =>
      if t <=? dt then unblockTimer_timeout
      else modify (fun s => set_reload (m_ignoreAutoReload s) (m_fileWatchTimer s)
                                       (Some (t - dt)) s)
  | None => ret tt
  end.

(** [attempt + 1] on an [int]: no result on overflow. *)
Definition int_succ {S : Type} (attempt : Z) : M S Z :=
  if attempt <? 2 ^ 31 - 1 then ret (attempt + 1) else stuck.

(** [DatabaseWidget::save] and [DatabaseWidget::saveAs], which call each
    other. The fuel bounds the calls of [save] and the rounds of the loop of
    [saveAs] taken together. [MessageBox::question] runs Qt's dialog, and
    with it an event loop, when no answer is scripted; a scripted answer
    comes back at once. *)
Fixpoint save (fuel : nat) (attempt : Z) : M Saver bool :=
  match fuel with
  | O => stuck
  | S fuel' =>
      s <- get ;;
      DatabaseWidget.Q_ASSERT debug (negb (isLocked s)) ;;;
      if isLocked s then ret true
      else if db_readOnly s || String.eqb (db_filePath s) EmptyString
      then saveAs fuel'
      else
        blockAutoReload true ;;;
        s <- get ;;
        let useAtomicSaves := config_get (config s) "UseAtomicSaves" true in
        let written :=
          disk (List.length (writes s)) (db_filePath s) useAtomicSaves
               (config_get (config s) "BackupBeforeSave" false) in
        modify (log_write (db_filePath s, useAtomicSaves,
                           config_get (config s) "BackupBeforeSave" false)) ;;;
        let ok := fst written in
        let errorMessage := snd written in
        blockAutoReload false ;;;
        if ok then ret true
        else if (0 <=? attempt) && (attempt <=? 2)
        then next <- int_succ attempt ;; save fuel' next
        else
          again <-
            (if (2 <? attempt) && useAtomicSaves then
               s <- get ;;
               let dialog :=
                 Standard Question this tr_Disable_safe_saves
                          tr_failed_multiple_times
                          (Z.lor StandardButton.Yes StandardButton.No)
                          StandardButton.Yes in
               let shown :=
                 TwoSlot.m_nextAnswer (statics s) =? StandardButton.NoButton in
               choice <- in_MessageBox
                           (TwoSlot.question answer this tr_Disable_safe_saves
                              tr_failed_multiple_times
                              (Z.lor StandardButton.Yes StandardButton.No)
                              StandardButton.Yes) ;;
               (if shown then dialog_event_loop (Z.of_N (elapsed dialog))
                else ret tt) ;;;
               ret (choice =? StandardButton.Yes)
             else ret false) ;;
          if again then
            modify (fun s => set_config (config_set (config s) "UseAtomicSaves" false) s) ;;;
            next <- int_succ attempt ;;
            save fuel' next
          else
            showMessage (tr_Writing_failed errorMessage) MessageError ;;;
            ret false
  end
with saveAs (fuel : nat) : M Saver bool :=
  match fuel with
  | O => stuck
  | S fuel' =>
      s <- get ;;
      let oldFilePath := db_filePath s in
      let oldFilePath :=
        if negb (file_exists oldFilePath) then default_save_path else oldFilePath in
      let newFilePath := chooser (List.length (asked s)) oldFilePath in
      modify (log_asked oldFilePath) ;;;
      if negb (String.eqb newFilePath EmptyString) then
        modify (set_db false newFilePath) ;;;
        saved <- save fuel' (-1) ;;
        if negb saved then saveAs fuel'
        else ret true
      else ret false
  end.

End Outside.

End SaveFlow.

(** ** [DatabaseWidget::openUrlForEntry]

    A [QString] is its sequence of UTF-16 code units, so that [length],
    [mid] and [left] count what Qt counts. The entry, the process launcher
    and the desktop services are outside: what the function asks of them is
    logged. *)

Module OpenUrl.

Definition QString : Type := list N.

Fixpoint QString_eqb (a b : QString) : bool :=
  match a, b with
  | [], [] => true
  | x :: a', y :: b' => (x =? y)%N && QString_eqb a' b'
  | _, _ => false
  end.

(** [s.startsWith(prefix)]. *)
Fixpoint startsWith (prefix s : QString) : bool :=
  match prefix, s with
  | [], _ => true
  | x :: prefix', y :: s' => (x =? y)%N && startsWith prefix' s'
  | _ :: _, [] => false
  end.

(** [s.mid(n)] for [n] within the string, and [s.left(n)]. *)
Definition mid (n : nat) (s : QString) : QString := skipn n s.
Definition left (n : nat) (s : QString) : QString := firstn n s.

(** The literals of the function: ["cmd://"], ["1"], ["0"] and the suffix of
    a shortened command, a space and an ellipsis in square brackets. *)
Definition lit_cmd : QString := [99; 109; 100; 58; 47; 47]%N.
Definition lit_1 : QString := [49]%N.
Definition lit_0 : QString := [48]%N.
Definition lit_ellipsis : QString := [32; 91; 8230; 93]%N.

(** [Qt::CheckState]. *)
Definition Unchecked : Z := 0.
Definition PartiallyChecked : Z := 1.
Definition Checked : Z := 2.

(** [EntryAttributes]: the value of each key that is present. *)
Definition Attributes : Type := QString -> option QString.

Definition hasKey (a : Attributes) (key : QString) : bool :=
  match a key with Some _ => true | None => false end.

Definition value (a : Attributes) (key : QString) : QString :=
  match a key with Some v => v | None => [] end.

Definition set (a : Attributes) (key v : QString) : Attributes :=
  fun k => if QString_eqb k key then Some v else a k.

(** The question put to the operator: the command as shown, the text built
    around it, the standard buttons and the default. *)
Record CommandBox : Type := mkCommandBox {
  shownCommand : QString;
  boxText : QString;
  boxButtons : Z;
  boxDefault : Z
}.

Record Desk : Type := mkDesk {
  attributes : Attributes;
  started : list QString;
  opened : list QString;
  asked : list CommandBox
}.

Section OpenUrlForEntry.

(** [EntryAttributes::RememberCmdExecAttr]. *)
Variable RememberCmdExecAttr : QString.

(** [entry->resolveMultiplePlaceholders(entry->url())] and
    [entry->webUrl()]. *)
Variable resolved_url : QString.
Variable webUrl : QString.

(** The translated question around the escaped command. *)
Variable tr_execute_prompt : QString -> QString.

(** [msgbox.exec()]: the result, and the states the check box went
    through. *)
Variable operator : CommandBox -> Z * list Z.

Definition openUrlForEntry : M Desk unit :=
  let cmdString := resolved_url in
  if startsWith lit_cmd cmdString then
    d <- get ;;
    if hasKey (attributes d) RememberCmdExecAttr then
      if QString_eqb (value (attributes d) RememberCmdExecAttr) lit_1 then
        modify (fun d => mkDesk (attributes d) (started d ++ [mid 6 cmdString])
                                (opened d) (asked d))
      else ret tt
    else if (6 <? List.length cmdString)%nat then
      let cmdTruncated := mid 6 cmdString in
      let cmdTruncated :=
        if (400 <? List.length cmdTruncated)%nat
        then left 400 cmdTruncated ++ lit_ellipsis
        else cmdTruncated in
      let msgbox := mkCommandBox cmdTruncated (tr_execute_prompt cmdTruncated)
                      (Z.lor StandardButton.Yes StandardButton.No)
                      StandardButton.No in
      let outcome := operator msgbox in
      let remember := existsb (fun state => state =? Checked) (snd outcome) in
      let result := fst outcome in
      modify (fun d => mkDesk (attributes d) (started d) (opened d)
                              (asked d ++ [msgbox])) ;;;
      (if result =? StandardButton.Yes
       then modify (fun d => mkDesk (attributes d) (started d ++ [mid 6 cmdString])
                                    (opened d) (asked d))
       else ret tt) ;;;
      (if remember
       then modify (fun d =>
                      mkDesk (set (attributes d) RememberCmdExecAttr
                                  (if result =? StandardButton.Yes then lit_1 else lit_0))
                             (started d) (opened d) (asked d))
       else ret tt)
    else ret tt
  else
    let urlString := webUrl in
    if negb (Nat.eqb (List.length urlString) 0)
    then modify (fun d => mkDesk (attributes d) (started d) (opened d ++ [urlString])
                                 (asked d))
    else ret tt.

End OpenUrlForEntry.

End OpenUrl.

(** ** [DatabaseWidget::lock] and [DatabaseWidget::closeEvent]

    The database, the views and the clipboard are declared elsewhere. What
    [lock] reads of them once ([m_db->isModified()], the name of the
    database, the current group and entry) is given by values; what it asks
    of them is logged in the order of the calls. [endSearch],
    [clearAllWidgets] and the part of [replaceDatabase] that connects the
    signals, hands the database to the group view and processes the
    auto-open group are logged as calls. *)

Module LockFlow.
Import SaveFlow.

Inductive Effect : Type :=
| clearCopiedText
| endSearch
| clearAllWidgets
| databaseOpenWidget_load (filePath : string)
| replaceDatabase (filePath : string)
| emit_databaseLocked.

(** [QUuid]. *)
Definition QUuid : Type := N.

Record Locker : Type := mkLocker {
  saver : Saver;
  m_groupBeforeLock : QUuid;
  m_entryBeforeLock : QUuid;
  effects : list Effect
}.

Definition in_Saver {A : Type} (m : M Saver A) : M Locker A :=
  fun s => match m (saver s) with
           | Some (a, v) =>
               Some (a, mkLocker v (m_groupBeforeLock s) (m_entryBeforeLock s)
                                 (effects s))
           | None => None
           end.

Definition effect (e : Effect) : M Locker unit :=
  modify (fun s => mkLocker (saver s) (m_groupBeforeLock s) (m_entryBeforeLock s)
                            (effects s ++ [e])).

Definition set_groupBeforeLock (u : QUuid) (s : Locker) : Locker :=
  mkLocker (saver s) u (m_entryBeforeLock s) (effects s).

Definition set_entryBeforeLock (u : QUuid) (s : Locker) : Locker :=
  mkLocker (saver s) (m_groupBeforeLock s) u (effects s).

(** [QStackedWidget::setCurrentWidget]. *)
Definition setCurrentWidget (w : StackWidget) : M Saver unit :=
  modify (fun s =>
            mkSaver (statics s) (Some w) (db_readOnly s) (db_filePath s) (config s)
                    (m_ignoreAutoReload s) (m_fileWatchTimer s)
                    (m_fileWatchUnblockTimer s) (m_fileWatcher s)
                    (writes s) (asked s) (messages s)).

Section Lock.

Variable Q_OS_LINUX : bool.
Variable statfs : string -> option Z.

(** [m_db->save(...)]: the outcome of the [n]-th write, as in [SaveFlow]. *)
Variable disk : nat -> string -> bool -> bool -> bool * string.

(** [m_db->isModified()] and [m_db->metadata()->name().toHtmlEscaped()].
    The configuration entry [AutoSaveOnExit] is read without a default; an
    absent entry counts as false. *)
Variable db_isModified : bool.
Variable escaped_name : string.

(** The uuid of [m_groupView->currentGroup()] and of
    [m_entryView->currentEntry()], [None] for a null pointer, and the uuid of
    [m_db->rootGroup()]. *)
Variable currentGroup_uuid : option QUuid.
Variable rootGroup_uuid : QUuid.
Variable currentEntry_uuid : option QUuid.

(** [QSharedPointer<Database>::create(filePath)]: the read-only flag and the
    path of the database it constructs. *)
Variable created_readOnly : string -> bool.
Variable created_filePath : string -> string.

(** The translated texts. *)
Variable tr_Lock_Database : string.
Variable tr_You_are_editing : string.
Variable tr_Save_changes : string.
Variable tr_Database_was_modified : string.
Variable tr_was_modified : string -> string.

Variable answer : Shown -> Z.
Variable this : ptr.

(** [m_db->save(nullptr, atomic, backup)]: no error text is asked for. *)
Definition Database_save (atomic backup : bool) : M Saver bool :=
  s <- get ;;
  let written := disk (List.length (writes s)) (db_filePath s) atomic backup in
  modify (log_write (db_filePath s, atomic, backup)) ;;;
  ret (fst written).

(** [DatabaseWidget::switchToOpenDatabase(filePath)]. *)
Definition switchToOpenDatabase (filePath : string) : M Locker unit :=
  in_Saver (updateFilePath Q_OS_LINUX statfs filePath) ;;;
  effect (databaseOpenWidget_load filePath) ;;;
  in_Saver (setCurrentWidget DatabaseOpenWidget).

(** [DatabaseWidget::lock]. *)
Definition lock : M Locker bool :=
  s <- get ;;
  if isLocked (saver s) then ret true
  else
    effect clearCopiedText ;;;
    s <- get ;;
    goOn <-
      (if Mode_eqb (currentMode (saver s)) EditMode then
         result <- in_Saver
                     (in_MessageBox
                        (TwoSlot.question answer this tr_Lock_Database
                           tr_You_are_editing
                           (Z.lor StandardButton.Discard StandardButton.Cancel)
                           StandardButton.Cancel)) ;;
         ret (negb (result =? StandardButton.Cancel))
       else ret true) ;;
    if negb goOn then ret false
    else
      goOn <-
        (if db_isModified then
           s <- get ;;
           if config_get (config (saver s)) "AutoSaveOnExit" false then
             saved <- in_Saver (Database_save false false) ;;
             ret saved
           else if negb (isLocked (saver s)) then
             let msg :=
               if negb (String.eqb escaped_name EmptyString)
               then tr_was_modified escaped_name
               else tr_Database_was_modified in
             result <- in_Saver
                         (in_MessageBox
                            (TwoSlot.question answer this tr_Save_changes msg
                               (Z.lor (Z.lor StandardButton.Yes StandardButton.Discard)
                                      StandardButton.Cancel)
                               StandardButton.Yes)) ;;
             failed <- (if result =? StandardButton.Yes
                        then saved <- in_Saver (Database_save false false) ;;
                             ret (negb saved)
                        else ret false) ;;
             if failed then ret false
             else if result =? StandardButton.Cancel then ret false
             else ret true
           else ret true
         else ret true) ;;
      if negb goOn then ret false
      else
        modify (set_groupBeforeLock
                  (match currentGroup_uuid with
                   | Some u => u
                   | None => rootGroup_uuid
                   end)) ;;;
        (match currentEntry_uuid with
         | Some u => modify (set_entryBeforeLock u)
         | None => ret tt
         end) ;;;
        effect endSearch ;;;
        effect clearAllWidgets ;;;
        s <- get ;;
        switchToOpenDatabase (db_filePath (saver s)) ;;;
        s <- get ;;
        let filePath := db_filePath (saver s) in
        in_Saver (modify (set_db (created_readOnly filePath)
                                 (created_filePath filePath))) ;;;
        effect (replaceDatabase filePath) ;;;
        effect emit_databaseLocked ;;;
        ret true.

(** [DatabaseWidget::closeEvent]: true when the event is accepted, false
    when it is ignored. *)
Definition closeEvent : M Locker bool :=
  s <- get ;;
  refused <- (if negb (isLocked (saver s))
              then locked <- lock ;; ret (negb locked)
              else ret false) ;;
  if refused then ret false else ret true.

End Lock.

End LockFlow.

(** ** [DatabaseWidget]: searching

    [refreshSearch], [search], [onGroupChanged] and [endSearch] of
    [DatabaseWidget.cpp]. The entry view and the entry searcher are declared
    elsewhere: the view is a state of any type with the three operations
    these functions use, the searcher a function. A group is the uuid of a
    [Group*], [None] for a null pointer. *)

Module SearchFlow.

Inductive Signal : Type :=
| searchModeAboutToActivate
| searchModeActivated
| listModeAboutToActivate
| listModeActivated
| clearSearch.

Section View.

Variable EntryView : Type.
Variable inSearchMode : EntryView -> bool.
Variable displaySearch : list N -> EntryView -> EntryView.
Variable displayGroup : option N -> EntryView -> EntryView.

(** [m_EntrySearcher->search(searchtext, searchGroup)]: the uuids of the
    entries found. *)
Variable EntrySearcher_search : string -> option N -> list N.

(** [m_groupView->currentGroup()] and [m_db->rootGroup()]. *)
Variable currentGroup : option N.
Variable rootGroup : option N.

(** The translated texts. *)
Variable tr_Search_Results : nat -> string.
Variable tr_No_Results : string.
Variable tr_Searching : string.

(** [m_searchingLabel] is its visibility and its text. *)
Record Searching : Type := mkSearching {
  m_entryView : EntryView;
  m_lastSearchText : string;
  m_searchLimitGroup : bool;
  label_visible : bool;
  label_text : string;
  emitted : list Signal
}.

Definition emit (g : Signal) : M Searching unit :=
  modify (fun s => mkSearching (m_entryView s) (m_lastSearchText s)
                               (m_searchLimitGroup s) (label_visible s)
                               (label_text s) (emitted s ++ [g])).

Definition on_entryView (f : EntryView -> EntryView) : M Searching unit :=
  modify (fun s => mkSearching (f (m_entryView s)) (m_lastSearchText s)
                               (m_searchLimitGroup s) (label_visible s)
                               (label_text s) (emitted s)).

Definition set_lastSearchText (text : string) : M Searching unit :=
  modify (fun s => mkSearching (m_entryView s) text (m_searchLimitGroup s)
                               (label_visible s) (label_text s) (emitted s)).

Definition label_setVisible (visible : bool) : M Searching unit :=
  modify (fun s => mkSearching (m_entryView s) (m_lastSearchText s)
                               (m_searchLimitGroup s) visible (label_text s)
                               (emitted s)).

Definition label_setText (text : string) : M Searching unit :=
  modify (fun s => mkSearching (m_entryView s) (m_lastSearchText s)
                               (m_searchLimitGroup s) (label_visible s) text
                               (emitted s)).

(** [DatabaseWidget::isSearchActive]. *)
Definition isSearchActive (s : Searching) : bool := inSearchMode (m_entryView s).

(** [DatabaseWidget::endSearch]. *)
Definition endSearch : M Searching unit :=
  s <- get ;;
  (if isSearchActive s then
     emit listModeAboutToActivate ;;;
     on_entryView (displayGroup currentGroup) ;;;
     emit listModeActivated
   else ret tt) ;;;
  label_setVisible false ;;;
  label_setText tr_Searching ;;;
  set_lastSearchText EmptyString.

(** [DatabaseWidget::search]. *)
Definition search (searchtext : string) : M Searching unit :=
  if String.eqb searchtext EmptyString then endSearch
  else
    emit searchModeAboutToActivate ;;;
    s <- get ;;
    let searchGroup := if m_searchLimitGroup s then currentGroup else rootGroup in
    let searchResult := EntrySearcher_search searchtext searchGroup in
    on_entryView (displaySearch searchResult) ;;;
    set_lastSearchText searchtext ;;;
    (if negb (Nat.eqb (List.length searchResult) 0)
     then label_setText (tr_Search_Results (List.length searchResult))
     else label_setText tr_No_Results) ;;;
    label_setVisible true ;;;
    emit searchModeActivated.

(** [DatabaseWidget::refreshSearch]. *)
Definition refreshSearch : M Searching unit :=
  s <- get ;;
  if isSearchActive s then search (m_lastSearchText s) else ret tt.

(** [DatabaseWidget::onGroupChanged]. *)
Definition onGroupChanged (group : option N) : M Searching unit :=
  s <- get ;;
  if isSearchActive s then search (m_lastSearchText s)
  else
    s <- get ;;
    if isSearchActive s then emit clearSearch
    else on_entryView (displayGroup group).

End View.

End SearchFlow.

(** * Properties *)

(** ** The loop over the enumeration *)

(** The bit flags [1 << i], [i = from, from + 1, ...], [count] of them. *)
Definition flags (from count : nat) : list Z :=
  map (fun i => 2 ^ Z.of_nat i) (seq from count).

(** The members of [range] present in the set [buttons], in the order of
    [range]. *)
Definition requested (range : list Z) (buttons : Z) : list Z :=
  filter (fun b => negb (Z.land b buttons =? 0)) range.

(** [addButton] called for each value of a list in turn. *)
Fixpoint add_all (cases : Cases) (l : list Z) (box : QMessageBox) : M Env QMessageBox :=
  match l with
  | [] => ret box
  | b :: l' => box' <- addButton_switch cases box b ;; add_all cases l' box'
  end.

(** The buttons a run of [add_all] creates from address [p] on, and the
    entries it inserts in the map. *)
Fixpoint pushed (cases : Cases) (p : ptr) (l : list Z) : list PushButton :=
  match l with
  | [] => []
  | b :: l' =>
      match switch cases b with
      | Some (text, r) => mkPushButton p text r :: pushed cases (N.succ p) l'
      | None => []
      end
  end.

Fixpoint mapped (p : ptr) (l : list Z) : QMap :=
  match l with
  | [] => []
  | b :: l' => (p, b) :: mapped (N.succ p) l'
  end.

Definition insert_all (new : QMap) (m : QMap) : QMap :=
  fold_left (fun acc e => qmap_insert (fst e) (snd e) acc) new m.

Definition pushAll (l : list PushButton) (box : QMessageBox) : QMessageBox :=
  fold_left (fun b pb => pushButton pb b) l box.

(** A value [addButton] has a case for. *)
Definition covered (cases : Cases) (b : Z) : Prop :=
  b <> 0 /\ switch cases b <> None.

(** The box [newQuestion] has built when it calls [exec], the first button
    being created at address [p]. *)
Definition newQuestion_box (parent : ptr) (title text : string) (buttons : Z) (p : ptr)
  : QMessageBox :=
  pushAll (pushed TwoSlot.addButton_cases p (requested TwoSlot.all_buttons buttons))
          (setText text (setWindowTitle title (setIcon Question (newBox parent)))).

(** What [chooseDefault] does to the box, given the map it reads. *)
Definition withDefault (defaultButton : Z) (m : QMap) (box : QMessageBox)
  : QMessageBox :=
  if negb (defaultButton =? OneSlot.NoButton) then
    match qmap_keys defaultButton m with
    | p :: _ => setDefaultButton p box
    | [] => box
    end
  else box.

(** The box [messageBox] has built when it calls [exec], the first button
    being created at address [p] and the map holding [m] on entry. *)
Definition messageBox_box (parent : ptr) (icon : Icon) (title text : string)
    (buttons defaultButton : Z) (m : QMap) (p : ptr) : QMessageBox :=
  withDefault defaultButton
    (insert_all (mapped p (requested OneSlot.all_buttons buttons)) m)
    (pushAll (pushed OneSlot.addButton_cases p (requested OneSlot.all_buttons buttons))
             (setText text (setWindowTitle title (setIcon icon (newBox parent))))).

(** The claim C5 as stated, for either revision: with no override pending, a
    request for no button at all yields no result. *)
Definition empty_request_is_refused : Prop :=
  (forall click parent icon title text d (w : OneSlot.World),
      OneSlot.m_nextAnswer w = OneSlot.NoButton ->
      OneSlot.messageBox click parent icon title text 0 d w = None)
  \/ (forall click parent title text d (w : TwoSlot.World),
      TwoSlot.m_newNextAnswer w = TwoSlot.NoButton ->
      TwoSlot.newQuestion click parent title text 0 d w = None).

(** The claim C7 as stated: no enumerator of [MessageBox::Button] between the
    loop markers has the value of a [QMessageBox::StandardButton]. *)
Definition ranges_disjoint : Prop :=
  forall b q, In b TwoSlot.all_buttons -> In q StandardButton.all -> b <> q.

(** A slot known to hold a value other than 0 is set. *)
Ltac slot_set :=
  unfold OneSlot.NoButton, TwoSlot.NoButton, StandardButton.NoButton; congruence.

(** The enumerators between the loop markers, as one mask. *)
Definition TwoSlot_mask : Z := fold_right Z.lor 0 TwoSlot.all_buttons.
Definition OneSlot_mask : Z := fold_right Z.lor 0 OneSlot.all_buttons.

(** A use of the later revision's interface, and a sequence of them run from
    a state. *)
Inductive OneSlotCall : Type :=
| CallSetNextAnswer (button : Z)
| CallMessageBox (click : QMessageBox -> ptr) (parent : ptr) (icon : Icon)
                 (title text : string) (buttons defaultButton : Z).

Definition run_OneSlotCall (c : OneSlotCall) : M OneSlot.World unit :=
  match c with
  | CallSetNextAnswer button => OneSlot.setNextAnswer button
  | CallMessageBox click parent icon title text buttons defaultButton =>
      OneSlot.messageBox click parent icon title text buttons defaultButton ;;; ret tt
  end.

Fixpoint run_OneSlotCalls (l : list OneSlotCall) : M OneSlot.World unit :=
  match l with
  | [] => ret tt
  | c :: l' => run_OneSlotCall c ;;; run_OneSlotCalls l'
  end.

(** The same for the earlier revision. *)
Inductive TwoSlotCall : Type :=
| CallSetStandardAnswer (button : Z)
| CallSetNewNextAnswer (button : Z)
| CallStandardBox (icon : Icon) (answer : Shown -> Z) (parent : ptr)
                  (title text : string) (buttons defaultButton : Z)
| CallNewQuestion (click : QMessageBox -> ptr) (parent : ptr)
                  (title text : string) (buttons defaultButton : Z).

Definition run_TwoSlotCall (c : TwoSlotCall) : M TwoSlot.World unit :=
  match c with
  | CallSetStandardAnswer button => TwoSlot.setNextAnswer button
  | CallSetNewNextAnswer button => TwoSlot.setNewNextAnswer button
  | CallStandardBox icon answer parent title text buttons defaultButton =>
      TwoSlot.standardBox icon answer parent title text buttons defaultButton ;;; ret tt
  | CallNewQuestion click parent title text buttons defaultButton =>
      TwoSlot.newQuestion click parent title text buttons defaultButton ;;; ret tt
  end.

Fixpoint run_TwoSlotCalls (l : list TwoSlotCall) : M TwoSlot.World unit :=
  match l with
  | [] => ret tt
  | c :: l' => run_TwoSlotCall c ;;; run_TwoSlotCalls l'
  end.

(** The test of [deleteEntries] that sends the selection to permanent
    deletion rather than to the recycle bin. *)
Definition deleted_for_good (first : DatabaseWidget.Entry)
    (db : DatabaseWidget.Database) : bool :=
  match DatabaseWidget.recycleBin db with
  | Some bin => DatabaseWidget.findEntryByUuid (DatabaseWidget.uuid first) bin
  | None => false
  end || negb (DatabaseWidget.recycleBinEnabled db).

(** The settings widget with other message-box statics. *)
Definition with_statics (w : OneSlot.World) (s : MasterKeySettings.Settings)
  : MasterKeySettings.Settings :=
  MasterKeySettings.mkSettings
    (MasterKeySettings.m_isDirty s) (MasterKeySettings.m_passwordEditWidget s)
    (MasterKeySettings.m_keyFileEditWidget s) (MasterKeySettings.m_yubiKeyEditWidget s)
    (MasterKeySettings.db_key s) w (MasterKeySettings.editFinished s).

(** The value [save] leaves in [m_isDirty]: set by any component on its edit
    page. *)
Definition dirty_after_save (WITH_XC_YUBIKEY : bool) (s : MasterKeySettings.Settings)
  : bool :=
  ((MasterKeySettings.m_isDirty s
    || MasterKeySettings.page_eqb
         (MasterKeySettings.visiblePage (MasterKeySettings.m_passwordEditWidget s))
         MasterKeySettings.Edit)
   || MasterKeySettings.page_eqb
        (MasterKeySettings.visiblePage (MasterKeySettings.m_keyFileEditWidget s))
        MasterKeySettings.Edit)
  || (WITH_XC_YUBIKEY
      && MasterKeySettings.page_eqb
           (MasterKeySettings.visiblePage (MasterKeySettings.m_yubiKeyEditWidget s))
           MasterKeySettings.Edit).

(** Sample components and settings, for running [save]: a component left on
    its add-new page, one that keeps the old key, and a password component on
    its edit page whose input is valid and adds key 42. *)
Definition component_unused : MasterKeySettings.Component :=
  MasterKeySettings.mkComponent MasterKeySettings.AddNew
    (fun e => (true, e)) (fun k => (true, k)).

Definition component_kept : MasterKeySettings.Component :=
  MasterKeySettings.mkComponent MasterKeySettings.LeaveOrRemove
    (fun e => (true, e)) (fun k => (true, k)).

Definition component_new_password : MasterKeySettings.Component :=
  MasterKeySettings.mkComponent MasterKeySettings.Edit
    (fun e => (true, e))
    (fun k => (true,
               MasterKeySettings.mkCompositeKey
                 (MasterKeySettings.keys k ++ [Some (MasterKeySettings.mkKey 1%N 42%N)])
                 (MasterKeySettings.challengeResponseKeys k))).

Definition settings_of (dirty : bool) (password keyFile : MasterKeySettings.Component)
    (key : option MasterKeySettings.CompositeKey) : MasterKeySettings.Settings :=
  MasterKeySettings.mkSettings dirty password keyFile component_unused key
                               OneSlot.initial [].

(** [save] in a build without YubiKey support, with the type identifiers 1, 2
    and 3 and English texts. *)
Definition sample_save (click : QMessageBox -> ptr) : M MasterKeySettings.Settings bool :=
  MasterKeySettings.save false 1%N 2%N 3%N "Unknown error"
    "Failed to change master key" "No encryption key added"
    "You must add at least one encryption key to secure your database!"
    "No password set" "Are you sure you want to continue without a password?"
    false click nullptr.

(** The two configuration entries [save] reads. *)
Definition uses_atomic_saves (s : SaveFlow.Saver) : bool :=
  SaveFlow.config_get (SaveFlow.config s) "UseAtomicSaves" true.

Definition backs_up (s : SaveFlow.Saver) : bool :=
  SaveFlow.config_get (SaveFlow.config s) "BackupBeforeSave" false.

(** The write attempts of a run of [save] that is entered with
    [attempt = 3 - n], counted from 0: the path, the safe-save flag (that of
    the configuration up to attempt 3, off for the one after it) and the
    backup flag; and what [m_db->save] answers to each. *)
Definition save_attempt (n : nat) (s : SaveFlow.Saver) (i : nat)
  : string * bool * bool :=
  (SaveFlow.db_filePath s, (i <=? n)%nat && uses_atomic_saves s, backs_up s).

Definition save_attempt_result (disk : nat -> string -> bool -> bool -> bool * string)
    (n : nat) (s : SaveFlow.Saver) (i : nat) : bool * string :=
  disk (List.length (SaveFlow.writes s) + i)%nat (SaveFlow.db_filePath s)
       ((i <=? n)%nat && uses_atomic_saves s) (backs_up s).

(** The question [save] asks after the fourth failed write; whether it is
    shown (no answer is scripted); the answer [save] gets; whether the
    operator leaves it open until the unblock timer, started just before,
    times out. *)
Definition safe_saves_question (this : ptr)
    (tr_Disable_safe_saves tr_failed_multiple_times : string) : Shown :=
  Standard Question this tr_Disable_safe_saves tr_failed_multiple_times
           (Z.lor StandardButton.Yes StandardButton.No) StandardButton.Yes.

Definition dialog_is_shown (s : SaveFlow.Saver) : bool :=
  TwoSlot.m_nextAnswer (SaveFlow.statics s) =? StandardButton.NoButton.

Definition save_choice (answer : Shown -> Z) (dialog : Shown) (s : SaveFlow.Saver) : Z :=
  if dialog_is_shown s then answer dialog
  else TwoSlot.m_nextAnswer (SaveFlow.statics s).

Definition timer_fires_in (elapsed : Shown -> N) (dialog : Shown)
    (s : SaveFlow.Saver) : bool :=
  dialog_is_shown s && (500 <=? Z.of_N (elapsed dialog)).

(** The state one write attempt of [save] leaves: the attempt logged, auto
    reload blocked, the reload timer stopped, the unblock timer started. *)
Definition after_write (s : SaveFlow.Saver) : SaveFlow.Saver :=
  SaveFlow.mkSaver (SaveFlow.statics s) (SaveFlow.currentWidget s)
    (SaveFlow.db_readOnly s) (SaveFlow.db_filePath s) (SaveFlow.config s)
    true None (Some 500) (SaveFlow.m_fileWatcher s)
    (SaveFlow.writes s ++ [(SaveFlow.db_filePath s, uses_atomic_saves s, backs_up s)])
    (SaveFlow.asked s) (SaveFlow.messages s).

(** A database [save] writes in place: the widget is not locked, the
    database is not read-only and has a file path. *)
Definition writable (s : SaveFlow.Saver) : Prop :=
  SaveFlow.isLocked s = false
  /\ SaveFlow.db_readOnly s = false
  /\ SaveFlow.db_filePath s <> EmptyString.

(** What a run of [save] that wrote in place [k] times leaves behind. *)
Definition saved_in_place (disk : nat -> string -> bool -> bool -> bool * string)
    (tr_Writing_failed : string -> string)
    (s : SaveFlow.Saver) (r : bool) (s' : SaveFlow.Saver) (k : nat) : Prop :=
  List.length (SaveFlow.writes s') = (List.length (SaveFlow.writes s) + k)%nat
  /\ SaveFlow.currentWidget s' = SaveFlow.currentWidget s
  /\ SaveFlow.db_readOnly s' = SaveFlow.db_readOnly s
  /\ SaveFlow.db_filePath s' = SaveFlow.db_filePath s
  /\ SaveFlow.asked s' = SaveFlow.asked s
  /\ SaveFlow.m_fileWatcher s' = SaveFlow.m_fileWatcher s
  /\ SaveFlow.m_ignoreAutoReload s' = true
  /\ SaveFlow.m_fileWatchTimer s' = None
  /\ SaveFlow.m_fileWatchUnblockTimer s' = Some 500
  /\ (exists atomic backup,
         last (SaveFlow.writes s') (EmptyString, false, false)
         = (SaveFlow.db_filePath s, atomic, backup)
         /\ r = fst (disk (List.length (SaveFlow.writes s') - 1)%nat
                          (SaveFlow.db_filePath s) atomic backup)
         /\ (if r then SaveFlow.messages s' = SaveFlow.messages s
             else SaveFlow.messages s'
                  = SaveFlow.messages s
                    ++ [(tr_Writing_failed
                           (snd (disk (List.length (SaveFlow.writes s') - 1)%nat
                                      (SaveFlow.db_filePath s) atomic backup)),
                         SaveFlow.MessageError)])).

(** Samples for running [save]: a disk on which every write fails, a file
    dialog in which the operator picks a file once and cancels afterwards, an
    operator who answers Yes, and an unlocked widget on a database with a
    path. *)
Definition failing_disk : nat -> string -> bool -> bool -> bool * string :=
  fun _ _ _ _ => (false, "locked"%string).

Definition pick_once : nat -> string -> string :=
  fun n _ => match n with O => "new.kdbx"%string | S _ => EmptyString end.

Definition sample_saver (current : SaveFlow.StackWidget) : SaveFlow.Saver :=
  SaveFlow.mkSaver TwoSlot.initial (Some current) false "db.kdbx"
                   (fun _ => None) false None None [] [] [] [].

(** The box [openUrlForEntry] shows for a command: the command cut to 400
    code units, with a mark when something was cut. *)
Definition command_box (tr_execute_prompt : OpenUrl.QString -> OpenUrl.QString)
    (command : OpenUrl.QString) : OpenUrl.CommandBox :=
  let shown :=
    if (400 <? List.length command)%nat
    then OpenUrl.left 400 command ++ OpenUrl.lit_ellipsis
    else command in
  OpenUrl.mkCommandBox shown (tr_execute_prompt shown)
                       (Z.lor StandardButton.Yes StandardButton.No) StandardButton.No.

(** Samples for running [openUrlForEntry]: the attribute name, the URL
    [cmd://ls], no attributes, an empty desk. *)
Definition sample_attr : OpenUrl.QString := [95; 69; 88; 69; 67]%N.
Definition sample_cmd_url : OpenUrl.QString := (OpenUrl.lit_cmd ++ [108; 115])%N.
Definition sample_desk : OpenUrl.Desk := OpenUrl.mkDesk (fun _ => None) [] [] [].

(** The calls [updateFilePath] makes on the file watcher. *)
Definition watcher_calls (Q_OS_LINUX : bool) (statfs : string -> option Z)
    (old new : string) : list SaveFlow.WatcherCall :=
  (if negb (String.eqb old EmptyString) then [SaveFlow.removePath old] else [])
  ++ (if Q_OS_LINUX
      then [SaveFlow.setObjectName
              (if match statfs new with
                  | Some f_type => f_type =? SaveFlow.NFS_SUPER_MAGIC
                  | None => true
                  end
               then "_qt_autotest_force_engine_poller"%string
               else EmptyString)]
      else [])
  ++ [SaveFlow.addPath new].

(** The state [lock] leaves on a widget that was not locked: [r] is its
    result, [w] the statics after its questions, and [wrote] tells whether
    it wrote the database. *)
Definition after_lock (Q_OS_LINUX : bool) (statfs : string -> option Z)
    (currentGroup_uuid : option LockFlow.QUuid) (rootGroup_uuid : LockFlow.QUuid)
    (currentEntry_uuid : option LockFlow.QUuid)
    (created_readOnly : string -> bool) (created_filePath : string -> string)
    (r : bool) (w : TwoSlot.World) (wrote : bool) (s : LockFlow.Locker)
  : LockFlow.Locker :=
  let v := LockFlow.saver s in
  let path := SaveFlow.db_filePath v in
  let written :=
    SaveFlow.writes v ++ (if wrote then [(path, false, false)] else []) in
  if r then
    LockFlow.mkLocker
      (SaveFlow.mkSaver w (Some SaveFlow.DatabaseOpenWidget)
         (created_readOnly path) (created_filePath path) (SaveFlow.config v)
         (SaveFlow.m_ignoreAutoReload v) (SaveFlow.m_fileWatchTimer v)
         (SaveFlow.m_fileWatchUnblockTimer v)
         (SaveFlow.m_fileWatcher v ++ watcher_calls Q_OS_LINUX statfs path path)
         written (SaveFlow.asked v) (SaveFlow.messages v))
      (match currentGroup_uuid with Some u => u | None => rootGroup_uuid end)
      (match currentEntry_uuid with
       | Some u => u
       | None => LockFlow.m_entryBeforeLock s
       end)
      (LockFlow.effects s
       ++ [LockFlow.clearCopiedText; LockFlow.endSearch; LockFlow.clearAllWidgets;
           LockFlow.databaseOpenWidget_load path; LockFlow.replaceDatabase path;
           LockFlow.emit_databaseLocked])
  else
    LockFlow.mkLocker
      (SaveFlow.mkSaver w (SaveFlow.currentWidget v) (SaveFlow.db_readOnly v) path
         (SaveFlow.config v) (SaveFlow.m_ignoreAutoReload v)
         (SaveFlow.m_fileWatchTimer v) (SaveFlow.m_fileWatchUnblockTimer v)
         (SaveFlow.m_fileWatcher v) written (SaveFlow.asked v) (SaveFlow.messages v))
      (LockFlow.m_groupBeforeLock s) (LockFlow.m_entryBeforeLock s)
      (LockFlow.effects s ++ [LockFlow.clearCopiedText]).

(** Samples for running [lock]: a widget on the sample database, and [lock]
    on Linux with a local file system, the disk on which every write fails,
    no current group or entry, and the English texts. *)
Definition sample_locker (current : SaveFlow.StackWidget) : LockFlow.Locker :=
  LockFlow.mkLocker (sample_saver current) 0%N 0%N [].

Definition sample_lock (db_isModified : bool) (answer : Shown -> Z)
  : M LockFlow.Locker bool :=
  LockFlow.lock true (fun _ => Some 0xEF53) failing_disk db_isModified
    EmptyString None 1%N None (fun _ => false) (fun path => path)
    "Lock Database?" "You are editing an entry. Discard changes and lock anyway?"
    "Save changes?" "Database was modified." (fun name => name)
    answer nullptr.

Definition sample_closeEvent (db_isModified : bool) (answer : Shown -> Z)
  : M LockFlow.Locker bool :=
  LockFlow.closeEvent true (fun _ => Some 0xEF53) failing_disk db_isModified
    EmptyString None 1%N None (fun _ => false) (fun path => path)
    "Lock Database?" "You are editing an entry. Discard changes and lock anyway?"
    "Save changes?" "Database was modified." (fun name => name)
    answer nullptr.

(** The signals one call of a search function may add: none, or one of the
    two pairs that announce a change of mode. *)
Definition mode_change (l : list SearchFlow.Signal) : Prop :=
  l = []
  \/ l = [SearchFlow.searchModeAboutToActivate; SearchFlow.searchModeActivated]
  \/ l = [SearchFlow.listModeAboutToActivate; SearchFlow.listModeActivated].

(** What a run of [save] entered with [attempt = 3 - n] on a writable
    database leaves, after [k] writes and with the result [r]. *)
Definition save_leaves (Q_OS_LINUX : bool) (statfs : string -> option Z)
    (disk : nat -> string -> bool -> bool -> bool * string)
    (tr_Writing_failed : string -> string) (answer : Shown -> Z)
    (elapsed : Shown -> N) (dialog : Shown)
    (n : nat) (s : SaveFlow.Saver) (r : bool) (s' : SaveFlow.Saver) (k : nat) : Prop :=
  (1 <= k <= n + 2)%nat
  /\ SaveFlow.writes s' = SaveFlow.writes s ++ map (save_attempt n s) (seq 0 k)
  /\ (forall i, (S i < k)%nat -> fst (save_attempt_result disk n s i) = false)
  /\ r = fst (save_attempt_result disk n s (k - 1))
  /\ (r = false -> (n + 1 <= k)%nat)
  /\ (k = (n + 2)%nat ->
      uses_atomic_saves s = true /\ save_choice answer dialog s = StandardButton.Yes)
  /\ (k = (n + 1)%nat -> r = false -> uses_atomic_saves s = true ->
      save_choice answer dialog s <> StandardButton.Yes)
  /\ SaveFlow.config s'
     = (if (k =? n + 2)%nat
        then SaveFlow.config_set (SaveFlow.config s) "UseAtomicSaves" false
        else SaveFlow.config s)
  /\ SaveFlow.messages s'
     = SaveFlow.messages s
       ++ (if r then []
           else [(tr_Writing_failed (snd (save_attempt_result disk n s (k - 1))),
                  SaveFlow.MessageError)])
  /\ (SaveFlow.currentWidget s' = SaveFlow.currentWidget s
      /\ SaveFlow.db_readOnly s' = SaveFlow.db_readOnly s
      /\ SaveFlow.db_filePath s' = SaveFlow.db_filePath s
      /\ SaveFlow.asked s' = SaveFlow.asked s)
  /\ SaveFlow.m_fileWatchTimer s' = None
  /\ ((SaveFlow.m_ignoreAutoReload s' = true
       /\ exists t, SaveFlow.m_fileWatchUnblockTimer s' = Some t /\ 0 < t <= 500)
      \/ (r = false /\ k = (n + 1)%nat
          /\ timer_fires_in elapsed dialog s = true
          /\ uses_atomic_saves s = true
          /\ save_choice answer dialog s <> StandardButton.Yes
          /\ SaveFlow.m_ignoreAutoReload s' = false
          /\ SaveFlow.m_fileWatchUnblockTimer s' = None
          /\ SaveFlow.m_fileWatcher s'
             = SaveFlow.m_fileWatcher s
               ++ watcher_calls Q_OS_LINUX statfs (SaveFlow.db_filePath s)
                                (SaveFlow.db_filePath s)))
  /\ (SaveFlow.m_fileWatcher s' = SaveFlow.m_fileWatcher s
      \/ (timer_fires_in elapsed dialog s = true
          /\ uses_atomic_saves s = true
          /\ (n + 1 <= k)%nat
          /\ SaveFlow.m_fileWatcher s'
             = SaveFlow.m_fileWatcher s
               ++ watcher_calls Q_OS_LINUX statfs (SaveFlow.db_filePath s)
                                (SaveFlow.db_filePath s))).

(** ** The loop, step by step *)

Lemma shl1_pow2 (width : Z) (i : nat) :
  Z.of_nat i + 1 < width -> shl1 width (2 ^ Z.of_nat i) = 2 ^ Z.of_nat (S i).
Proof.
  intros Hi. unfold shl1.
  rewrite Z.shiftl_mul_pow2 by lia.
  rewrite Nat2Z.inj_succ, Z.pow_succ_r by lia.
  rewrite Z.mod_small; [lia|].
  split; [nia|].
  replace (2 ^ Z.of_nat i * 2 ^ 1) with (2 ^ (Z.of_nat i + 1))
    by (rewrite Z.pow_add_r by lia; reflexivity).
  apply Z.pow_lt_mono_r; lia.
Qed.

Lemma shl1_iter (width b : Z) (k : nat) :
  0 <= width ->
  Nat.iter (S k) (shl1 width) b = (b * 2 ^ Z.of_nat (S k)) mod 2 ^ width.
Proof.
  intros Hw. induction k as [|k IH].
  - cbn [Nat.iter nat_rect]. unfold shl1. now rewrite Z.shiftl_mul_pow2 by lia.
  - change (Nat.iter (S (S k)) (shl1 width) b)
      with (shl1 width (Nat.iter (S k) (shl1 width) b)).
    rewrite IH. unfold shl1. rewrite Z.shiftl_mul_pow2 by lia.
    rewrite Z.mul_mod_idemp_l by (apply Z.pow_nonzero; lia).
    f_equal. rewrite (Nat2Z.inj_succ (S k)), Z.pow_succ_r by lia. ring.
Qed.

(** A variable of [width] bits shifted left [width] times is 0, whatever it
    held. *)
Lemma shl1_exhausts (width b : Z) :
  0 < width -> Nat.iter (Z.to_nat width) (shl1 width) b = 0.
Proof.
  intros Hw.
  destruct (Z.to_nat width) as [|k] eqn:E; [lia|].
  rewrite shl1_iter by lia. rewrite <- E, Z2Nat.id by lia.
  apply Z.mod_mul. apply Z.pow_nonzero; lia.
Qed.

(** A result reached with some fuel is reached with more. *)
Lemma for_buttons_more_fuel (cases : Cases) (width last buttons : Z) :
  forall (fuel : nat) (b : Z) (box : QMessageBox) (e : Env) r,
    for_buttons cases width last fuel b buttons box e = Some r ->
    for_buttons cases width last (S fuel) b buttons box e = Some r.
Proof.
  induction fuel as [|fuel IH]; intros b box e r H; [discriminate H|].
  cbn [for_buttons] in H.
  change (for_buttons cases width last (S (S fuel)) b buttons box e)
    with ((if b <=? last
           then box' <- (if Z.land b buttons =? 0 then ret box
                         else addButton_switch cases box b) ;;
                for_buttons cases width last (S fuel) (shl1 width b) buttons box'
           else ret box) e).
  destruct (b <=? last); [|exact H].
  unfold bind in *.
  destruct ((if Z.land b buttons =? 0 then ret box else addButton_switch cases box b) e)
    as [[box' e']|]; [|discriminate H].
  now apply IH.
Qed.

Section Loop.

Variable cases : Cases.
Variable width : Z.
Variable n : nat.
Hypothesis n_fits : Z.of_nat n + 1 < width.

(** Entered at bit [i] with [count] flags left up to [Last = 1 << n], and
    fuel for one test more than that, the loop is [add_all] on the flags
    present in [buttons]. *)
Lemma for_buttons_add_all (buttons : Z) :
  forall (count i fuel : nat) (box : QMessageBox) (e : Env),
    (i + count = S n)%nat ->
    (count < fuel)%nat ->
    for_buttons cases width (2 ^ Z.of_nat n) fuel (2 ^ Z.of_nat i) buttons box e
    = add_all cases (requested (flags i count) buttons) box e.
Proof.
  induction count as [|count IH]; intros i fuel box e Hi Hfuel.
  - destruct fuel as [|fuel]; [lia|]. simpl.
    replace (2 ^ Z.of_nat i <=? 2 ^ Z.of_nat n) with false; [reflexivity|].
    symmetry. apply Z.leb_gt. apply Z.pow_lt_mono_r; lia.
  - destruct fuel as [|fuel]; [lia|].
    cbn [for_buttons flags seq map requested filter].
    replace (2 ^ Z.of_nat i <=? 2 ^ Z.of_nat n) with true
      by (symmetry; apply Z.leb_le, Z.pow_le_mono_r; lia).
    rewrite shl1_pow2 by lia.
    destruct (Z.land (2 ^ Z.of_nat i) buttons =? 0); cbn [negb].
    + unfold bind at 1, ret at 1. apply IH; lia.
    + cbn [add_all]. unfold bind.
      destruct (addButton_switch cases box (2 ^ Z.of_nat i) e) as [[box' e']|];
        [|reflexivity].
      apply IH; lia.
Qed.

End Loop.

(** Inserting above every key appends. *)
Lemma qmap_insert_above (k : ptr) (v : Z) (m : QMap) :
  Forall (fun e => (fst e < k)%N) m -> qmap_insert k v m = m ++ [(k, v)].
Proof.
  induction 1 as [|[k' v'] m Hk _ IH]; [reflexivity|].
  simpl in *.
  destruct (N.ltb_spec k k'); [lia|].
  destruct (N.eqb_spec k k'); [lia|].
  now rewrite IH.
Qed.

Lemma insert_all_above (new : list Z) :
  forall (p : ptr) (m : QMap),
    Forall (fun e => (fst e < p)%N) m ->
    insert_all (mapped p new) m = m ++ mapped p new.
Proof.
  induction new as [|b new IH]; intros p m Hm; simpl.
  - now rewrite app_nil_r.
  - unfold insert_all in *. simpl.
    rewrite qmap_insert_above by assumption.
    rewrite IH.
    + now rewrite <- app_assoc.
    + apply Forall_app; split.
      * eapply Forall_impl; [|exact Hm]. simpl. intros; lia.
      * constructor; [simpl; lia|constructor].
Qed.

(** What [add_all] does when every value has a case: one button per value at
    consecutive fresh addresses, one map entry per button, nothing shown. *)
Lemma add_all_covered (cases : Cases) (l : list Z) :
  forall (box : QMessageBox) (e : Env),
    Forall (covered cases) l ->
    add_all cases l box e
    = Some (pushAll (pushed cases (heap_next e) l) box,
            mkEnv (insert_all (mapped (heap_next e) l) (m_buttonMap e))
                  (heap_next e + N.of_nat (List.length l))%N
                  (screen e)).
Proof.
  induction l as [|b l IH]; intros box e Hl.
  - simpl. unfold ret. destruct e; simpl. now rewrite N.add_0_r.
  - inversion Hl as [|? ? [Hb0 Hb] Hl']; subst.
    cbn [add_all]. unfold bind at 1. unfold addButton_switch.
    destruct (Z.eqb_spec b 0); [contradiction|].
    cbn [pushed mapped].
    destruct (switch cases b) as [[text r]|]; [|contradiction].
    unfold bind, QMessageBox_addButton, buttonMap_insert, modify, ret. cbn [fst snd].
    rewrite IH by assumption. cbn.
    do 3 f_equal. lia.
Qed.

Lemma boxButtons_pushAll (l : list PushButton) :
  forall box, boxButtons (pushAll l box) = boxButtons box ++ l.
Proof.
  induction l as [|pb l IH]; intros box; simpl.
  - now rewrite app_nil_r.
  - unfold pushAll in *. simpl. rewrite IH. simpl. now rewrite <- app_assoc.
Qed.

Lemma pushAll_frame (l : list PushButton) :
  forall box,
    pushAll l box
    = mkQMessageBox (boxParent box) (boxIcon box) (windowTitle box) (boxText box)
                    (boxButtons box ++ l) (boxDefault box).
Proof.
  induction l as [|pb l IH]; intros box.
  - simpl. rewrite app_nil_r. now destruct box.
  - unfold pushAll in *. simpl. rewrite IH. simpl. now rewrite <- app_assoc.
Qed.

Lemma requested_covered (cases : Cases) (range : list Z) (buttons : Z) :
  Forall (covered cases) range -> Forall (covered cases) (requested range buttons).
Proof.
  intros H. apply Forall_forall. intros b Hb.
  apply filter_In in Hb. destruct Hb as [Hb _].
  revert b Hb. now apply Forall_forall.
Qed.

Lemma requested_sorted (range : list Z) (buttons : Z) :
  StronglySorted Z.lt range -> StronglySorted Z.lt (requested range buttons).
Proof.
  induction 1 as [|b range Hs IH Hb]; simpl; [constructor|].
  destruct (negb (Z.land b buttons =? 0)); [|assumption].
  constructor; [assumption|].
  apply Forall_forall. intros c Hc. apply filter_In in Hc.
  destruct Hc as [Hc _]. revert c Hc. now apply Forall_forall.
Qed.

Lemma requested_In (range : list Z) (buttons b : Z) :
  In b (requested range buttons) <-> In b range /\ Z.land b buttons <> 0.
Proof.
  unfold requested. rewrite filter_In.
  destruct (Z.eqb_spec (Z.land b buttons) 0); simpl; intuition congruence.
Qed.

(** The set is a bit mask: the order in which the caller combined the values
    leaves no trace. *)
Lemma requested_lor_comm (range : list Z) (a b : Z) :
  requested range (Z.lor a b) = requested range (Z.lor b a).
Proof. now rewrite Z.lor_comm. Qed.

(** ** The dialog path of each revision *)

Section TwoSlotPaths.
Import TwoSlot.

Lemma TwoSlot_all_buttons_flags : all_buttons = flags 1 20.
Proof. reflexivity. Qed.

Lemma TwoSlot_all_buttons_sorted : StronglySorted Z.lt all_buttons.
Proof.
  repeat (constructor; [|repeat constructor; reflexivity]). constructor.
Qed.

Lemma TwoSlot_all_buttons_covered : Forall (covered addButton_cases) all_buttons.
Proof. repeat constructor; discriminate. Qed.

(** The loop of [newQuestion] leaves, whatever the set: 33 tests are more
    than it needs. *)
Lemma newQuestion_loop_returns (buttons : Z) (box : QMessageBox) (e : Env) :
  for_buttons addButton_cases 32 Last (loop_fuel 32) First buttons box e
  = Some (pushAll (pushed addButton_cases (heap_next e) (requested all_buttons buttons)) box,
          mkEnv (insert_all (mapped (heap_next e) (requested all_buttons buttons))
                            (m_buttonMap e))
                (heap_next e + N.of_nat (List.length (requested all_buttons buttons)))%N
                (screen e)).
Proof.
  change Last with (2 ^ Z.of_nat 20). change First with (2 ^ Z.of_nat 1).
  rewrite for_buttons_add_all with (count := 20%nat);
    [|lia|reflexivity|unfold loop_fuel; simpl; lia].
  rewrite <- TwoSlot_all_buttons_flags.
  apply add_all_covered, requested_covered, TwoSlot_all_buttons_covered.
Qed.

(** Any fuel above the twenty flags gives the same result. *)
Lemma newQuestion_loop_enough_fuel (fuel : nat) (buttons : Z) (box : QMessageBox) (e : Env) :
  (20 < fuel)%nat ->
  for_buttons addButton_cases 32 Last fuel First buttons box e
  = for_buttons addButton_cases 32 Last (loop_fuel 32) First buttons box e.
Proof.
  intros Hf.
  change Last with (2 ^ Z.of_nat 20). change First with (2 ^ Z.of_nat 1).
  rewrite !for_buttons_add_all with (count := 20%nat);
    try reflexivity; try lia.
  unfold loop_fuel; simpl; lia.
Qed.

(** The dialog path of [newQuestion], in full. *)
Lemma newQuestion_dialog (click : QMessageBox -> ptr) (parent : ptr)
    (title text : string) (buttons defaultButton : Z) (w : World) :
  m_newNextAnswer w = NoButton ->
  let req := requested all_buttons buttons in
  let box := newQuestion_box parent title text buttons (heap_next (env w)) in
  newQuestion click parent title text buttons defaultButton w
  = Some (fst (qmap_index (click box)
                 (insert_all (mapped (heap_next (env w)) req) (m_buttonMap (env w)))),
          mkWorld (m_nextAnswer w) NoButton
                  (mkEnv [] (heap_next (env w) + N.of_nat (List.length req))%N
                         (screen (env w) ++ [Custom box]))).
Proof.
  intros Hslot req box. unfold newQuestion, bind at 1, get.
  rewrite Hslot. change (NoButton =? NoButton) with true. cbv iota.
  unfold bind at 1, in_env at 1. rewrite newQuestion_loop_returns.
  subst box req. unfold newQuestion_box.
  generalize (requested all_buttons buttons). intros req.
  match goal with |- context [exec click ?b] => generalize b end.
  intros box.
  unfold bind, in_env, exec, buttonMap_index, buttonMap_clear, modify, ret,
    set_buttonMap.
  cbn [env m_buttonMap heap_next screen m_nextAnswer m_newNextAnswer].
  destruct (qmap_index (click box) _) as [v m']. cbn. now rewrite Hslot.
Qed.

(** The override path of [newQuestion]. *)
Lemma newQuestion_override (click : QMessageBox -> ptr) (parent : ptr)
    (title text : string) (buttons defaultButton : Z) (w : World) :
  m_newNextAnswer w <> NoButton ->
  newQuestion click parent title text buttons defaultButton w
  = Some (m_newNextAnswer w, set_m_newNextAnswer NoButton w).
Proof.
  intros Hslot. unfold newQuestion, bind, get, modify, ret.
  destruct (Z.eqb_spec (m_newNextAnswer w) NoButton); [contradiction|reflexivity].
Qed.

(** The two paths of the four standard-button entry points. *)
Lemma standardBox_dialog (icon : Icon) (answer : Shown -> Z) (parent : ptr)
    (title text : string) (buttons defaultButton : Z) (w : World) :
  m_nextAnswer w = StandardButton.NoButton ->
  let d := Standard icon parent title text buttons defaultButton in
  standardBox icon answer parent title text buttons defaultButton w
  = Some (answer d,
          mkWorld StandardButton.NoButton (m_newNextAnswer w)
                  (mkEnv (m_buttonMap (env w)) (heap_next (env w))
                         (screen (env w) ++ [d]))).
Proof.
  intros Hslot d. unfold standardBox, bind, get. rewrite Hslot. cbn.
  now rewrite Hslot.
Qed.

Lemma standardBox_override (icon : Icon) (answer : Shown -> Z) (parent : ptr)
    (title text : string) (buttons defaultButton : Z) (w : World) :
  m_nextAnswer w <> StandardButton.NoButton ->
  standardBox icon answer parent title text buttons defaultButton w
  = Some (m_nextAnswer w, set_m_nextAnswer StandardButton.NoButton w).
Proof.
  intros Hslot. unfold standardBox, bind, get, modify, ret.
  destruct (Z.eqb_spec (m_nextAnswer w) StandardButton.NoButton);
    [contradiction|reflexivity].
Qed.

End TwoSlotPaths.

Section OneSlotPaths.
Import OneSlot.

Lemma OneSlot_all_buttons_flags : all_buttons = flags 1 24.
Proof. reflexivity. Qed.

Lemma OneSlot_all_buttons_sorted : StronglySorted Z.lt all_buttons.
Proof.
  repeat (constructor; [|repeat constructor; reflexivity]). constructor.
Qed.

Lemma OneSlot_all_buttons_covered : Forall (covered addButton_cases) all_buttons.
Proof. repeat constructor; discriminate. Qed.

Lemma messageBox_loop_returns (buttons : Z) (box : QMessageBox) (e : Env) :
  for_buttons addButton_cases 64 Last (loop_fuel 64) First buttons box e
  = Some (pushAll (pushed addButton_cases (heap_next e) (requested all_buttons buttons)) box,
          mkEnv (insert_all (mapped (heap_next e) (requested all_buttons buttons))
                            (m_buttonMap e))
                (heap_next e + N.of_nat (List.length (requested all_buttons buttons)))%N
                (screen e)).
Proof.
  change Last with (2 ^ Z.of_nat 24). change First with (2 ^ Z.of_nat 1).
  rewrite for_buttons_add_all with (count := 24%nat);
    [|lia|reflexivity|unfold loop_fuel; simpl; lia].
  rewrite <- OneSlot_all_buttons_flags.
  apply add_all_covered, requested_covered, OneSlot_all_buttons_covered.
Qed.

Lemma chooseDefault_run (defaultButton : Z) (box : QMessageBox) (e : Env) :
  chooseDefault defaultButton box e
  = Some (withDefault defaultButton (m_buttonMap e) box, e).
Proof.
  unfold chooseDefault, withDefault, bind, get, ret.
  destruct (negb (defaultButton =? NoButton)); [|reflexivity].
  now destruct (qmap_keys defaultButton (m_buttonMap e)).
Qed.

(** The dialog path of [messageBox], in full. *)
Lemma messageBox_dialog (click : QMessageBox -> ptr) (parent : ptr) (icon : Icon)
    (title text : string) (buttons defaultButton : Z) (w : World) :
  m_nextAnswer w = NoButton ->
  let req := requested all_buttons buttons in
  let box := messageBox_box parent icon title text buttons defaultButton
                    (m_buttonMap (env w)) (heap_next (env w)) in
  messageBox click parent icon title text buttons defaultButton w
  = Some (fst (qmap_index (click box)
                 (insert_all (mapped (heap_next (env w)) req) (m_buttonMap (env w)))),
          mkWorld NoButton
                  (mkEnv [] (heap_next (env w) + N.of_nat (List.length req))%N
                         (screen (env w) ++ [Custom box]))).
Proof.
  intros Hslot req box. unfold messageBox, bind at 1, get.
  rewrite Hslot. change (NoButton =? NoButton) with true. cbv iota.
  unfold bind at 1, in_env at 1. rewrite messageBox_loop_returns.
  unfold bind at 1, in_env at 1. rewrite chooseDefault_run.
  subst box req. unfold messageBox_box. cbn [m_buttonMap env].
  generalize (requested all_buttons buttons). intros req.
  match goal with |- context [exec click ?b] => generalize b end.
  intros box.
  unfold bind, in_env, exec, buttonMap_index, buttonMap_clear, modify, ret,
    set_buttonMap.
  cbn [env m_buttonMap heap_next screen m_nextAnswer].
  destruct (qmap_index (click box) _) as [v m']. cbn. now rewrite Hslot.
Qed.

(** The override path of [messageBox]. *)
Lemma messageBox_override (click : QMessageBox -> ptr) (parent : ptr) (icon : Icon)
    (title text : string) (buttons defaultButton : Z) (w : World) :
  m_nextAnswer w <> NoButton ->
  messageBox click parent icon title text buttons defaultButton w
  = Some (m_nextAnswer w, set_m_nextAnswer NoButton w).
Proof.
  intros Hslot. unfold messageBox, bind, get, modify, ret.
  destruct (Z.eqb_spec (m_nextAnswer w) NoButton); [contradiction|reflexivity].
Qed.

End OneSlotPaths.

(** ** Buttons, map entries and the default button *)

Lemma sorted_NoDup (l : list Z) : StronglySorted Z.lt l -> NoDup l.
Proof.
  induction 1 as [|b l _ IH Hb]; constructor; [|assumption].
  intros Hin. rewrite Forall_forall in Hb. specialize (Hb b Hin). lia.
Qed.

Lemma qmap_keys_mapped_absent (d : Z) (l : list Z) :
  forall p, ~ In d l -> qmap_keys d (mapped p l) = [].
Proof.
  induction l as [|b l IH]; intros p Hd; [reflexivity|].
  unfold qmap_keys in *. simpl.
  destruct (Z.eqb_spec b d) as [->|_]; [exfalso; apply Hd; now left|].
  apply IH. intros H; apply Hd; now right.
Qed.

(** In a map filled by [add_all], the one key of a value that was added is
    the address of the button created for it. *)
Lemma qmap_keys_mapped_present (cases : Cases) (d : Z) (l : list Z) :
  forall p,
    Forall (covered cases) l -> NoDup l -> In d l ->
    exists pb,
      qmap_keys d (mapped p l) = [handle pb] /\
      In pb (pushed cases p l) /\
      switch cases d = Some (label pb, role pb).
Proof.
  induction l as [|b l IH]; intros p Hc Hn Hd; [contradiction|].
  inversion Hc as [|? ? [_ Hb] Hc']; subst.
  inversion Hn as [|? ? Hbl Hn']; subst.
  cbn [pushed mapped]. unfold qmap_keys. cbn [filter snd].
  destruct (switch cases b) as [[text r]|] eqn:Hsw; [|contradiction].
  destruct (Z.eqb_spec b d) as [->|Hne].
  - exists (mkPushButton p text r). cbn [map fst handle label role].
    fold (qmap_keys d (mapped (N.succ p) l)).
    rewrite qmap_keys_mapped_absent by assumption.
    repeat split; [now left|assumption].
  - destruct Hd as [Hd|Hd]; [contradiction|].
    destruct (IH (N.succ p) Hc' Hn' Hd) as (pb & Hk & Hin & Hs).
    exists pb. repeat split; [exact Hk|now right|exact Hs].
Qed.

(** The text and role of each button created are those of the case of its
    value. *)
Lemma pushed_faces (cases : Cases) (l : list Z) :
  forall p,
    Forall (covered cases) l ->
    map (fun pb => Some (label pb, role pb)) (pushed cases p l) = map (switch cases) l.
Proof.
  induction l as [|b l IH]; intros p Hc; [reflexivity|].
  inversion Hc as [|? ? [_ Hb] Hc']; subst. cbn [pushed map].
  destruct (switch cases b) as [[text r]|]; [|contradiction].
  cbn [map label role]. now rewrite IH.
Qed.

Lemma insert_all_empty (p : ptr) (l : list Z) :
  insert_all (mapped p l) [] = mapped p l.
Proof. now rewrite insert_all_above by constructor. Qed.

(** With an empty map, whatever the operator activates is answered by
    [NoButton]. *)
Lemma qmap_index_empty (k : ptr) : fst (qmap_index k []) = 0.
Proof. reflexivity. Qed.

(** ** Totality and the two paths *)

(** [messageBox] always returns: by the override path when the slot is set,
    leaving everything but the slot as it was, and otherwise by showing one
    box. *)
Lemma messageBox_paths (click : QMessageBox -> ptr) (parent : ptr) (icon : Icon)
    (title text : string) (buttons defaultButton : Z) (w : OneSlot.World) :
  exists r w',
    OneSlot.messageBox click parent icon title text buttons defaultButton w = Some (r, w')
    /\ OneSlot.m_nextAnswer w' = OneSlot.NoButton
    /\ ((OneSlot.m_nextAnswer w <> OneSlot.NoButton
         /\ r = OneSlot.m_nextAnswer w /\ OneSlot.env w' = OneSlot.env w)
        \/ (OneSlot.m_nextAnswer w = OneSlot.NoButton
            /\ exists box,
                 screen (OneSlot.env w') = screen (OneSlot.env w) ++ [Custom box])).
Proof.
  destruct (Z.eq_dec (OneSlot.m_nextAnswer w) OneSlot.NoButton) as [H|H].
  - rewrite messageBox_dialog by exact H.
    do 2 eexists. split; [reflexivity|]. split; [reflexivity|].
    right. split; [exact H|]. eexists. reflexivity.
  - rewrite messageBox_override by exact H.
    do 2 eexists. split; [reflexivity|]. split; [reflexivity|].
    left. repeat split. exact H.
Qed.

Lemma newQuestion_paths (click : QMessageBox -> ptr) (parent : ptr)
    (title text : string) (buttons defaultButton : Z) (w : TwoSlot.World) :
  exists r w',
    TwoSlot.newQuestion click parent title text buttons defaultButton w = Some (r, w')
    /\ TwoSlot.m_newNextAnswer w' = TwoSlot.NoButton
    /\ TwoSlot.m_nextAnswer w' = TwoSlot.m_nextAnswer w
    /\ ((TwoSlot.m_newNextAnswer w <> TwoSlot.NoButton
         /\ r = TwoSlot.m_newNextAnswer w /\ TwoSlot.env w' = TwoSlot.env w)
        \/ (TwoSlot.m_newNextAnswer w = TwoSlot.NoButton
            /\ exists box,
                 screen (TwoSlot.env w') = screen (TwoSlot.env w) ++ [Custom box])).
Proof.
  destruct (Z.eq_dec (TwoSlot.m_newNextAnswer w) TwoSlot.NoButton) as [H|H].
  - rewrite newQuestion_dialog by exact H.
    do 2 eexists. split; [reflexivity|]. do 2 (split; [reflexivity|]).
    right. split; [exact H|]. eexists. reflexivity.
  - rewrite newQuestion_override by exact H.
    do 2 eexists. split; [reflexivity|]. do 2 (split; [reflexivity|]).
    left. repeat split. exact H.
Qed.

Lemma standardBox_paths (icon : Icon) (answer : Shown -> Z) (parent : ptr)
    (title text : string) (buttons defaultButton : Z) (w : TwoSlot.World) :
  exists r w',
    TwoSlot.standardBox icon answer parent title text buttons defaultButton w
    = Some (r, w')
    /\ TwoSlot.m_nextAnswer w' = StandardButton.NoButton
    /\ TwoSlot.m_newNextAnswer w' = TwoSlot.m_newNextAnswer w
    /\ ((TwoSlot.m_nextAnswer w <> StandardButton.NoButton
         /\ r = TwoSlot.m_nextAnswer w /\ TwoSlot.env w' = TwoSlot.env w)
        \/ (TwoSlot.m_nextAnswer w = StandardButton.NoButton
            /\ screen (TwoSlot.env w')
               = screen (TwoSlot.env w)
                 ++ [Standard icon parent title text buttons defaultButton])).
Proof.
  destruct (Z.eq_dec (TwoSlot.m_nextAnswer w) StandardButton.NoButton) as [H|H].
  - rewrite standardBox_dialog by exact H.
    do 2 eexists. split; [reflexivity|]. do 2 (split; [reflexivity|]).
    right. split; [exact H|]. reflexivity.
  - rewrite standardBox_override by exact H.
    do 2 eexists. split; [reflexivity|]. do 2 (split; [reflexivity|]).
    left. repeat split. exact H.
Qed.

Lemma land_member_nonzero (k R : Z) : Z.land k R <> 0 -> k <> 0.
Proof. intros H ->. now apply H. Qed.

(** * The claims *)

(** C1: for a requested set [R] and a button [k] in it, [setNextAnswer k]
    (or [setNewNextAnswer k]) followed by a confirmation call returns [k],
    leaves the slot at [NoButton] and the map, the allocator and the screen
    untouched (no box is built or shown); the call after that finds no
    override and puts a dialog on the screen. *)
Theorem scripted_answer_consumed_once (k R : Z) :
  Z.land k R <> 0 ->
  (forall click parent icon title text d (w : OneSlot.World),
      (OneSlot.setNextAnswer k ;;;
       OneSlot.messageBox click parent icon title text R d) w
      = Some (k, OneSlot.mkWorld OneSlot.NoButton (OneSlot.env w))
      /\ forall click2 parent2 icon2 title2 text2 R2 d2,
        exists r box w2,
          OneSlot.messageBox click2 parent2 icon2 title2 text2 R2 d2
            (OneSlot.mkWorld OneSlot.NoButton (OneSlot.env w)) = Some (r, w2)
          /\ screen (OneSlot.env w2) = screen (OneSlot.env w) ++ [Custom box])
  /\ (forall click parent title text d (w : TwoSlot.World),
      (TwoSlot.setNewNextAnswer k ;;;
       TwoSlot.newQuestion click parent title text R d) w
      = Some (k, TwoSlot.mkWorld (TwoSlot.m_nextAnswer w) TwoSlot.NoButton (TwoSlot.env w))
      /\ forall click2 parent2 title2 text2 R2 d2,
        exists r box w2,
          TwoSlot.newQuestion click2 parent2 title2 text2 R2 d2
            (TwoSlot.mkWorld (TwoSlot.m_nextAnswer w) TwoSlot.NoButton (TwoSlot.env w))
          = Some (r, w2)
          /\ screen (TwoSlot.env w2) = screen (TwoSlot.env w) ++ [Custom box])
  /\ (forall icon answer parent title text d (w : TwoSlot.World),
      (TwoSlot.setNextAnswer k ;;;
       TwoSlot.standardBox icon answer parent title text R d) w
      = Some (k, TwoSlot.mkWorld StandardButton.NoButton (TwoSlot.m_newNextAnswer w)
                                 (TwoSlot.env w))
      /\ forall icon2 answer2 parent2 title2 text2 R2 d2,
        exists r w2,
          TwoSlot.standardBox icon2 answer2 parent2 title2 text2 R2 d2
            (TwoSlot.mkWorld StandardButton.NoButton (TwoSlot.m_newNextAnswer w)
                             (TwoSlot.env w))
          = Some (r, w2)
          /\ screen (TwoSlot.env w2)
             = screen (TwoSlot.env w) ++ [Standard icon2 parent2 title2 text2 R2 d2]).
Proof.
  intros Hk. apply land_member_nonzero in Hk.
  split; [|split].
  - intros click parent icon title text d w. split.
    + unfold OneSlot.setNextAnswer, bind at 1, modify.
      rewrite messageBox_override by exact Hk. reflexivity.
    + intros. rewrite messageBox_dialog by reflexivity.
      do 3 eexists. split; reflexivity.
  - intros click parent title text d w. split.
    + unfold TwoSlot.setNewNextAnswer, bind at 1, modify.
      rewrite newQuestion_override by exact Hk. reflexivity.
    + intros. rewrite newQuestion_dialog by reflexivity.
      do 3 eexists. split; reflexivity.
  - intros icon answer parent title text d w. split.
    + unfold TwoSlot.setNextAnswer, bind at 1, modify.
      rewrite standardBox_override by exact Hk. reflexivity.
    + intros. rewrite standardBox_dialog by reflexivity.
      do 2 eexists. split; reflexivity.
Qed.

Lemma scripted_answer_consumed_once_witness :
  Z.land OneSlot.Cancel (Z.lor OneSlot.Delete OneSlot.Cancel) <> 0
  /\ (OneSlot.setNextAnswer OneSlot.Cancel ;;;
      OneSlot.messageBox (fun _ => nullptr) nullptr Question "Delete?" "Really?"
        (Z.lor OneSlot.Delete OneSlot.Cancel) OneSlot.Cancel) OneSlot.initial
     = Some (OneSlot.Cancel, OneSlot.initial).
Proof.
  assert (H : Z.land OneSlot.Cancel (Z.lor OneSlot.Delete OneSlot.Cancel) <> 0)
    by (vm_compute; discriminate).
  split; [exact H|].
  apply (proj1 (scripted_answer_consumed_once _ _ H)).
Defined.

(** C2: with the slot set to [k], the answer is [k] whatever the other
    arguments are: two runs that agree on the slot and on nothing else (other
    operator, parent, icon, texts, requested set, default button, map,
    allocator, screen) both return [k], also when [k] is not in the requested
    set. *)
Theorem scripted_answer_ignores_arguments (k : Z) :
  k <> 0 ->
  (forall click1 click2 parent1 parent2 icon1 icon2 title1 title2 text1 text2
          R1 R2 d1 d2 (w1 w2 : OneSlot.World),
      OneSlot.m_nextAnswer w1 = k -> OneSlot.m_nextAnswer w2 = k ->
      exists w1' w2',
        OneSlot.messageBox click1 parent1 icon1 title1 text1 R1 d1 w1 = Some (k, w1')
        /\ OneSlot.messageBox click2 parent2 icon2 title2 text2 R2 d2 w2 = Some (k, w2'))
  /\ (forall click1 click2 parent1 parent2 title1 title2 text1 text2
             R1 R2 d1 d2 (w1 w2 : TwoSlot.World),
      TwoSlot.m_newNextAnswer w1 = k -> TwoSlot.m_newNextAnswer w2 = k ->
      exists w1' w2',
        TwoSlot.newQuestion click1 parent1 title1 text1 R1 d1 w1 = Some (k, w1')
        /\ TwoSlot.newQuestion click2 parent2 title2 text2 R2 d2 w2 = Some (k, w2'))
  /\ (forall icon1 icon2 answer1 answer2 parent1 parent2 title1 title2 text1 text2
             R1 R2 d1 d2 (w1 w2 : TwoSlot.World),
      TwoSlot.m_nextAnswer w1 = k -> TwoSlot.m_nextAnswer w2 = k ->
      exists w1' w2',
        TwoSlot.standardBox icon1 answer1 parent1 title1 text1 R1 d1 w1 = Some (k, w1')
        /\ TwoSlot.standardBox icon2 answer2 parent2 title2 text2 R2 d2 w2
           = Some (k, w2')).
Proof.
  intros Hk. split; [|split]; intros.
  - rewrite !messageBox_override by slot_set.
    do 2 eexists. split; f_equal; f_equal; eassumption.
  - rewrite !newQuestion_override by slot_set.
    do 2 eexists. split; f_equal; f_equal; eassumption.
  - rewrite !standardBox_override by slot_set.
    do 2 eexists. split; f_equal; f_equal; eassumption.
Qed.

(** The scenario of the specification: [NoToAll] scripted, [Delete | Cancel]
    requested. *)
Lemma scripted_answer_ignores_arguments_witness :
  OneSlot.NoToAll <> 0
  /\ Z.land OneSlot.NoToAll (Z.lor OneSlot.Delete OneSlot.Cancel) = 0
  /\ exists w1' w2',
      OneSlot.messageBox (fun _ => nullptr) nullptr Question "Delete?" "Really?"
        (Z.lor OneSlot.Delete OneSlot.Cancel) OneSlot.Cancel
        (OneSlot.mkWorld OneSlot.NoToAll (OneSlot.env OneSlot.initial))
      = Some (OneSlot.NoToAll, w1')
      /\ OneSlot.messageBox (fun _ => 7%N) 3%N Warning "Save?" "Now?"
           OneSlot.Ok OneSlot.NoButton
           (OneSlot.mkWorld OneSlot.NoToAll (mkEnv [] 9%N []))
         = Some (OneSlot.NoToAll, w2').
Proof.
  assert (H : OneSlot.NoToAll <> 0) by (vm_compute; discriminate).
  split; [exact H|]. split; [reflexivity|].
  apply (proj1 (scripted_answer_ignores_arguments H)); reflexivity.
Defined.

(** C6: the two slots of the earlier revision are independent. Each setter
    writes its own slot only; each confirmation call neither reads nor writes
    the other slot: run with another value in the other slot, it gives the
    same answer and the same final state up to that value. *)
Theorem slots_are_independent :
  (forall k (w : TwoSlot.World),
      TwoSlot.setNewNextAnswer k w
      = Some (tt, TwoSlot.mkWorld (TwoSlot.m_nextAnswer w) k (TwoSlot.env w)))
  /\ (forall k (w : TwoSlot.World),
      TwoSlot.setNextAnswer k w
      = Some (tt, TwoSlot.mkWorld k (TwoSlot.m_newNextAnswer w) (TwoSlot.env w)))
  /\ (forall icon answer parent title text R d (w : TwoSlot.World),
      exists r w',
        TwoSlot.standardBox icon answer parent title text R d w = Some (r, w')
        /\ TwoSlot.m_newNextAnswer w' = TwoSlot.m_newNextAnswer w
        /\ forall x,
            TwoSlot.standardBox icon answer parent title text R d
              (TwoSlot.set_m_newNextAnswer x w)
            = Some (r, TwoSlot.set_m_newNextAnswer x w'))
  /\ (forall click parent title text R d (w : TwoSlot.World),
      exists r w',
        TwoSlot.newQuestion click parent title text R d w = Some (r, w')
        /\ TwoSlot.m_nextAnswer w' = TwoSlot.m_nextAnswer w
        /\ forall x,
            TwoSlot.newQuestion click parent title text R d
              (TwoSlot.set_m_nextAnswer x w)
            = Some (r, TwoSlot.set_m_nextAnswer x w')).
Proof.
  split; [reflexivity|]. split; [reflexivity|]. split.
  - intros icon answer parent title text R d w.
    destruct (Z.eq_dec (TwoSlot.m_nextAnswer w) StandardButton.NoButton) as [H|H].
    + rewrite standardBox_dialog by exact H.
      do 2 eexists. split; [reflexivity|]. split; [reflexivity|]. intros x.
      now rewrite standardBox_dialog by exact H.
    + rewrite standardBox_override by exact H.
      do 2 eexists. split; [reflexivity|]. split; [reflexivity|]. intros x.
      now rewrite standardBox_override by exact H.
  - intros click parent title text R d w.
    destruct (Z.eq_dec (TwoSlot.m_newNextAnswer w) TwoSlot.NoButton) as [H|H].
    + rewrite newQuestion_dialog by exact H.
      do 2 eexists. split; [reflexivity|]. split; [reflexivity|]. intros x.
      now rewrite newQuestion_dialog by exact H.
    + rewrite newQuestion_override by exact H.
      do 2 eexists. split; [reflexivity|]. split; [reflexivity|]. intros x.
      now rewrite newQuestion_override by exact H.
Qed.

(** C8: a second [setNextAnswer] (or [setNewNextAnswer]) overwrites the
    first: the state is the one the second call alone would have left, and
    the next confirmation call returns the second value. *)
Theorem second_setNextAnswer_wins (k1 k2 : Z) :
  k2 <> 0 ->
  (forall click parent icon title text R d (w : OneSlot.World),
      (OneSlot.setNextAnswer k1 ;;; OneSlot.setNextAnswer k2) w
      = OneSlot.setNextAnswer k2 w
      /\ (OneSlot.setNextAnswer k1 ;;; OneSlot.setNextAnswer k2 ;;;
          OneSlot.messageBox click parent icon title text R d) w
         = Some (k2, OneSlot.mkWorld OneSlot.NoButton (OneSlot.env w)))
  /\ (forall click parent title text R d (w : TwoSlot.World),
      (TwoSlot.setNewNextAnswer k1 ;;; TwoSlot.setNewNextAnswer k2) w
      = TwoSlot.setNewNextAnswer k2 w
      /\ (TwoSlot.setNewNextAnswer k1 ;;; TwoSlot.setNewNextAnswer k2 ;;;
          TwoSlot.newQuestion click parent title text R d) w
         = Some (k2, TwoSlot.mkWorld (TwoSlot.m_nextAnswer w) TwoSlot.NoButton
                                     (TwoSlot.env w)))
  /\ (forall icon answer parent title text R d (w : TwoSlot.World),
      (TwoSlot.setNextAnswer k1 ;;; TwoSlot.setNextAnswer k2) w
      = TwoSlot.setNextAnswer k2 w
      /\ (TwoSlot.setNextAnswer k1 ;;; TwoSlot.setNextAnswer k2 ;;;
          TwoSlot.standardBox icon answer parent title text R d) w
         = Some (k2, TwoSlot.mkWorld StandardButton.NoButton
                                     (TwoSlot.m_newNextAnswer w) (TwoSlot.env w))).
Proof.
  intros Hk. split; [|split]; intros; (split; [reflexivity|]).
  - unfold OneSlot.setNextAnswer, bind at 1, modify. unfold bind at 1.
    rewrite messageBox_override by exact Hk. reflexivity.
  - unfold TwoSlot.setNewNextAnswer, bind at 1, modify. unfold bind at 1.
    rewrite newQuestion_override by exact Hk. reflexivity.
  - unfold TwoSlot.setNextAnswer, bind at 1, modify. unfold bind at 1.
    rewrite standardBox_override by exact Hk. reflexivity.
Qed.

Lemma second_setNextAnswer_wins_witness :
  OneSlot.Cancel <> 0
  /\ (OneSlot.setNextAnswer OneSlot.Delete ;;; OneSlot.setNextAnswer OneSlot.Cancel ;;;
      OneSlot.messageBox (fun _ => nullptr) nullptr Question "Delete?" "Really?"
        (Z.lor OneSlot.Delete OneSlot.Cancel) OneSlot.NoButton) OneSlot.initial
     = Some (OneSlot.Cancel, OneSlot.initial).
Proof.
  assert (H : OneSlot.Cancel <> 0) by (vm_compute; discriminate).
  split; [exact H|].
  apply (proj1 (second_setNextAnswer_wins OneSlot.Delete H)).
Defined.

(** C10: [NoButton] is the empty slot. [setNextAnswer NoButton] leaves the
    slot as the static initialiser does, and the next confirmation call shows
    a dialog. Every confirmation call returns either by the override path,
    with an answer other than [NoButton] and nothing shown, or after showing
    a dialog: [NoButton] never comes out of the override path. *)
Theorem NoButton_clears_the_override :
  (OneSlot.m_nextAnswer OneSlot.initial = OneSlot.NoButton
   /\ TwoSlot.m_newNextAnswer TwoSlot.initial = TwoSlot.NoButton
   /\ TwoSlot.m_nextAnswer TwoSlot.initial = StandardButton.NoButton
   /\ StandardButton.NoButton = TwoSlot.NoButton)
  /\ (forall click parent icon title text R d (w : OneSlot.World),
      exists r box w',
        (OneSlot.setNextAnswer OneSlot.NoButton ;;;
         OneSlot.messageBox click parent icon title text R d) w = Some (r, w')
        /\ screen (OneSlot.env w') = screen (OneSlot.env w) ++ [Custom box])
  /\ (forall click parent title text R d (w : TwoSlot.World),
      exists r box w',
        (TwoSlot.setNewNextAnswer TwoSlot.NoButton ;;;
         TwoSlot.newQuestion click parent title text R d) w = Some (r, w')
        /\ screen (TwoSlot.env w') = screen (TwoSlot.env w) ++ [Custom box])
  /\ (forall icon answer parent title text R d (w : TwoSlot.World),
      exists r w',
        (TwoSlot.setNextAnswer StandardButton.NoButton ;;;
         TwoSlot.standardBox icon answer parent title text R d) w = Some (r, w')
        /\ screen (TwoSlot.env w')
           = screen (TwoSlot.env w) ++ [Standard icon parent title text R d])
  /\ (forall click parent icon title text R d (w : OneSlot.World),
      exists r w',
        OneSlot.messageBox click parent icon title text R d w = Some (r, w')
        /\ ((r <> OneSlot.NoButton /\ r = OneSlot.m_nextAnswer w
             /\ OneSlot.env w' = OneSlot.env w)
            \/ (OneSlot.m_nextAnswer w = OneSlot.NoButton
                /\ exists box,
                     screen (OneSlot.env w') = screen (OneSlot.env w) ++ [Custom box])))
  /\ (forall click parent title text R d (w : TwoSlot.World),
      exists r w',
        TwoSlot.newQuestion click parent title text R d w = Some (r, w')
        /\ ((r <> TwoSlot.NoButton /\ r = TwoSlot.m_newNextAnswer w
             /\ TwoSlot.env w' = TwoSlot.env w)
            \/ (TwoSlot.m_newNextAnswer w = TwoSlot.NoButton
                /\ exists box,
                     screen (TwoSlot.env w') = screen (TwoSlot.env w) ++ [Custom box])))
  /\ (forall icon answer parent title text R d (w : TwoSlot.World),
      exists r w',
        TwoSlot.standardBox icon answer parent title text R d w = Some (r, w')
        /\ ((r <> StandardButton.NoButton /\ r = TwoSlot.m_nextAnswer w
             /\ TwoSlot.env w' = TwoSlot.env w)
            \/ (TwoSlot.m_nextAnswer w = StandardButton.NoButton
                /\ screen (TwoSlot.env w')
                   = screen (TwoSlot.env w) ++ [Standard icon parent title text R d]))).
Proof.
  split; [repeat split|]. split; [|split; [|split; [|split; [|split]]]].
  - intros. unfold OneSlot.setNextAnswer, bind at 1, modify.
    rewrite messageBox_dialog by reflexivity.
    do 3 eexists. split; reflexivity.
  - intros. unfold TwoSlot.setNewNextAnswer, bind at 1, modify.
    rewrite newQuestion_dialog by reflexivity.
    do 3 eexists. split; reflexivity.
  - intros. unfold TwoSlot.setNextAnswer, bind at 1, modify.
    rewrite standardBox_dialog by reflexivity.
    do 2 eexists. split; reflexivity.
  - intros.
    destruct (messageBox_paths click parent icon title text R d w)
      as (r & w' & Hrun & _ & [(Hs & Hr & He)|(Hs & box & Hb)]);
      exists r, w'; (split; [exact Hrun|]).
    + left. repeat split; congruence.
    + right. split; [exact Hs|]. now exists box.
  - intros.
    destruct (newQuestion_paths click parent title text R d w)
      as (r & w' & Hrun & _ & _ & [(Hs & Hr & He)|(Hs & box & Hb)]);
      exists r, w'; (split; [exact Hrun|]).
    + left. repeat split; congruence.
    + right. split; [exact Hs|]. now exists box.
  - intros.
    destruct (standardBox_paths icon answer parent title text R d w)
      as (r & w' & Hrun & _ & _ & [(Hs & Hr & He)|(Hs & Hb)]);
      exists r, w'; (split; [exact Hrun|]).
    + left. repeat split; congruence.
    + right. now split.
Qed.

Lemma boxButtons_withDefault (d : Z) (m : QMap) (box : QMessageBox) :
  boxButtons (withDefault d m box) = boxButtons box.
Proof.
  unfold withDefault.
  destruct (negb (d =? OneSlot.NoButton)); [|reflexivity].
  now destruct (qmap_keys d m).
Qed.

(** C3: the buttons are added for exactly the enumerators present in the
    requested set, in ascending order of their values: the loop is [add_all]
    on that ascending list, the box on the screen carries one button per
    member with the text and role of its case, and the set being a bit mask,
    the order of the operands of [|] is immaterial; [Cancel | Ok] gives [Ok]
    then [Cancel]. *)
Theorem buttons_added_in_enumeration_order (buttons : Z) :
  (forall box e,
      for_buttons TwoSlot.addButton_cases 32 TwoSlot.Last (loop_fuel 32)
                  TwoSlot.First buttons box e
      = add_all TwoSlot.addButton_cases (requested TwoSlot.all_buttons buttons) box e)
  /\ (forall box e,
      for_buttons OneSlot.addButton_cases 64 OneSlot.Last (loop_fuel 64)
                  OneSlot.First buttons box e
      = add_all OneSlot.addButton_cases (requested OneSlot.all_buttons buttons) box e)
  /\ (StronglySorted Z.lt (requested TwoSlot.all_buttons buttons)
      /\ StronglySorted Z.lt (requested OneSlot.all_buttons buttons))
  /\ (forall b,
      (In b (requested TwoSlot.all_buttons buttons)
       <-> In b TwoSlot.all_buttons /\ Z.land b buttons <> 0)
      /\ (In b (requested OneSlot.all_buttons buttons)
          <-> In b OneSlot.all_buttons /\ Z.land b buttons <> 0))
  /\ (forall click parent title text d (w : TwoSlot.World),
      TwoSlot.m_newNextAnswer w = TwoSlot.NoButton ->
      exists r box w',
        TwoSlot.newQuestion click parent title text buttons d w = Some (r, w')
        /\ screen (TwoSlot.env w') = screen (TwoSlot.env w) ++ [Custom box]
        /\ map (fun pb => Some (label pb, role pb)) (boxButtons box)
           = map (switch TwoSlot.addButton_cases)
                 (requested TwoSlot.all_buttons buttons))
  /\ (forall click parent icon title text d (w : OneSlot.World),
      OneSlot.m_nextAnswer w = OneSlot.NoButton ->
      exists r box w',
        OneSlot.messageBox click parent icon title text buttons d w = Some (r, w')
        /\ screen (OneSlot.env w') = screen (OneSlot.env w) ++ [Custom box]
        /\ map (fun pb => Some (label pb, role pb)) (boxButtons box)
           = map (switch OneSlot.addButton_cases)
                 (requested OneSlot.all_buttons buttons))
  /\ (forall a b,
      requested TwoSlot.all_buttons (Z.lor a b) = requested TwoSlot.all_buttons (Z.lor b a)
      /\ requested OneSlot.all_buttons (Z.lor a b)
         = requested OneSlot.all_buttons (Z.lor b a))
  /\ (requested TwoSlot.all_buttons (Z.lor TwoSlot.Cancel TwoSlot.Ok)
      = [TwoSlot.Ok; TwoSlot.Cancel]
      /\ requested OneSlot.all_buttons (Z.lor OneSlot.Cancel OneSlot.Ok)
         = [OneSlot.Ok; OneSlot.Cancel]).
Proof.
  split.
  { intros box e. change TwoSlot.Last with (2 ^ Z.of_nat 20).
    change TwoSlot.First with (2 ^ Z.of_nat 1).
    rewrite for_buttons_add_all with (count := 20%nat);
      [reflexivity|lia|reflexivity|unfold loop_fuel; simpl; lia]. }
  split.
  { intros box e. change OneSlot.Last with (2 ^ Z.of_nat 24).
    change OneSlot.First with (2 ^ Z.of_nat 1).
    rewrite for_buttons_add_all with (count := 24%nat);
      [reflexivity|lia|reflexivity|unfold loop_fuel; simpl; lia]. }
  split.
  { split; apply requested_sorted;
      [apply TwoSlot_all_buttons_sorted|apply OneSlot_all_buttons_sorted]. }
  split.
  { intros b. split; apply requested_In. }
  split.
  { intros click parent title text d w Hslot.
    rewrite newQuestion_dialog by exact Hslot.
    do 3 eexists. split; [reflexivity|]. split; [reflexivity|].
    unfold newQuestion_box. rewrite boxButtons_pushAll. cbn [boxButtons
      setText setWindowTitle setIcon newBox app].
    apply pushed_faces, requested_covered, TwoSlot_all_buttons_covered. }
  split.
  { intros click parent icon title text d w Hslot.
    rewrite messageBox_dialog by exact Hslot.
    do 3 eexists. split; [reflexivity|]. split; [reflexivity|].
    unfold messageBox_box.
    rewrite boxButtons_withDefault, boxButtons_pushAll. cbn [boxButtons
      setText setWindowTitle setIcon newBox app].
    apply pushed_faces, requested_covered, OneSlot_all_buttons_covered. }
  split.
  { intros a b. split; apply requested_lor_comm. }
  split; reflexivity.
Qed.

Lemma buttons_added_in_enumeration_order_witness :
  TwoSlot.m_newNextAnswer TwoSlot.initial = TwoSlot.NoButton
  /\ exists r box w',
      TwoSlot.newQuestion (fun _ => nullptr) nullptr "Save?" "Now?"
        (Z.lor TwoSlot.Cancel TwoSlot.Ok) TwoSlot.NoButton TwoSlot.initial
      = Some (r, w')
      /\ screen (TwoSlot.env w') = screen (TwoSlot.env TwoSlot.initial) ++ [Custom box]
      /\ map (fun pb => Some (label pb, role pb)) (boxButtons box)
         = map (switch TwoSlot.addButton_cases)
               (requested TwoSlot.all_buttons (Z.lor TwoSlot.Cancel TwoSlot.Ok)).
Proof.
  split; [reflexivity|].
  apply (buttons_added_in_enumeration_order (Z.lor TwoSlot.Cancel TwoSlot.Ok)).
  reflexivity.
Defined.

(** ** The default button *)

(** The map is empty between calls: it is so initially, the override path
    does not touch it and the dialog path clears it. *)
Lemma messageBox_leaves_map_empty (click : QMessageBox -> ptr) (parent : ptr)
    (icon : Icon) (title text : string) (buttons d : Z) (w : OneSlot.World) :
  m_buttonMap (OneSlot.env w) = [] ->
  exists r w',
    OneSlot.messageBox click parent icon title text buttons d w = Some (r, w')
    /\ m_buttonMap (OneSlot.env w') = [].
Proof.
  intros Hm.
  destruct (Z.eq_dec (OneSlot.m_nextAnswer w) OneSlot.NoButton) as [H|H].
  - rewrite messageBox_dialog by exact H. do 2 eexists.
    split; reflexivity.
  - rewrite messageBox_override by exact H. do 2 eexists.
    split; [reflexivity|exact Hm].
Qed.

(** [withDefault] on a map and a box filled by [add_all] from an empty map. *)
Lemma withDefault_mapped (d : Z) (req : list Z) (p : ptr) (box0 : QMessageBox) :
  boxDefault box0 = None ->
  Forall (covered OneSlot.addButton_cases) req ->
  NoDup req ->
  (In d req ->
   exists pb,
     In pb (boxButtons
              (withDefault d (mapped p req)
                 (pushAll (pushed OneSlot.addButton_cases p req) box0)))
     /\ boxDefault
          (withDefault d (mapped p req)
             (pushAll (pushed OneSlot.addButton_cases p req) box0))
        = Some (handle pb)
     /\ switch OneSlot.addButton_cases d = Some (label pb, role pb))
  /\ (~ In d req ->
      boxDefault
        (withDefault d (mapped p req)
           (pushAll (pushed OneSlot.addButton_cases p req) box0))
      = None).
Proof.
  intros Hbox0 Hcov Hnd. split.
  - intros Hd.
    destruct (@qmap_keys_mapped_present OneSlot.addButton_cases d req p Hcov Hnd Hd)
      as (pb & Hk & Hpb & Hsw).
    exists pb. unfold withDefault.
    assert (Hd0 : d <> OneSlot.NoButton).
    { intros ->. rewrite Forall_forall in Hcov. now destruct (Hcov _ Hd). }
    destruct (Z.eqb_spec d OneSlot.NoButton); [contradiction|]. cbn [negb].
    rewrite Hk. cbn [boxButtons boxDefault setDefaultButton].
    rewrite boxButtons_pushAll. split; [|now split].
    apply in_or_app. now right.
  - intros Hnot. unfold withDefault.
    destruct (Z.eqb_spec d OneSlot.NoButton); cbn [negb].
    + now rewrite pushAll_frame.
    + rewrite qmap_keys_mapped_absent by exact Hnot. now rewrite pushAll_frame.
Qed.

(** In the later revision [messageBox] marks the button created for
    [defaultButton] when that value is among the buttons added, and sets no
    default otherwise (also for [NoButton], which is never added). *)
Lemma messageBox_marks_default (click : QMessageBox -> ptr) (parent : ptr)
    (icon : Icon) (title text : string) (buttons d : Z) (w : OneSlot.World) :
  OneSlot.m_nextAnswer w = OneSlot.NoButton ->
  m_buttonMap (OneSlot.env w) = [] ->
  exists r box w',
    OneSlot.messageBox click parent icon title text buttons d w = Some (r, w')
    /\ screen (OneSlot.env w') = screen (OneSlot.env w) ++ [Custom box]
    /\ (In d OneSlot.all_buttons -> Z.land d buttons <> 0 ->
        exists pb,
          In pb (boxButtons box)
          /\ boxDefault box = Some (handle pb)
          /\ switch OneSlot.addButton_cases d = Some (label pb, role pb))
    /\ (d = OneSlot.NoButton \/ ~ In d OneSlot.all_buttons \/ Z.land d buttons = 0 ->
        boxDefault box = None).
Proof.
  intros Hslot Hmap.
  rewrite messageBox_dialog by exact Hslot.
  do 3 eexists. split; [reflexivity|]. split; [reflexivity|].
  unfold messageBox_box. rewrite Hmap, insert_all_empty.
  pose proof (requested_covered buttons OneSlot_all_buttons_covered) as Hcov.
  pose proof (sorted_NoDup (requested_sorted buttons OneSlot_all_buttons_sorted))
    as Hnd.
  pose proof (requested_In OneSlot.all_buttons buttons d) as Hreq.
  assert (H0 : ~ In OneSlot.NoButton (requested OneSlot.all_buttons buttons)).
  { intros H. rewrite Forall_forall in Hcov. now destruct (Hcov _ H). }
  revert Hcov Hnd Hreq H0.
  generalize (requested OneSlot.all_buttons buttons). intros req Hcov Hnd Hreq H0.
  destruct (@withDefault_mapped d req (heap_next (OneSlot.env w))
              (setText text (setWindowTitle title (setIcon icon (newBox parent))))
              eq_refl Hcov Hnd) as [Hyes Hno].
  split.
  - intros Hin Hland. apply Hyes, Hreq. now split.
  - intros Hnot. apply Hno. intros Hd.
    destruct Hnot as [->|[Hn|Hn]]; [contradiction| |];
      apply Hreq in Hd; destruct Hd; contradiction.
Qed.

(** [newQuestion] of the earlier revision never looks at its [defaultButton]
    argument, and the box it shows has no default. *)
Lemma newQuestion_ignores_defaultButton (click : QMessageBox -> ptr) (parent : ptr)
    (title text : string) (buttons d1 d2 : Z) (w : TwoSlot.World) :
  TwoSlot.newQuestion click parent title text buttons d1 w
  = TwoSlot.newQuestion click parent title text buttons d2 w.
Proof. reflexivity. Qed.

Lemma newQuestion_sets_no_default (parent : ptr) (title text : string)
    (buttons : Z) (p : ptr) :
  boxDefault (newQuestion_box parent title text buttons p) = None.
Proof. unfold newQuestion_box. now rewrite pushAll_frame. Qed.

(** C4, at the failing input: [newQuestion] asked for [Delete | Cancel] with
    default [Cancel], no override pending. The box has the two buttons and no
    default button, where the claim has the [Cancel] button marked. *)
Theorem newQuestion_drops_default :
  TwoSlot.newQuestion (fun _ => 1%N) nullptr "Delete?" "Really?"
    (Z.lor TwoSlot.Delete TwoSlot.Cancel) TwoSlot.Cancel TwoSlot.initial
  = Some (TwoSlot.Cancel,
          TwoSlot.mkWorld StandardButton.NoButton TwoSlot.NoButton
            (mkEnv [] 3%N
               [Custom (mkQMessageBox nullptr Question "Delete?" "Really?"
                          [mkPushButton 1%N "Cancel" RejectRole;
                           mkPushButton 2%N "Delete" DestructiveRole]
                          None)])).
Proof. vm_compute. reflexivity. Qed.

(** ** The empty request *)

(** C5 fails: from the initial state either revision answers an empty
    request by showing a box without buttons and returning [NoButton]. *)
Lemma empty_request_counterexample :
  ~ empty_request_is_refused
  /\ OneSlot.messageBox (fun _ => nullptr) nullptr Question "Delete?" "Really?"
       0 OneSlot.NoButton OneSlot.initial
     = Some (OneSlot.NoButton,
             OneSlot.mkWorld OneSlot.NoButton
               (mkEnv [] 1%N
                  [Custom (mkQMessageBox nullptr Question "Delete?" "Really?" [] None)]))
  /\ TwoSlot.newQuestion (fun _ => nullptr) nullptr "Delete?" "Really?"
       0 TwoSlot.NoButton TwoSlot.initial
     = Some (TwoSlot.NoButton,
             TwoSlot.mkWorld StandardButton.NoButton TwoSlot.NoButton
               (mkEnv [] 1%N
                  [Custom (mkQMessageBox nullptr Question "Delete?" "Really?" [] None)])).
Proof.
  assert (E1 : forall r, r = OneSlot.messageBox (fun _ => nullptr) nullptr Question
                             "Delete?" "Really?" 0 OneSlot.NoButton OneSlot.initial ->
                         r <> None)
    by (intros r ->; vm_compute; discriminate).
  assert (E2 : forall r, r = TwoSlot.newQuestion (fun _ => nullptr) nullptr
                             "Delete?" "Really?" 0 TwoSlot.NoButton TwoSlot.initial ->
                         r <> None)
    by (intros r ->; vm_compute; discriminate).
  split; [|split; vm_compute; reflexivity].
  intros [H|H].
  - apply (E1 _ eq_refl). now apply H.
  - apply (E2 _ eq_refl). now apply H.
Qed.

(** C5, amended: nothing guards the empty request. With no override pending
    (and the map empty, as it is between calls) the call shows a box to which
    it has added no button and set no default, and returns [NoButton]
    whatever the operator does. *)
Theorem empty_request_shows_empty_dialog :
  (forall click parent icon title text d (w : OneSlot.World),
      OneSlot.m_nextAnswer w = OneSlot.NoButton ->
      m_buttonMap (OneSlot.env w) = [] ->
      OneSlot.messageBox click parent icon title text 0 d w
      = Some (OneSlot.NoButton,
              OneSlot.mkWorld OneSlot.NoButton
                (mkEnv [] (heap_next (OneSlot.env w))
                   (screen (OneSlot.env w)
                    ++ [Custom (mkQMessageBox parent icon title text [] None)]))))
  /\ (forall click parent title text d (w : TwoSlot.World),
      TwoSlot.m_newNextAnswer w = TwoSlot.NoButton ->
      m_buttonMap (TwoSlot.env w) = [] ->
      TwoSlot.newQuestion click parent title text 0 d w
      = Some (TwoSlot.NoButton,
              TwoSlot.mkWorld (TwoSlot.m_nextAnswer w) TwoSlot.NoButton
                (mkEnv [] (heap_next (TwoSlot.env w))
                   (screen (TwoSlot.env w)
                    ++ [Custom (mkQMessageBox parent Question title text [] None)])))).
Proof.
  split.
  - intros click parent icon title text d w Hslot Hmap.
    rewrite messageBox_dialog by exact Hslot.
    unfold messageBox_box, withDefault.
    change (requested OneSlot.all_buttons 0) with (@nil Z).
    rewrite Hmap. cbn [mapped insert_all fold_left pushed pushAll List.length N.of_nat].
    rewrite N.add_0_r. unfold qmap_keys. cbn [filter map].
    now destruct (negb (d =? OneSlot.NoButton)).
  - intros click parent title text d w Hslot Hmap.
    rewrite newQuestion_dialog by exact Hslot.
    unfold newQuestion_box.
    change (requested TwoSlot.all_buttons 0) with (@nil Z).
    rewrite Hmap. cbn [mapped insert_all fold_left pushed pushAll List.length N.of_nat].
    now rewrite N.add_0_r.
Qed.

Lemma empty_request_shows_empty_dialog_witness :
  OneSlot.m_nextAnswer OneSlot.initial = OneSlot.NoButton
  /\ m_buttonMap (OneSlot.env OneSlot.initial) = []
  /\ OneSlot.messageBox (fun _ => 5%N) nullptr Warning "Save?" "Now?" 0 OneSlot.Ok
       OneSlot.initial
     = Some (OneSlot.NoButton,
             OneSlot.mkWorld OneSlot.NoButton
               (mkEnv [] 1%N [Custom (mkQMessageBox nullptr Warning "Save?" "Now?" [] None)])).
Proof.
  split; [reflexivity|]. split; [reflexivity|].
  apply (proj1 empty_request_shows_empty_dialog); reflexivity.
Defined.

(** ** The two enumerations by value *)

(** C7 fails: [MessageBox::No] and [QMessageBox::Yes] are both [0x4000]. *)
Lemma ranges_disjoint_counterexample :
  TwoSlot.No = StandardButton.Yes /\ ~ ranges_disjoint.
Proof.
  split; [reflexivity|].
  intros H. apply (H TwoSlot.No StandardButton.Yes); [| |reflexivity].
  - unfold TwoSlot.all_buttons. do 13 right. now left.
  - unfold StandardButton.all. do 5 right. now left.
Qed.

(** C7, amended: the two enumerations overlap by value. An enumerator of
    [MessageBox::Button] between the loop markers has the value of an
    enumerator of [QMessageBox::StandardButton] exactly from
    [Reset = 1 << 8] on: [Reset] and [RestoreDefaults] are Qt's obsolete
    [Default = 0x100] and [Escape = 0x200], and [Help .. Delete] are Qt's
    [Ok .. Ignore]. The seven enumerators [Ok .. Apply] have the value of no
    standard button. What keeps the two slots apart is their type, not
    their values. *)
Theorem ranges_overlap_from_Reset :
  Forall (fun b => In b StandardButton.all <-> TwoSlot.Reset <= b) TwoSlot.all_buttons
  /\ filter (fun b => existsb (Z.eqb b) StandardButton.all) TwoSlot.all_buttons
     = [TwoSlot.Reset; TwoSlot.RestoreDefaults; TwoSlot.Help; TwoSlot.SaveAll;
        TwoSlot.Yes; TwoSlot.YesToAll; TwoSlot.No; TwoSlot.NoToAll; TwoSlot.Abort;
        TwoSlot.Retry; TwoSlot.Ignore; TwoSlot.Overwrite; TwoSlot.Delete]
  /\ map (fun b => (b, b)) (filter (fun b => existsb (Z.eqb b) StandardButton.all)
                                   TwoSlot.all_buttons)
     = [(TwoSlot.Reset, StandardButton.Default);
        (TwoSlot.RestoreDefaults, StandardButton.Escape);
        (TwoSlot.Help, StandardButton.Ok);
        (TwoSlot.SaveAll, StandardButton.Save);
        (TwoSlot.Yes, StandardButton.SaveAll);
        (TwoSlot.YesToAll, StandardButton.Open);
        (TwoSlot.No, StandardButton.Yes);
        (TwoSlot.NoToAll, StandardButton.YesToAll);
        (TwoSlot.Abort, StandardButton.No);
        (TwoSlot.Retry, StandardButton.NoToAll);
        (TwoSlot.Ignore, StandardButton.Abort);
        (TwoSlot.Overwrite, StandardButton.Retry);
        (TwoSlot.Delete, StandardButton.Ignore)]
  /\ Forall (fun q => q = 0 \/ q < 0 \/ TwoSlot.Reset <= q) StandardButton.all.
Proof.
  assert (Hdec : forall (x : Z) (l : list Z), In x l <-> existsb (Z.eqb x) l = true).
  { intros x l. rewrite existsb_exists. split.
    - intros H. exists x. split; [exact H|apply Z.eqb_refl].
    - intros (y & Hy & E). apply Z.eqb_eq in E. now subst. }
  split; [|split; [reflexivity|split; [reflexivity|]]].
  - apply Forall_forall. intros b Hb. rewrite Hdec.
    cbv [In TwoSlot.all_buttons] in Hb.
    repeat (destruct Hb as [<-|Hb]; [vm_compute; split; congruence|]).
    contradiction.
  - apply Forall_forall. intros q Hq.
    cbv [In StandardButton.all] in Hq.
    repeat (destruct Hq as [<-|Hq];
            [first [left; reflexivity
                   |right; left; reflexivity
                   |right; right; vm_compute; discriminate]|]).
    contradiction.
Qed.

(** The standard button [Yes], which the callers of the earlier revision
    pass, against the enumerator of the same value. *)
Lemma ranges_overlap_from_Reset_witness :
  In TwoSlot.No TwoSlot.all_buttons
  /\ (In TwoSlot.No StandardButton.all <-> TwoSlot.Reset <= TwoSlot.No).
Proof.
  assert (H : In TwoSlot.No TwoSlot.all_buttons)
    by (unfold TwoSlot.all_buttons; do 13 right; now left).
  split; [exact H|].
  exact (proj1 (Forall_forall _ _) (proj1 ranges_overlap_from_Reset) _ H).
Defined.

(** ** [deleteEntries] *)

Section DeleteEntriesFacts.
Import DatabaseWidget.

(** A loop that only changes the database returns, and leaves the statics
    and the exit code alone. *)
Lemma for_each_on_db (f : Entry -> Database -> Database) (l : list Entry) :
  forall s,
    for_each l (fun entry => on_db (f entry)) s
    = Some (tt, mkWidget (statics s) (fold_left (fun d x => f x d) l (m_db s))
                         (exit_code s)).
Proof.
  induction l as [|x l IH]; intros s.
  - now destruct s.
  - cbn [for_each fold_left]. unfold bind, on_db at 1, modify. now rewrite IH.
Qed.

(** The second question of the delete branch: scripted just before, it
    answers [NoToAll] and shows nothing. *)
Lemma second_question_is_scripted (click : QMessageBox -> ptr) (this : ptr)
    (title prompt : string) (w : TwoSlot.World) :
  (TwoSlot.setNewNextAnswer TwoSlot.NoToAll ;;;
   TwoSlot.newQuestion click this title prompt
     (Z.lor TwoSlot.Delete TwoSlot.Cancel) TwoSlot.NoButton) w
  = Some (TwoSlot.NoToAll,
          TwoSlot.mkWorld (TwoSlot.m_nextAnswer w) TwoSlot.NoButton (TwoSlot.env w)).
Proof.
  unfold TwoSlot.setNewNextAnswer, bind at 1, modify.
  rewrite newQuestion_override by discriminate. reflexivity.
Qed.

End DeleteEntriesFacts.

(** C9: in [deleteEntries] the branch that calls [QApplication::exit(22)] is
    never taken. The question asked again after the deletion is answered by
    the [NoToAll] scripted on the line before it, without a dialog, so the
    test [setAnswer != NoToAll] fails. Every run returns with the exit code
    untouched; the only run without a result is the failed [Q_ASSERT] of a
    debug build on an empty selection. *)
Theorem exit_22_is_unreachable :
  (forall click this title prompt (w : TwoSlot.World),
      (TwoSlot.setNewNextAnswer TwoSlot.NoToAll ;;;
       TwoSlot.newQuestion click this title prompt
         (Z.lor TwoSlot.Delete TwoSlot.Cancel) TwoSlot.NoButton) w
      = Some (TwoSlot.NoToAll,
              TwoSlot.mkWorld (TwoSlot.m_nextAnswer w) TwoSlot.NoButton (TwoSlot.env w)))
  /\ (forall tr_delete_prompt tr_move_prompt tr_delete_title tr_move_title
             tr_Move tr_Cancel debug click this selectedEntries
             (s : DatabaseWidget.Widget),
      match DatabaseWidget.deleteEntries tr_delete_prompt tr_move_prompt
              tr_delete_title tr_move_title tr_Move tr_Cancel
              debug click this selectedEntries s with
      | Some (_, s') => DatabaseWidget.exit_code s' = DatabaseWidget.exit_code s
      | None => debug = true /\ selectedEntries = []
      end).
Proof.
  split; [apply second_question_is_scripted|].
  intros. unfold DatabaseWidget.deleteEntries, DatabaseWidget.Q_ASSERT.
  destruct selectedEntries as [|first rest].
  - destruct debug; cbn; [now split|reflexivity].
  - cbn [List.length Nat.eqb negb andb]. rewrite andb_false_r.
    unfold bind at 1, ret at 1. unfold bind at 1, get.
    set (sel := first :: rest).
    destruct (_ || _).
    + unfold bind at 1, DatabaseWidget.in_MessageBox at 1.
      destruct (newQuestion_paths click this tr_delete_title (tr_delete_prompt sel)
                  (Z.lor TwoSlot.Delete TwoSlot.Cancel) TwoSlot.NoButton
                  (DatabaseWidget.statics s))
        as (answer & w1 & -> & _).
      unfold bind at 1.
      assert (Hdel : exists s1,
                 (if answer =? TwoSlot.Delete
                  then DatabaseWidget.for_each sel
                         (fun entry =>
                            DatabaseWidget.on_db (DatabaseWidget.delete_entry entry))
                  else ret tt)
                   (DatabaseWidget.mkWidget w1 (DatabaseWidget.m_db s)
                                            (DatabaseWidget.exit_code s))
                 = Some (tt, s1)
                 /\ DatabaseWidget.exit_code s1 = DatabaseWidget.exit_code s).
      { destruct (answer =? TwoSlot.Delete).
        - rewrite for_each_on_db. eexists. split; reflexivity.
        - eexists. split; reflexivity. }
      destruct Hdel as (s1 & -> & Hexit).
      unfold bind at 1, DatabaseWidget.in_MessageBox at 1,
        TwoSlot.setNewNextAnswer, modify.
      unfold bind at 1, DatabaseWidget.in_MessageBox at 1.
      rewrite newQuestion_override by discriminate.
      cbn. exact Hexit.
    + unfold bind, DatabaseWidget.in_MessageBox, TwoSlot.in_env,
        QMessageBox_addButton, exec, ret.
      cbn [fst snd TwoSlot.env DatabaseWidget.statics heap_next].
      destruct (_ =? _)%N; [reflexivity|].
      rewrite for_each_on_db. reflexivity.
Qed.

(** ** Scenarios of the specification, run *)

(** No override pending, [Delete | Cancel] requested with default [Cancel];
    the operator activates the button labelled "Delete", which was created
    second. *)
Example operator_clicks_Delete :
  OneSlot.messageBox (fun _ => 2%N) nullptr Question "Delete?" "Really?"
    (Z.lor OneSlot.Delete OneSlot.Cancel) OneSlot.Cancel OneSlot.initial
  = Some (OneSlot.Delete,
          OneSlot.mkWorld OneSlot.NoButton
            (mkEnv [] 3%N
               [Custom (mkQMessageBox nullptr Question "Delete?" "Really?"
                          [mkPushButton 1%N "Cancel" RejectRole;
                           mkPushButton 2%N "Delete" DestructiveRole]
                          (Some 1%N))])).
Proof. vm_compute. reflexivity. Qed.

(** Two scripted answers, each set before its call, come out in order. *)
Example two_scripted_answers_in_order :
  (OneSlot.setNextAnswer OneSlot.Yes ;;;
   a <- OneSlot.question (fun _ => nullptr) nullptr "Save?" "Now?"
          (Z.lor OneSlot.Yes OneSlot.No) OneSlot.NoButton ;;
   OneSlot.setNextAnswer OneSlot.No ;;;
   b <- OneSlot.question (fun _ => nullptr) nullptr "Save?" "Now?"
          (Z.lor OneSlot.Yes OneSlot.No) OneSlot.NoButton ;;
   ret (a, b)) OneSlot.initial
  = Some ((OneSlot.Yes, OneSlot.No), OneSlot.initial).
Proof. vm_compute. reflexivity. Qed.

(** Closing the box without activating one of its buttons gives [NoButton]:
    the map has no entry for the null pointer. *)
Example dismissed_dialog_answers_NoButton :
  exists w',
    TwoSlot.newQuestion (fun _ => nullptr) nullptr "Delete?" "Really?"
      (Z.lor TwoSlot.Delete TwoSlot.Cancel) TwoSlot.NoButton TwoSlot.initial
    = Some (TwoSlot.NoButton, w').
Proof. eexists. vm_compute. reflexivity. Qed.

(** A permanent deletion confirmed by the operator: the entry is gone, one
    dialog was shown, and the exit code is still unset. *)
Example deleteEntries_run :
  let e1 := DatabaseWidget.mkEntry 7%N "mail" in
  let e2 := DatabaseWidget.mkEntry 8%N "bank" in
  DatabaseWidget.deleteEntries (fun _ => "Delete for good?"%string)
    (fun _ => "Move to bin?"%string) "Delete entry(s)?"
    (fun _ => "Move entry(s) to recycle bin?"%string) "Move" "Cancel"
    true (fun _ => 2%N) nullptr [e1]
    (DatabaseWidget.mkWidget TwoSlot.initial
       (DatabaseWidget.mkDatabase [e1; e2] None false) None)
  = Some (tt,
          DatabaseWidget.mkWidget
            (TwoSlot.mkWorld StandardButton.NoButton TwoSlot.NoButton
               (mkEnv [] 3%N
                  [Custom (mkQMessageBox nullptr Question "Delete entry(s)?"
                             "Delete for good?"
                             [mkPushButton 1%N "Cancel" RejectRole;
                              mkPushButton 2%N "Delete" DestructiveRole]
                             None)]))
            (DatabaseWidget.mkDatabase [e2] None false) None).
Proof. vm_compute. reflexivity. Qed.

(** * Further properties of the message box *)

Lemma qmap_find_mapped_below (l : list Z) :
  forall (p k : ptr), (k < p)%N -> qmap_find k (mapped p l) = None.
Proof.
  induction l as [|b l IH]; intros p k Hk; [reflexivity|].
  unfold qmap_find in *. cbn [mapped find fst].
  destruct (N.eqb_spec p k); [lia|]. apply IH. lia.
Qed.

(** The map filled by [add_all] sends the [i]-th address handed out to the
    [i]-th value added, and knows no other address. *)
Lemma qmap_find_mapped (l : list Z) :
  forall (p : ptr) (i : nat),
    qmap_find (p + N.of_nat i)%N (mapped p l) = nth_error l i.
Proof.
  induction l as [|b l IH]; intros p i.
  - now destruct i.
  - unfold qmap_find in *. cbn [mapped find fst].
    destruct i as [|i].
    + rewrite N.add_0_r, N.eqb_refl. reflexivity.
    + destruct (N.eqb_spec p (p + N.of_nat (S i))); [lia|].
      replace (p + N.of_nat (S i))%N with (N.succ p + N.of_nat i)%N by lia.
      apply IH.
Qed.

Lemma qmap_find_mapped_above (l : list Z) (p k : ptr) :
  (p + N.of_nat (List.length l) <= k)%N -> qmap_find k (mapped p l) = None.
Proof.
  revert p. induction l as [|b l IH]; intros p Hk; [reflexivity|].
  unfold qmap_find in *. cbn [mapped find fst]. cbn [List.length] in Hk.
  destruct (N.eqb_spec p k); [lia|]. apply IH. lia.
Qed.

Lemma nth_error_pushed (cases : Cases) (l : list Z) :
  forall (p : ptr) (i : nat) (b : Z),
    Forall (covered cases) l ->
    nth_error l i = Some b ->
    exists text r,
      switch cases b = Some (text, r)
      /\ nth_error (pushed cases p l) i = Some (mkPushButton (p + N.of_nat i)%N text r).
Proof.
  induction l as [|c l IH]; intros p i b Hc Hi; [now destruct i|].
  inversion Hc as [|? ? [_ Hsw] Hc']; subst. cbn [pushed].
  destruct (switch cases c) as [[text r]|] eqn:E; [|contradiction].
  destruct i as [|i].
  - injection Hi as <-. exists text, r. rewrite E, N.add_0_r. now split.
  - cbn [nth_error] in *.
    destruct (IH (N.succ p) i b Hc' Hi) as (text' & r' & Hs & Hn).
    exists text', r'. split; [exact Hs|].
    replace (p + N.of_nat (S i))%N with (N.succ p + N.of_nat i)%N by lia. exact Hn.
Qed.

Lemma handles_pushed (cases : Cases) (l : list Z) :
  forall (p : ptr) pb,
    In pb (pushed cases p l) ->
    (p <= handle pb < p + N.of_nat (List.length l))%N.
Proof.
  induction l as [|c l IH]; intros p pb Hin; [contradiction|].
  cbn [pushed] in Hin. destruct (switch cases c) as [[text r]|]; [|contradiction].
  cbn [List.length]. destruct Hin as [<-|Hin]; [cbn; lia|].
  apply IH in Hin. lia.
Qed.

Lemma length_pushed (cases : Cases) (l : list Z) :
  forall p, Forall (covered cases) l ->
            List.length (pushed cases p l) = List.length l.
Proof.
  induction l as [|c l IH]; intros p Hc; [reflexivity|].
  inversion Hc as [|? ? [_ Hsw] Hc']; subst. cbn [pushed].
  destruct (switch cases c) as [[text r]|]; [|contradiction].
  cbn [List.length]. now rewrite IH.
Qed.

(** The answer of the dialog path, read off a map filled from empty: the
    value at the position of the activated address, [NoButton] for any
    address that is not a button of the box. *)
Lemma answer_from_mapped (cases : Cases) (req : list Z) (p k : ptr) :
  Forall (covered cases) req ->
  (forall i b, nth_error req i = Some b -> k = (p + N.of_nat i)%N ->
               fst (qmap_index k (mapped p req)) = b)
  /\ ((forall pb, In pb (pushed cases p req) -> k <> handle pb) ->
      fst (qmap_index k (mapped p req)) = 0).
Proof.
  intros Hc. split.
  - intros i b Hi ->. unfold qmap_index. now rewrite qmap_find_mapped, Hi.
  - intros Hk. unfold qmap_index.
    destruct (N.ltb_spec k p) as [Hlt|Hge].
    { now rewrite qmap_find_mapped_below. }
    destruct (N.leb_spec (p + N.of_nat (List.length req)) k) as [Hhi|Hlo].
    { now rewrite qmap_find_mapped_above. }
    exfalso.
    assert (Hi : (N.to_nat (k - p) < List.length req)%nat) by lia.
    destruct (nth_error req (N.to_nat (k - p))) as [b|] eqn:E;
      [|apply nth_error_None in E; lia].
    destruct (@nth_error_pushed cases req p _ b Hc E) as (text & r & _ & Hn).
    apply nth_error_In in Hn. apply Hk in Hn. cbn in Hn. lia.
Qed.

Lemma answer_of_dialog (cases : Cases) (req : list Z) (p k : ptr) :
  Forall (covered cases) req ->
  (forall i b,
      nth_error req i = Some b ->
      exists pb,
        nth_error (pushed cases p req) i = Some pb
        /\ switch cases b = Some (label pb, role pb)
        /\ (k = handle pb -> fst (qmap_index k (mapped p req)) = b))
  /\ ((forall pb, In pb (pushed cases p req) -> k <> handle pb) ->
      fst (qmap_index k (mapped p req)) = 0).
Proof.
  intros Hc. destruct (@answer_from_mapped cases req p k Hc) as [Hhit Hmiss].
  split; [|exact Hmiss].
  intros i b Hi.
  destruct (@nth_error_pushed cases req p i b Hc Hi) as (text & r & Hs & Hn).
  eexists. split; [exact Hn|]. split; [exact Hs|].
  cbn [handle]. intros ->. now apply (Hhit i b).
Qed.

(** X1: on the dialog path the answer is the value of the button the operator
    activates. The [i]-th value of the requested set (ascending) has the
    [i]-th button of the box, with the text and role of its case, and
    activating that button returns that value; activating anything that is
    not a button of the box (closing the window, for one) returns
    [NoButton]. *)
Theorem answer_is_the_activated_button :
  (forall click parent icon title text buttons d (w : OneSlot.World),
      OneSlot.m_nextAnswer w = OneSlot.NoButton ->
      m_buttonMap (OneSlot.env w) = [] ->
      exists r box w',
        OneSlot.messageBox click parent icon title text buttons d w = Some (r, w')
        /\ screen (OneSlot.env w') = screen (OneSlot.env w) ++ [Custom box]
        /\ (forall i b,
               nth_error (requested OneSlot.all_buttons buttons) i = Some b ->
               exists pb,
                 nth_error (boxButtons box) i = Some pb
                 /\ switch OneSlot.addButton_cases b = Some (label pb, role pb)
                 /\ (click box = handle pb -> r = b))
        /\ ((forall pb, In pb (boxButtons box) -> click box <> handle pb) ->
            r = OneSlot.NoButton))
  /\ (forall click parent title text buttons d (w : TwoSlot.World),
      TwoSlot.m_newNextAnswer w = TwoSlot.NoButton ->
      m_buttonMap (TwoSlot.env w) = [] ->
      exists r box w',
        TwoSlot.newQuestion click parent title text buttons d w = Some (r, w')
        /\ screen (TwoSlot.env w') = screen (TwoSlot.env w) ++ [Custom box]
        /\ (forall i b,
               nth_error (requested TwoSlot.all_buttons buttons) i = Some b ->
               exists pb,
                 nth_error (boxButtons box) i = Some pb
                 /\ switch TwoSlot.addButton_cases b = Some (label pb, role pb)
                 /\ (click box = handle pb -> r = b))
        /\ ((forall pb, In pb (boxButtons box) -> click box <> handle pb) ->
            r = TwoSlot.NoButton)).
Proof.
  split.
  - intros click parent icon title text buttons d w Hslot Hmap.
    rewrite messageBox_dialog by exact Hslot.
    do 3 eexists. split; [reflexivity|]. split; [reflexivity|].
    unfold messageBox_box. rewrite Hmap, insert_all_empty.
    rewrite boxButtons_withDefault, boxButtons_pushAll.
    cbn [boxButtons setText setWindowTitle setIcon newBox app].
    pose proof (requested_covered buttons OneSlot_all_buttons_covered) as Hcov.
    revert Hcov. generalize (requested OneSlot.all_buttons buttons). intros req Hcov.
    match goal with |- context [click ?b] => generalize (click b) end. intros k.
    exact (@answer_of_dialog OneSlot.addButton_cases req _ k Hcov).
  - intros click parent title text buttons d w Hslot Hmap.
    rewrite newQuestion_dialog by exact Hslot.
    do 3 eexists. split; [reflexivity|]. split; [reflexivity|].
    unfold newQuestion_box. rewrite Hmap, insert_all_empty.
    rewrite boxButtons_pushAll.
    cbn [boxButtons setText setWindowTitle setIcon newBox app].
    pose proof (requested_covered buttons TwoSlot_all_buttons_covered) as Hcov.
    revert Hcov. generalize (requested TwoSlot.all_buttons buttons). intros req Hcov.
    match goal with |- context [click ?b] => generalize (click b) end. intros k.
    exact (@answer_of_dialog TwoSlot.addButton_cases req _ k Hcov).
Qed.

(** The operator activates the second button, [Delete]. *)
Lemma answer_is_the_activated_button_witness :
  OneSlot.m_nextAnswer OneSlot.initial = OneSlot.NoButton
  /\ m_buttonMap (OneSlot.env OneSlot.initial) = []
  /\ exists r box w',
      OneSlot.messageBox (fun _ => 2%N) nullptr Question "Delete?" "Really?"
        (Z.lor OneSlot.Delete OneSlot.Cancel) OneSlot.Cancel OneSlot.initial
      = Some (r, w')
      /\ screen (OneSlot.env w') = screen (OneSlot.env OneSlot.initial) ++ [Custom box]
      /\ (forall i b,
             nth_error (requested OneSlot.all_buttons
                          (Z.lor OneSlot.Delete OneSlot.Cancel)) i = Some b ->
             exists pb,
               nth_error (boxButtons box) i = Some pb
               /\ switch OneSlot.addButton_cases b = Some (label pb, role pb)
               /\ ((fun _ : QMessageBox => 2%N) box = handle pb -> r = b))
      /\ ((forall pb, In pb (boxButtons box) ->
                      (fun _ : QMessageBox => 2%N) box <> handle pb) ->
          r = OneSlot.NoButton).
Proof.
  split; [reflexivity|]. split; [reflexivity|].
  apply (proj1 answer_is_the_activated_button); reflexivity.
Defined.

(** X2: scripted answers come out in the order they were set, one per call:
    set [a], confirm, set [b], confirm gives [a] then [b], shows nothing and
    leaves the slot empty. *)
Theorem scripted_answers_in_order (a b : Z) :
  a <> 0 -> b <> 0 ->
  (forall click1 click2 parent1 parent2 icon1 icon2 title1 title2 text1 text2
          R1 R2 d1 d2 (w : OneSlot.World),
      (OneSlot.setNextAnswer a ;;;
       x <- OneSlot.messageBox click1 parent1 icon1 title1 text1 R1 d1 ;;
       OneSlot.setNextAnswer b ;;;
       y <- OneSlot.messageBox click2 parent2 icon2 title2 text2 R2 d2 ;;
       ret (x, y)) w
      = Some ((a, b), OneSlot.mkWorld OneSlot.NoButton (OneSlot.env w)))
  /\ (forall click1 click2 parent1 parent2 title1 title2 text1 text2
             R1 R2 d1 d2 (w : TwoSlot.World),
      (TwoSlot.setNewNextAnswer a ;;;
       x <- TwoSlot.newQuestion click1 parent1 title1 text1 R1 d1 ;;
       TwoSlot.setNewNextAnswer b ;;;
       y <- TwoSlot.newQuestion click2 parent2 title2 text2 R2 d2 ;;
       ret (x, y)) w
      = Some ((a, b), TwoSlot.mkWorld (TwoSlot.m_nextAnswer w) TwoSlot.NoButton
                                      (TwoSlot.env w)))
  /\ (forall icon1 icon2 answer1 answer2 parent1 parent2 title1 title2 text1 text2
             R1 R2 d1 d2 (w : TwoSlot.World),
      (TwoSlot.setNextAnswer a ;;;
       x <- TwoSlot.standardBox icon1 answer1 parent1 title1 text1 R1 d1 ;;
       TwoSlot.setNextAnswer b ;;;
       y <- TwoSlot.standardBox icon2 answer2 parent2 title2 text2 R2 d2 ;;
       ret (x, y)) w
      = Some ((a, b), TwoSlot.mkWorld StandardButton.NoButton
                                      (TwoSlot.m_newNextAnswer w) (TwoSlot.env w))).
Proof.
  intros Ha Hb. split; [|split]; intros.
  - unfold OneSlot.setNextAnswer at 1, bind at 1, modify. unfold bind at 1.
    rewrite messageBox_override by exact Ha.
    unfold OneSlot.setNextAnswer, bind at 1, modify. unfold bind at 1.
    rewrite messageBox_override by exact Hb. reflexivity.
  - unfold TwoSlot.setNewNextAnswer at 1, bind at 1, modify. unfold bind at 1.
    rewrite newQuestion_override by exact Ha.
    unfold TwoSlot.setNewNextAnswer, bind at 1, modify. unfold bind at 1.
    rewrite newQuestion_override by exact Hb. reflexivity.
  - unfold TwoSlot.setNextAnswer at 1, bind at 1, modify. unfold bind at 1.
    rewrite standardBox_override by exact Ha.
    unfold TwoSlot.setNextAnswer, bind at 1, modify. unfold bind at 1.
    rewrite standardBox_override by exact Hb. reflexivity.
Qed.

Lemma scripted_answers_in_order_witness :
  OneSlot.Yes <> 0 /\ OneSlot.No <> 0
  /\ (OneSlot.setNextAnswer OneSlot.Yes ;;;
      x <- OneSlot.messageBox (fun _ => nullptr) nullptr Question "Save?" "Now?"
             (Z.lor OneSlot.Yes OneSlot.No) OneSlot.NoButton ;;
      OneSlot.setNextAnswer OneSlot.No ;;;
      y <- OneSlot.messageBox (fun _ => nullptr) nullptr Warning "Sure?" "Really?"
             (Z.lor OneSlot.Yes OneSlot.No) OneSlot.NoButton ;;
      ret (x, y)) OneSlot.initial
     = Some ((OneSlot.Yes, OneSlot.No), OneSlot.initial).
Proof.
  assert (Ha : OneSlot.Yes <> 0) by (vm_compute; discriminate).
  assert (Hb : OneSlot.No <> 0) by (vm_compute; discriminate).
  split; [exact Ha|]. split; [exact Hb|].
  apply (proj1 (scripted_answers_in_order Ha Hb)).
Defined.

Lemma requested_masked (range : list Z) (mask buttons : Z) :
  Forall (fun b => Z.land b mask = b) range ->
  requested range (Z.land buttons mask) = requested range buttons.
Proof.
  intros H. unfold requested. apply filter_ext_in. intros b Hb.
  rewrite Forall_forall in H. specialize (H b Hb).
  now rewrite (Z.land_comm buttons mask), Z.land_assoc, H.
Qed.

Lemma TwoSlot_mask_covers : Forall (fun b => Z.land b TwoSlot_mask = b) TwoSlot.all_buttons.
Proof. repeat (constructor; [reflexivity|]). constructor. Qed.

Lemma OneSlot_mask_covers : Forall (fun b => Z.land b OneSlot_mask = b) OneSlot.all_buttons.
Proof. repeat (constructor; [reflexivity|]). constructor. Qed.

(** X3: only the bits between the loop markers count. Whatever else the
    requested set holds (bit 0, bits above [Last], such as a button of the
    later revision handed to the earlier one) changes nothing: the call
    behaves as on the set masked to the enumerators, in shown box, answer and
    final state. *)
Theorem bits_outside_the_markers_are_ignored :
  (forall click parent title text buttons d (w : TwoSlot.World),
      TwoSlot.newQuestion click parent title text buttons d w
      = TwoSlot.newQuestion click parent title text (Z.land buttons TwoSlot_mask) d w)
  /\ (forall click parent icon title text buttons d (w : OneSlot.World),
      OneSlot.messageBox click parent icon title text buttons d w
      = OneSlot.messageBox click parent icon title text (Z.land buttons OneSlot_mask) d w)
  /\ TwoSlot_mask = 0x1FFFFE
  /\ OneSlot_mask = 0x1FFFFFE.
Proof.
  split; [|split; [|split; reflexivity]].
  - intros click parent title text buttons d w.
    destruct (Z.eq_dec (TwoSlot.m_newNextAnswer w) TwoSlot.NoButton) as [H|H].
    + rewrite !newQuestion_dialog by exact H. unfold newQuestion_box.
      now rewrite (@requested_masked _ _ buttons TwoSlot_mask_covers).
    + now rewrite !newQuestion_override by exact H.
  - intros click parent icon title text buttons d w.
    destruct (Z.eq_dec (OneSlot.m_nextAnswer w) OneSlot.NoButton) as [H|H].
    + rewrite !messageBox_dialog by exact H. unfold messageBox_box.
      now rewrite (@requested_masked _ _ buttons OneSlot_mask_covers).
    + now rewrite !messageBox_override by exact H.
Qed.

Lemma run_OneSlotCall_keeps_map_empty (c : OneSlotCall) (w : OneSlot.World) :
  m_buttonMap (OneSlot.env w) = [] ->
  exists w', run_OneSlotCall c w = Some (tt, w') /\ m_buttonMap (OneSlot.env w') = [].
Proof.
  intros Hm. destruct c as [k|click parent icon title text buttons d]; cbn [run_OneSlotCall].
  - eexists. split; [reflexivity|exact Hm].
  - destruct (@messageBox_leaves_map_empty click parent icon title text buttons d w Hm)
      as (r & w' & Hrun & Hm').
    exists w'. unfold bind. rewrite Hrun. now split.
Qed.

Lemma run_TwoSlotCall_keeps_map_empty (c : TwoSlotCall) (w : TwoSlot.World) :
  m_buttonMap (TwoSlot.env w) = [] ->
  exists w', run_TwoSlotCall c w = Some (tt, w') /\ m_buttonMap (TwoSlot.env w') = [].
Proof.
  intros Hm.
  destruct c as [k|k|icon answer parent title text buttons d
                 |click parent title text buttons d]; cbn [run_TwoSlotCall].
  - eexists. split; [reflexivity|exact Hm].
  - eexists. split; [reflexivity|exact Hm].
  - destruct (standardBox_paths icon answer parent title text buttons d w)
      as (r & w' & Hrun & _ & _ & Hpath).
    exists w'. unfold bind. rewrite Hrun. split; [reflexivity|].
    destruct (Z.eq_dec (TwoSlot.m_nextAnswer w) StandardButton.NoButton) as [H|H].
    + rewrite standardBox_dialog in Hrun by exact H.
      injection Hrun as _ <-. exact Hm.
    + rewrite standardBox_override in Hrun by exact H.
      injection Hrun as _ <-. exact Hm.
  - destruct (Z.eq_dec (TwoSlot.m_newNextAnswer w) TwoSlot.NoButton) as [H|H].
    + unfold bind. rewrite newQuestion_dialog by exact H.
      eexists. split; reflexivity.
    + unfold bind. rewrite newQuestion_override by exact H.
      eexists. split; [reflexivity|exact Hm].
Qed.

(** X4: [m_buttonMap] is empty between calls. Whatever sequence of setters
    and confirmation calls is run from the static initialisers, with
    whatever operator, every call returns and the map is empty afterwards:
    the entries a dialog adds never survive it. *)
Theorem buttonMap_is_empty_between_calls :
  (forall calls : list OneSlotCall,
      exists w',
        run_OneSlotCalls calls OneSlot.initial = Some (tt, w')
        /\ m_buttonMap (OneSlot.env w') = [])
  /\ (forall calls : list TwoSlotCall,
      exists w',
        run_TwoSlotCalls calls TwoSlot.initial = Some (tt, w')
        /\ m_buttonMap (TwoSlot.env w') = []).
Proof.
  split.
  - intros calls.
    assert (H : forall w, m_buttonMap (OneSlot.env w) = [] ->
                          exists w', run_OneSlotCalls calls w = Some (tt, w')
                                     /\ m_buttonMap (OneSlot.env w') = []).
    { induction calls as [|c calls IH]; intros w Hm.
      - exists w. now split.
      - destruct (run_OneSlotCall_keeps_map_empty c w Hm) as (w1 & Hrun & Hm1).
        destruct (IH w1 Hm1) as (w2 & Hrun2 & Hm2).
        exists w2. cbn [run_OneSlotCalls]. unfold bind. rewrite Hrun. now split. }
    now apply H.
  - intros calls.
    assert (H : forall w, m_buttonMap (TwoSlot.env w) = [] ->
                          exists w', run_TwoSlotCalls calls w = Some (tt, w')
                                     /\ m_buttonMap (TwoSlot.env w') = []).
    { induction calls as [|c calls IH]; intros w Hm.
      - exists w. now split.
      - destruct (run_TwoSlotCall_keeps_map_empty c w Hm) as (w1 & Hrun & Hm1).
        destruct (IH w1 Hm1) as (w2 & Hrun2 & Hm2).
        exists w2. cbn [run_TwoSlotCalls]. unfold bind. rewrite Hrun. now split. }
    now apply H.
Qed.

(** * Further properties of [deleteEntries] *)

(** X5: entries are deleted for good only on the answer [Delete] to the first
    question. The database is the old one after any other answer (Cancel, a
    closed dialog, another scripted value) and the old one with every
    selected entry deleted, in selection order, after [Delete]. The run
    leaves [m_newNextAnswer] empty, shows at most the one dialog of the first
    question and does not touch the exit code. *)
Theorem deleted_only_on_answer_Delete :
  forall tr_delete_prompt tr_move_prompt tr_delete_title tr_move_title
         tr_Move tr_Cancel debug click this first rest
         (s : DatabaseWidget.Widget),
    deleted_for_good first (DatabaseWidget.m_db s) = true ->
    exists answer w1,
      TwoSlot.newQuestion click this tr_delete_title
        (tr_delete_prompt (first :: rest))
        (Z.lor TwoSlot.Delete TwoSlot.Cancel) TwoSlot.NoButton
        (DatabaseWidget.statics s) = Some (answer, w1)
      /\ DatabaseWidget.deleteEntries tr_delete_prompt tr_move_prompt
           tr_delete_title tr_move_title tr_Move tr_Cancel
           debug click this (first :: rest) s
         = Some (tt,
                 DatabaseWidget.mkWidget
                   (TwoSlot.mkWorld (TwoSlot.m_nextAnswer w1) TwoSlot.NoButton
                                    (TwoSlot.env w1))
                   (if answer =? TwoSlot.Delete
                    then fold_left (fun d x => DatabaseWidget.delete_entry x d)
                                   (first :: rest) (DatabaseWidget.m_db s)
                    else DatabaseWidget.m_db s)
                   (DatabaseWidget.exit_code s)).
Proof.
  intros until s. intros Hgood.
  destruct (newQuestion_paths click this tr_delete_title
              (tr_delete_prompt (first :: rest))
              (Z.lor TwoSlot.Delete TwoSlot.Cancel) TwoSlot.NoButton
              (DatabaseWidget.statics s)) as (answer & w1 & Hq & _).
  exists answer, w1. split; [exact Hq|].
  unfold DatabaseWidget.deleteEntries, DatabaseWidget.Q_ASSERT.
  cbn [List.length Nat.eqb negb andb]. rewrite andb_false_r.
  unfold bind at 1, ret at 1. unfold bind at 1, get.
  unfold deleted_for_good in Hgood. rewrite Hgood.
  unfold bind at 1, DatabaseWidget.in_MessageBox at 1. rewrite Hq.
  unfold bind at 1.
  destruct (answer =? TwoSlot.Delete).
  - rewrite for_each_on_db.
    unfold bind at 1, DatabaseWidget.in_MessageBox at 1,
      TwoSlot.setNewNextAnswer, modify.
    unfold bind at 1, DatabaseWidget.in_MessageBox at 1.
    rewrite newQuestion_override by discriminate. reflexivity.
  - unfold ret at 1.
    unfold bind at 1, DatabaseWidget.in_MessageBox at 1,
      TwoSlot.setNewNextAnswer, modify.
    unfold bind at 1, DatabaseWidget.in_MessageBox at 1.
    rewrite newQuestion_override by discriminate. reflexivity.
Qed.

Lemma deleted_only_on_answer_Delete_witness :
  let e1 := DatabaseWidget.mkEntry 7%N "mail" in
  let s := DatabaseWidget.mkWidget TwoSlot.initial
             (DatabaseWidget.mkDatabase [e1] None false) None in
  deleted_for_good e1 (DatabaseWidget.m_db s) = true
  /\ exists answer w1,
      TwoSlot.newQuestion (fun _ => 1%N) nullptr "Delete entry(s)?" "For good?"
        (Z.lor TwoSlot.Delete TwoSlot.Cancel) TwoSlot.NoButton
        (DatabaseWidget.statics s) = Some (answer, w1)
      /\ DatabaseWidget.deleteEntries (fun _ => "For good?"%string)
           (fun _ => "To the bin?"%string) "Delete entry(s)?"
           (fun _ => "Move?"%string) "Move" "Cancel"
           false (fun _ => 1%N) nullptr [e1] s
         = Some (tt,
                 DatabaseWidget.mkWidget
                   (TwoSlot.mkWorld (TwoSlot.m_nextAnswer w1) TwoSlot.NoButton
                                    (TwoSlot.env w1))
                   (if answer =? TwoSlot.Delete
                    then fold_left (fun d x => DatabaseWidget.delete_entry x d)
                                   [e1] (DatabaseWidget.m_db s)
                    else DatabaseWidget.m_db s)
                   (DatabaseWidget.exit_code s)).
Proof.
  intros e1 s. split; [reflexivity|].
  apply (@deleted_only_on_answer_Delete (fun _ => "For good?"%string)
           (fun _ => "To the bin?"%string) "Delete entry(s)?"
           (fun _ => "Move?"%string) "Move" "Cancel"
           false (fun _ => 1%N) nullptr e1 [] s).
  reflexivity.
Defined.

(** X6: the confirmation of the recycle branch cannot be scripted. It is
    built on Qt directly: whatever the two slots hold, the box is shown, with
    the buttons Move and Cancel and Cancel as default, and both slots are
    left as they were. The entries go to the recycle bin, in selection order,
    unless the operator activates Cancel, in which case the database is
    untouched. *)
Theorem recycle_confirmation_is_always_shown :
  forall tr_delete_prompt tr_move_prompt tr_delete_title tr_move_title
         tr_Move tr_Cancel debug click this first rest
         (s : DatabaseWidget.Widget),
    deleted_for_good first (DatabaseWidget.m_db s) = false ->
    let w := DatabaseWidget.statics s in
    let p := heap_next (TwoSlot.env w) in
    let box :=
      mkQMessageBox nullptr Question
        (tr_move_title (List.length (first :: rest)))
        (tr_move_prompt (first :: rest))
        [mkPushButton p tr_Move AcceptRole;
         mkPushButton (N.succ p) tr_Cancel RejectRole]
        (Some (N.succ p)) in
    DatabaseWidget.deleteEntries tr_delete_prompt tr_move_prompt
      tr_delete_title tr_move_title tr_Move tr_Cancel
      debug click this (first :: rest) s
    = Some (tt,
            DatabaseWidget.mkWidget
              (TwoSlot.mkWorld (TwoSlot.m_nextAnswer w) (TwoSlot.m_newNextAnswer w)
                 (mkEnv (m_buttonMap (TwoSlot.env w)) (N.succ (N.succ p))
                        (screen (TwoSlot.env w) ++ [Custom box])))
              (if (click box =? N.succ p)%N
               then DatabaseWidget.m_db s
               else fold_left (fun d x => DatabaseWidget.recycleEntry x d)
                              (first :: rest) (DatabaseWidget.m_db s))
              (DatabaseWidget.exit_code s)).
Proof.
  intros until s. intros Hgood w p box.
  unfold DatabaseWidget.deleteEntries, DatabaseWidget.Q_ASSERT.
  cbn [List.length Nat.eqb negb andb]. rewrite andb_false_r.
  unfold bind at 1, ret at 1. unfold bind at 1, get.
  unfold deleted_for_good in Hgood. rewrite Hgood.
  unfold bind, DatabaseWidget.in_MessageBox, TwoSlot.in_env,
    QMessageBox_addButton, exec, ret.
  cbn [fst snd TwoSlot.env DatabaseWidget.statics heap_next m_buttonMap screen
       TwoSlot.m_nextAnswer TwoSlot.m_newNextAnswer DatabaseWidget.m_db
       DatabaseWidget.exit_code].
  change (setDefaultButton _ _) with box.
  change (heap_next (TwoSlot.env (DatabaseWidget.statics s))) with p.
  destruct (click box =? N.succ p)%N; [reflexivity|].
  rewrite for_each_on_db. reflexivity.
Qed.

Lemma recycle_confirmation_is_always_shown_witness :
  let e1 := DatabaseWidget.mkEntry 7%N "mail" in
  let s := DatabaseWidget.mkWidget
             (TwoSlot.mkWorld StandardButton.Yes TwoSlot.Delete (mkEnv [] 1%N []))
             (DatabaseWidget.mkDatabase [e1] None true) None in
  deleted_for_good e1 (DatabaseWidget.m_db s) = false
  /\ DatabaseWidget.deleteEntries (fun _ => "For good?"%string)
       (fun _ => "To the bin?"%string) "Delete entry(s)?"
       (fun _ => "Move?"%string) "Move" "Cancel"
       false (fun _ => 1%N) nullptr [e1] s
     = Some (tt,
             DatabaseWidget.mkWidget
               (TwoSlot.mkWorld StandardButton.Yes TwoSlot.Delete
                  (mkEnv [] 3%N
                     [Custom (mkQMessageBox nullptr Question "Move?" "To the bin?"
                                [mkPushButton 1%N "Move" AcceptRole;
                                 mkPushButton 2%N "Cancel" RejectRole]
                                (Some 2%N))]))
               (DatabaseWidget.mkDatabase [] (Some [e1]) true) None).
Proof.
  intros e1 s. split; [reflexivity|].
  apply (@recycle_confirmation_is_always_shown (fun _ => "For good?"%string)
           (fun _ => "To the bin?"%string) "Delete entry(s)?"
           (fun _ => "Move?"%string) "Move" "Cancel"
           false (fun _ => 1%N) nullptr e1 [] s).
  reflexivity.
Defined.

(** * Properties of [DatabaseSettingsWidgetMasterKey::save] *)

Section MasterKeyFacts.
Import MasterKeySettings.

Variable WITH_XC_YUBIKEY : bool.
Variables PasswordKey_UUID FileKey_UUID YkChallengeResponseKey_UUID : N.
Variables tr_Unknown_error tr_Failed_to_change_master_key
          tr_No_encryption_key_added tr_You_must_add_a_key
          tr_No_password_set tr_WARNING_no_password : string.
Variable debug : bool.
Variable click : QMessageBox -> ptr.
Variable this : ptr.

Lemma in_MessageBox_messageBox (icon : Icon) (title text : string) (R d : Z)
    (s : Settings) :
  exists r w',
    OneSlot.messageBox click this icon title text R d (statics s) = Some (r, w')
    /\ in_MessageBox (OneSlot.messageBox click this icon title text R d) s
       = Some (r, with_statics w' s).
Proof.
  destruct (messageBox_paths click this icon title text R d (statics s))
    as (r & w' & Hrun & _).
  exists r, w'. split; [exact Hrun|].
  unfold in_MessageBox. now rewrite Hrun.
Qed.

(** What one call of [addToCompositeKey] can do: succeed without a trace,
    fail after a [critical] box, or stop at the assertion. *)
Lemma addToCompositeKey_cases (kind : OldKeyKind) (widget : Component)
    (newKey : CompositeKey) (oldKey : option Key) (s : Settings) :
  match addToCompositeKey tr_Unknown_error tr_Failed_to_change_master_key
          debug click this kind widget newKey oldKey s with
  | Some ((true, _), s') => s' = s
  | Some ((false, _), s') => exists w', s' = with_statics w' s
  | None => debug = true /\ visiblePage widget = LeaveOrRemove /\ oldKey = None
  end.
Proof.
  unfold addToCompositeKey.
  destruct (visiblePage widget); cbn [page_eqb].
  - reflexivity.
  - destruct (validate widget tr_Unknown_error) as [ok err]. cbn [fst snd].
    destruct ok.
    + destruct (component_addToCompositeKey widget newKey) as [ok2 k2].
      cbn [fst snd]. destruct ok2; [reflexivity|].
      unfold bind, OneSlot.critical.
      destruct (in_MessageBox_messageBox Critical tr_Failed_to_change_master_key
                  err OneSlot.Ok OneSlot.NoButton s) as (r & w' & _ & ->).
      now exists w'.
    + unfold bind, OneSlot.critical.
      destruct (in_MessageBox_messageBox Critical tr_Failed_to_change_master_key
                  err OneSlot.Ok OneSlot.NoButton s) as (r & w' & _ & ->).
      now exists w'.
  - unfold DatabaseWidget.Q_ASSERT, bind.
    destruct debug, oldKey; cbn; auto.
Qed.

(** Every way [save] can return. *)
Lemma save_outcomes (s : Settings) (r : bool) (s' : Settings) :
  save WITH_XC_YUBIKEY PasswordKey_UUID FileKey_UUID YkChallengeResponseKey_UUID
       tr_Unknown_error tr_Failed_to_change_master_key
       tr_No_encryption_key_added tr_You_must_add_a_key
       tr_No_password_set tr_WARNING_no_password debug click this s = Some (r, s') ->
  (r = true
   /\ s' = set_isDirty false s
   /\ dirty_after_save WITH_XC_YUBIKEY s = false
   /\ exists k, db_key s = Some k /\ keys k <> [])
  \/ (r = false
      /\ exists w', s' = with_statics w' (set_isDirty (dirty_after_save WITH_XC_YUBIKEY s) s))
  \/ (r = true
      /\ exists nk w',
          s' = mkSettings (dirty_after_save WITH_XC_YUBIKEY s)
                          (m_passwordEditWidget s) (m_keyFileEditWidget s)
                          (m_yubiKeyEditWidget s) (Some nk) w'
                          (editFinished s ++ [true])
          /\ (keys nk <> [] \/ challengeResponseKeys nk <> [])
          /\ (visiblePage (m_passwordEditWidget s) = AddNew ->
              OneSlot.warning click this tr_No_password_set tr_WARNING_no_password
                (Z.lor OneSlot.Yes OneSlot.Cancel) OneSlot.Cancel (statics s)
              = Some (OneSlot.Yes, w'))
          /\ (visiblePage (m_passwordEditWidget s) <> AddNew -> w' = statics s)).
Proof.
  unfold save. cbv zeta. unfold bind at 1, get.
  fold (dirty_after_save WITH_XC_YUBIKEY s).
  set (dirty := dirty_after_save WITH_XC_YUBIKEY s).
  unfold bind at 1, modify.
  set (s0 := set_isDirty dirty s).
  destruct (db_key s) as [dbKey|] eqn:Hkey; [|discriminate].
  destruct (negb (Nat.eqb (List.length (keys dbKey)) 0) && negb dirty) eqn:Hsame.
  { intros H; unfold ret in H; injection H as <- <-. left.
    apply andb_prop in Hsame. destruct Hsame as [Hne Hd].
    apply negb_true_iff in Hd. split; [reflexivity|].
    subst s0. rewrite Hd. split; [reflexivity|]. split; [reflexivity|].
    exists dbKey. split; [reflexivity|].
    intros E. rewrite E in Hne. discriminate. }
  unfold bind at 1, lift_option at 1, ret at 1.
  unfold bind at 1.
  destruct (last_of_type _ _ (keys dbKey)) as [[passwordKey fileKey]|];
    [|discriminate].
  cbn [lift_option]. unfold ret at 1. unfold bind at 1.
  destruct (last_of_type _ _ (challengeResponseKeys dbKey)) as [[ykCrKey ignored]|];
    [|discriminate].
  cbn [lift_option]. unfold ret at 1. cbn [fst snd].
  unfold bind at 1.
  pose proof (addToCompositeKey_cases PlainKey (m_passwordEditWidget s)
                (mkCompositeKey [] []) passwordKey s0) as H1.
  destruct (addToCompositeKey _ _ _ _ _ PlainKey (m_passwordEditWidget s) _ _ s0)
    as [[[ok1 k1] s1]|]; [|discriminate].
  cbn [fst snd]. destruct ok1; cbn [negb].
  2:{ intros H; unfold ret in H; injection H as <- <-. right. left. split; [reflexivity|exact H1]. }
  subst s1. unfold bind at 1.
  pose proof (addToCompositeKey_cases PlainKey (m_keyFileEditWidget s)
                k1 fileKey s0) as H2.
  destruct (addToCompositeKey _ _ _ _ _ PlainKey (m_keyFileEditWidget s) _ _ s0)
    as [[[ok2 k2] s2]|]; [|discriminate].
  cbn [fst snd]. destruct ok2; cbn [negb].
  2:{ intros H; unfold ret in H; injection H as <- <-. right. left. split; [reflexivity|exact H2]. }
  subst s2. unfold bind at 1.
  assert (H3 : match (if WITH_XC_YUBIKEY
                      then addToCompositeKey tr_Unknown_error
                             tr_Failed_to_change_master_key debug click this
                             ChallengeResponse (m_yubiKeyEditWidget s) k2 ykCrKey
                      else ret (true, k2)) s0 with
               | Some ((true, _), s3) => s3 = s0
               | Some ((false, _), s3) => exists w', s3 = with_statics w' s0
               | None => True
               end).
  { destruct WITH_XC_YUBIKEY; [|reflexivity].
    pose proof (addToCompositeKey_cases ChallengeResponse (m_yubiKeyEditWidget s)
                  k2 ykCrKey s0) as H.
    destruct (addToCompositeKey _ _ _ _ _ ChallengeResponse _ _ _ s0)
      as [[[[|] ?] ?]|]; auto. }
  match type of H3 with
  | match ?run with _ => _ end => destruct run as [[[ok3 k3] s3]|]
  end; [|discriminate].
  cbn [fst snd]. destruct ok3; cbn [negb].
  2:{ intros H; unfold ret in H; injection H as <- <-. right. left. split; [reflexivity|exact H3]. }
  subst s3.
  destruct (Nat.eqb (List.length (keys k3)) 0
            && Nat.eqb (List.length (challengeResponseKeys k3)) 0) eqn:Hempty.
  { unfold bind at 1, OneSlot.critical.
    destruct (in_MessageBox_messageBox Critical tr_No_encryption_key_added
                tr_You_must_add_a_key OneSlot.Ok OneSlot.Ok s0) as (a & w' & _ & ->).
    intros H; unfold ret in H; injection H as <- <-. right. left. split; [reflexivity|]. now exists w'. }
  assert (Hnk : keys k3 <> [] \/ challengeResponseKeys k3 <> []).
  { apply andb_false_iff in Hempty. destruct Hempty as [E|E]; [left|right];
      intros F; rewrite F in E; discriminate. }
  unfold bind at 1.
  destruct (visiblePage (m_passwordEditWidget s)) eqn:Hpage; cbn [page_eqb].
  - unfold bind at 1, OneSlot.warning.
    destruct (in_MessageBox_messageBox Warning tr_No_password_set
                tr_WARNING_no_password (Z.lor OneSlot.Yes OneSlot.Cancel)
                OneSlot.Cancel s0) as (a & w' & Hrun & ->).
    unfold ret at 1.
    destruct (Z.eqb_spec a OneSlot.Yes) as [->|Hno]; cbn [negb].
    + intros H; unfold ret in H; injection H as <- <-. right. right. split; [reflexivity|].
      exists k3, w'. split; [reflexivity|]. split; [exact Hnk|].
      split; [intros _; exact Hrun|]. intros F; now elim F.
    + intros H; unfold ret in H; injection H as <- <-. right. left. split; [reflexivity|].
      now exists w'.
  - unfold ret at 1. cbn [negb].
    intros H; unfold ret in H; injection H as <- <-. right. right. split; [reflexivity|].
    exists k3, (statics s). split; [reflexivity|]. split; [exact Hnk|].
    split; [discriminate|reflexivity].
  - unfold ret at 1. cbn [negb].
    intros H; unfold ret in H; injection H as <- <-. right. right. split; [reflexivity|].
    exists k3, (statics s). split; [reflexivity|]. split; [exact Hnk|].
    split; [discriminate|reflexivity].
Qed.

(** X7: a key that was not touched is not rebuilt. When the database has a
    composite key with at least one key, [m_isDirty] is clear and no
    component is on its edit page, [save] returns true at once: no question,
    no signal, the key and every other field as before. *)
Theorem save_keeps_an_untouched_key (s : Settings) (k : CompositeKey) :
  db_key s = Some k ->
  keys k <> [] ->
  dirty_after_save WITH_XC_YUBIKEY s = false ->
  save WITH_XC_YUBIKEY PasswordKey_UUID FileKey_UUID YkChallengeResponseKey_UUID
       tr_Unknown_error tr_Failed_to_change_master_key
       tr_No_encryption_key_added tr_You_must_add_a_key
       tr_No_password_set tr_WARNING_no_password debug click this s = Some (true, s).
Proof.
  intros Hkey Hne Hdirty.
  unfold save. cbv zeta. unfold bind at 1, get.
  fold (dirty_after_save WITH_XC_YUBIKEY s). rewrite Hdirty, Hkey.
  unfold bind at 1, modify.
  destruct (keys k) as [|x l]; [contradiction|]. cbn [List.length Nat.eqb negb andb].
  unfold ret. do 2 f_equal.
  unfold dirty_after_save in Hdirty.
  repeat (apply orb_false_elim in Hdirty; destruct Hdirty as [Hdirty _]).
  destruct s. cbn in *. now subst.
Qed.

(** X8: [save] never installs an empty key. Whenever it returns, either the
    key of the database and the signals are those before the call (it
    returned false, or true because the key was untouched), or the key was
    replaced by one with at least one key or challenge-response key and
    [editFinished(true)] was emitted once. *)
Theorem save_never_installs_an_empty_key (s : Settings) (r : bool) (s' : Settings) :
  save WITH_XC_YUBIKEY PasswordKey_UUID FileKey_UUID YkChallengeResponseKey_UUID
       tr_Unknown_error tr_Failed_to_change_master_key
       tr_No_encryption_key_added tr_You_must_add_a_key
       tr_No_password_set tr_WARNING_no_password debug click this s = Some (r, s') ->
  (db_key s' = db_key s /\ editFinished s' = editFinished s)
  \/ (r = true
      /\ editFinished s' = editFinished s ++ [true]
      /\ exists nk,
          db_key s' = Some nk /\ (keys nk <> [] \/ challengeResponseKeys nk <> [])).
Proof.
  intros H. apply save_outcomes in H.
  destruct H as [(_ & -> & _)|[(_ & w' & ->)|(-> & nk & w' & -> & Hnk & _)]].
  - left. now split.
  - left. now split.
  - right. split; [reflexivity|]. split; [reflexivity|]. now exists nk.
Qed.

(** X9: without a password the key is replaced only on the answer [Yes].
    When the password component shows its add-new page and [save] replaces
    the key (the signal [editFinished(true)] is emitted), the warning with
    the buttons Yes and Cancel and the default Cancel, asked in the state of
    the statics [save] was entered with, was answered [Yes]. *)
Theorem passwordless_key_needs_Yes (s : Settings) (r : bool) (s' : Settings) :
  visiblePage (m_passwordEditWidget s) = AddNew ->
  save WITH_XC_YUBIKEY PasswordKey_UUID FileKey_UUID YkChallengeResponseKey_UUID
       tr_Unknown_error tr_Failed_to_change_master_key
       tr_No_encryption_key_added tr_You_must_add_a_key
       tr_No_password_set tr_WARNING_no_password debug click this s = Some (r, s') ->
  editFinished s' <> editFinished s ->
  OneSlot.warning click this tr_No_password_set tr_WARNING_no_password
    (Z.lor OneSlot.Yes OneSlot.Cancel) OneSlot.Cancel (statics s)
  = Some (OneSlot.Yes, statics s').
Proof.
  intros Hpage H Hsig. apply save_outcomes in H.
  destruct H as [(_ & -> & _)|[(_ & w' & ->)|(-> & nk & w' & -> & _ & Hyes & _)]].
  - now elim Hsig.
  - now elim Hsig.
  - now apply Hyes.
Qed.

(** X10: [save] has no result on a database without a key object. The first
    test allows for [m_db->key()] being null, as [load] does, but the loops
    that follow dereference it. *)
Theorem save_dereferences_a_null_key (s : Settings) :
  db_key s = None ->
  save WITH_XC_YUBIKEY PasswordKey_UUID FileKey_UUID YkChallengeResponseKey_UUID
       tr_Unknown_error tr_Failed_to_change_master_key
       tr_No_encryption_key_added tr_You_must_add_a_key
       tr_No_password_set tr_WARNING_no_password debug click this s = None.
Proof.
  intros Hkey. unfold save. cbv zeta. unfold bind at 1, get. rewrite Hkey.
  unfold bind at 1, modify. reflexivity.
Qed.

End MasterKeyFacts.

Lemma save_keeps_an_untouched_key_witness :
  let k := MasterKeySettings.mkCompositeKey [Some (MasterKeySettings.mkKey 1%N 7%N)] [] in
  let s := settings_of false component_kept component_unused (Some k) in
  MasterKeySettings.db_key s = Some k
  /\ MasterKeySettings.keys k <> []
  /\ dirty_after_save false s = false
  /\ sample_save (fun _ => nullptr) s = Some (true, s).
Proof.
  intros k s.
  assert (H1 : MasterKeySettings.db_key s = Some k) by reflexivity.
  assert (H2 : MasterKeySettings.keys k <> []) by discriminate.
  assert (H3 : dirty_after_save false s = false) by reflexivity.
  split; [exact H1|]. split; [exact H2|]. split; [exact H3|].
  exact (@save_keeps_an_untouched_key false 1%N 2%N 3%N "Unknown error"
           "Failed to change master key" "No encryption key added"
           "You must add at least one encryption key to secure your database!"
           "No password set" "Are you sure you want to continue without a password?"
           false
           (fun _ => nullptr) nullptr s k H1 H2 H3).
Defined.

Lemma save_never_installs_an_empty_key_witness :
  let old := MasterKeySettings.mkCompositeKey [Some (MasterKeySettings.mkKey 1%N 7%N)] [] in
  let new := MasterKeySettings.mkCompositeKey [Some (MasterKeySettings.mkKey 1%N 42%N)] [] in
  let s := settings_of false component_new_password component_unused (Some old) in
  let s' := MasterKeySettings.mkSettings true component_new_password component_unused
              component_unused (Some new) OneSlot.initial [true] in
  sample_save (fun _ => nullptr) s = Some (true, s')
  /\ ((MasterKeySettings.db_key s' = MasterKeySettings.db_key s
       /\ MasterKeySettings.editFinished s' = MasterKeySettings.editFinished s)
      \/ (true = true
          /\ MasterKeySettings.editFinished s' = MasterKeySettings.editFinished s ++ [true]
          /\ exists nk,
              MasterKeySettings.db_key s' = Some nk
              /\ (MasterKeySettings.keys nk <> []
                  \/ MasterKeySettings.challengeResponseKeys nk <> []))).
Proof.
  intros old new s s'.
  assert (H : sample_save (fun _ => nullptr) s = Some (true, s'))
    by (vm_compute; reflexivity).
  split; [exact H|].
  exact (@save_never_installs_an_empty_key false 1%N 2%N 3%N "Unknown error"
           "Failed to change master key" "No encryption key added"
           "You must add at least one encryption key to secure your database!"
           "No password set" "Are you sure you want to continue without a password?"
           false
           (fun _ => nullptr) nullptr s true s' H).
Defined.

(** The database has a key file only; the password stays unset, the operator
    activates the second button of the warning, Yes. *)
Lemma passwordless_key_needs_Yes_witness :
  let old := MasterKeySettings.mkCompositeKey [Some (MasterKeySettings.mkKey 2%N 9%N)] [] in
  let s := settings_of true component_unused component_kept (Some old) in
  let box := mkQMessageBox nullptr Warning "No password set"
               "Are you sure you want to continue without a password?"
               [mkPushButton 1%N "Cancel" RejectRole; mkPushButton 2%N "Yes" YesRole]
               (Some 1%N) in
  let s' := MasterKeySettings.mkSettings true component_unused component_kept
              component_unused (Some old)
              (OneSlot.mkWorld OneSlot.NoButton (mkEnv [] 3%N [Custom box])) [true] in
  MasterKeySettings.visiblePage (MasterKeySettings.m_passwordEditWidget s)
  = MasterKeySettings.AddNew
  /\ sample_save (fun _ => 2%N) s = Some (true, s')
  /\ MasterKeySettings.editFinished s' <> MasterKeySettings.editFinished s
  /\ OneSlot.warning (fun _ => 2%N) nullptr "No password set"
       "Are you sure you want to continue without a password?"
       (Z.lor OneSlot.Yes OneSlot.Cancel) OneSlot.Cancel (MasterKeySettings.statics s)
     = Some (OneSlot.Yes, MasterKeySettings.statics s').
Proof.
  intros old s box s'.
  assert (H1 : MasterKeySettings.visiblePage (MasterKeySettings.m_passwordEditWidget s)
               = MasterKeySettings.AddNew) by reflexivity.
  assert (H2 : sample_save (fun _ => 2%N) s = Some (true, s'))
    by (vm_compute; reflexivity).
  assert (H3 : MasterKeySettings.editFinished s' <> MasterKeySettings.editFinished s)
    by discriminate.
  split; [exact H1|]. split; [exact H2|]. split; [exact H3|].
  exact (@passwordless_key_needs_Yes false 1%N 2%N 3%N "Unknown error"
           "Failed to change master key" "No encryption key added"
           "You must add at least one encryption key to secure your database!"
           "No password set" "Are you sure you want to continue without a password?"
           false
           (fun _ => 2%N) nullptr s true s' H1 H2 H3).
Defined.

Lemma save_dereferences_a_null_key_witness :
  let s := settings_of true component_new_password component_unused None in
  MasterKeySettings.db_key s = None
  /\ sample_save (fun _ => nullptr) s = None.
Proof.
  intros s. split; [reflexivity|].
  exact (@save_dereferences_a_null_key false 1%N 2%N 3%N "Unknown error"
           "Failed to change master key" "No encryption key added"
           "You must add at least one encryption key to secure your database!"
           "No password set" "Are you sure you want to continue without a password?"
           false
           (fun _ => nullptr) nullptr s eq_refl).
Defined.

(** * Properties of [DatabaseWidget::save] and the file watcher *)

(** [updateFilePath] in one step. *)
Lemma updateFilePath_run (Q_OS_LINUX : bool) (statfs : string -> option Z)
    (filePath : string) (v : SaveFlow.Saver) :
  SaveFlow.updateFilePath Q_OS_LINUX statfs filePath v
  = Some (tt,
          SaveFlow.mkSaver (SaveFlow.statics v) (SaveFlow.currentWidget v)
            (SaveFlow.db_readOnly v) filePath (SaveFlow.config v)
            (SaveFlow.m_ignoreAutoReload v) (SaveFlow.m_fileWatchTimer v)
            (SaveFlow.m_fileWatchUnblockTimer v)
            (SaveFlow.m_fileWatcher v
             ++ watcher_calls Q_OS_LINUX statfs (SaveFlow.db_filePath v) filePath)
            (SaveFlow.writes v) (SaveFlow.asked v) (SaveFlow.messages v)).
Proof.
  unfold SaveFlow.updateFilePath, watcher_calls.
  unfold bind at 1, get at 1. unfold bind at 1.
  destruct (negb (String.eqb (SaveFlow.db_filePath v) EmptyString)), Q_OS_LINUX;
    unfold SaveFlow.ask_watcher, bind, modify, ret, SaveFlow.set_db;
    cbn [SaveFlow.statics SaveFlow.currentWidget SaveFlow.db_readOnly
         SaveFlow.db_filePath SaveFlow.config SaveFlow.m_ignoreAutoReload
         SaveFlow.m_fileWatchTimer SaveFlow.m_fileWatchUnblockTimer
         SaveFlow.m_fileWatcher SaveFlow.writes SaveFlow.asked SaveFlow.messages app];
    rewrite <- ?app_assoc; reflexivity.
Qed.

Section SaveFacts.
Import SaveFlow.

Variable Q_OS_LINUX : bool.
Variable statfs : string -> option Z.
Variable disk : nat -> string -> bool -> bool -> bool * string.
Variable chooser : nat -> string -> string.
Variable file_exists : string -> bool.
Variable default_save_path : string.
Variables tr_Disable_safe_saves tr_failed_multiple_times : string.
Variable tr_Writing_failed : string -> string.
Variable debug : bool.
Variable answer : Shown -> Z.
Variable elapsed : Shown -> N.
Variable this : ptr.

Local Abbreviation save :=
  (SaveFlow.save Q_OS_LINUX statfs disk chooser file_exists default_save_path
     tr_Disable_safe_saves tr_failed_multiple_times tr_Writing_failed debug
     answer elapsed this).
Local Abbreviation saveAs :=
  (SaveFlow.saveAs Q_OS_LINUX statfs disk chooser file_exists default_save_path
     tr_Disable_safe_saves tr_failed_multiple_times tr_Writing_failed debug
     answer elapsed this).
Local Abbreviation dialog :=
  (safe_saves_question this tr_Disable_safe_saves tr_failed_multiple_times).
Local Abbreviation choice := (save_choice answer dialog).
Local Abbreviation fires := (timer_fires_in elapsed dialog).

(** One call of [save] on a writable database: the write, and what follows
    it. *)
Lemma save_step (fuel : nat) (attempt : Z) (s : Saver) :
  writable s ->
  save (S fuel) attempt s
  = (let written := disk (List.length (writes s)) (db_filePath s)
                         (uses_atomic_saves s) (backs_up s) in
     if fst written then ret true
     else if (0 <=? attempt) && (attempt <=? 2)
     then next <- int_succ attempt ;; save fuel next
     else
       again <-
         (if (2 <? attempt) && uses_atomic_saves s then
            s <- get ;;
            let shown :=
              TwoSlot.m_nextAnswer (statics s) =? StandardButton.NoButton in
            choice <- in_MessageBox
                        (TwoSlot.question answer this tr_Disable_safe_saves
                           tr_failed_multiple_times
                           (Z.lor StandardButton.Yes StandardButton.No)
                           StandardButton.Yes) ;;
            (if shown then dialog_event_loop Q_OS_LINUX statfs
                             (Z.of_N (elapsed dialog))
             else ret tt) ;;;
            ret (choice =? StandardButton.Yes)
          else ret false) ;;
       if again then
         modify (fun s => set_config (config_set (config s) "UseAtomicSaves" false) s) ;;;
         next <- int_succ attempt ;;
         save fuel next
       else
         showMessage (tr_Writing_failed (snd written)) MessageError ;;;
         ret false) (after_write s).
Proof.
  intros (Hlock & Hro & Hpath).
  apply String.eqb_neq in Hpath.
  cbn [SaveFlow.save]. unfold bind at 1, get. rewrite Hlock.
  unfold DatabaseWidget.Q_ASSERT. rewrite andb_false_r.
  unfold bind at 1, ret at 1. rewrite Hro, Hpath. cbn [orb].
  unfold bind at 1, blockAutoReload at 1, modify at 1.
  unfold bind at 1, get.
  unfold bind at 1, modify at 1.
  unfold bind at 1, blockAutoReload at 1, modify at 1.
  reflexivity.
Qed.

Lemma writable_after_write (s : Saver) : writable s -> writable (after_write s).
Proof. intros H. exact H. Qed.

Lemma last_snoc {A : Type} (l : list A) (x d : A) : last (l ++ [x]) d = x.
Proof.
  induction l as [|y l IH]; [reflexivity|].
  cbn [app]. destruct (l ++ [x]) eqn:E; [now destruct l|]. exact IH.
Qed.

(** A write that is not retried: [attempt] is negative, or above 2 with safe
    saves already off. *)
Lemma save_writes_once (fuel : nat) (attempt : Z) (s : Saver) :
  writable s ->
  attempt < 0 \/ (2 < attempt /\ uses_atomic_saves s = false) ->
  exists r s',
    save (S fuel) attempt s = Some (r, s')
    /\ saved_in_place disk tr_Writing_failed s r s' 1
    /\ statics s' = statics s
    /\ config s' = config s.
Proof.
  intros Hw Hatt. rewrite save_step by exact Hw. cbv zeta.
  pose (written := disk (List.length (writes s)) (db_filePath s)
                        (uses_atomic_saves s) (backs_up s)).
  fold written.
  assert (Hlast : forall m,
             last (writes s ++ [(db_filePath s, uses_atomic_saves s, backs_up s)]) m
             = (db_filePath s, uses_atomic_saves s, backs_up s))
    by (intros; apply last_snoc).
  assert (Hlen : (List.length (writes s ++ [(db_filePath s, uses_atomic_saves s,
                                             backs_up s)]) - 1)%nat
                 = List.length (writes s))
    by (rewrite length_app; cbn; lia).
  destruct (fst written) eqn:Hok.
  - exists true, (after_write s). split; [reflexivity|]. split; [|now split].
    unfold saved_in_place. cbn [after_write writes currentWidget db_readOnly
      db_filePath asked m_fileWatcher m_ignoreAutoReload m_fileWatchTimer
      m_fileWatchUnblockTimer messages].
    split; [now rewrite length_app|].
    repeat (split; [reflexivity|]).
    exists (uses_atomic_saves s), (backs_up s). rewrite Hlast, Hlen.
    fold written. rewrite Hok. now repeat split.
  - assert (Hno : (0 <=? attempt) && (attempt <=? 2) = false).
    { destruct Hatt as [Hneg|[Hbig _]].
      - apply andb_false_iff. left. apply Z.leb_gt. exact Hneg.
      - apply andb_false_iff. right. apply Z.leb_gt. exact Hbig. }
    rewrite Hno.
    assert (Hq : (2 <? attempt) && uses_atomic_saves s = false).
    { destruct Hatt as [Hneg|[_ Hoff]].
      - apply andb_false_iff. left. apply Z.ltb_ge. lia.
      - rewrite Hoff. apply andb_false_r. }
    rewrite Hq. unfold bind at 1, ret at 1.
    eexists false, _. split; [reflexivity|]. split; [|now split].
    unfold saved_in_place. cbn [after_write writes currentWidget db_readOnly
      db_filePath asked m_fileWatcher m_ignoreAutoReload m_fileWatchTimer
      m_fileWatchUnblockTimer messages].
    split; [now rewrite length_app|].
    repeat (split; [reflexivity|]).
    exists (uses_atomic_saves s), (backs_up s). rewrite Hlast, Hlen.
    fold written. rewrite Hok. now repeat split.
Qed.

(** The question of [save] and its event loop, asked with the unblock timer
    just started. *)
Lemma save_question (v : Saver) :
  m_fileWatchUnblockTimer v = Some 500 ->
  exists w,
    (s <- get ;;
     let shown :=
       TwoSlot.m_nextAnswer (statics s) =? StandardButton.NoButton in
     choice <- in_MessageBox
                 (TwoSlot.question answer this tr_Disable_safe_saves
                    tr_failed_multiple_times
                    (Z.lor StandardButton.Yes StandardButton.No)
                    StandardButton.Yes) ;;
     (if shown then dialog_event_loop Q_OS_LINUX statfs (Z.of_N (elapsed dialog))
      else ret tt) ;;;
     ret (choice =? StandardButton.Yes)) v
    = Some (choice v =? StandardButton.Yes,
            if fires v then
              mkSaver w (currentWidget v) (db_readOnly v) (db_filePath v) (config v)
                false (m_fileWatchTimer v) None
                (m_fileWatcher v
                 ++ watcher_calls Q_OS_LINUX statfs (db_filePath v) (db_filePath v))
                (writes v) (asked v) (messages v)
            else
              mkSaver w (currentWidget v) (db_readOnly v) (db_filePath v) (config v)
                (m_ignoreAutoReload v) (m_fileWatchTimer v)
                (Some (if dialog_is_shown v then 500 - Z.of_N (elapsed dialog)
                       else 500))
                (m_fileWatcher v) (writes v) (asked v) (messages v)).
Proof.
  intros Htimer. unfold bind at 1, get at 1. cbv zeta.
  unfold save_choice, timer_fires_in, dialog_is_shown.
  destruct (Z.eqb_spec (TwoSlot.m_nextAnswer (statics v)) StandardButton.NoButton)
    as [Hslot|Hslot].
  - unfold bind at 1, in_MessageBox at 1, TwoSlot.question.
    rewrite standardBox_dialog by exact Hslot. cbv zeta.
    eexists. fold dialog.
    unfold bind at 1, dialog_event_loop at 1. unfold bind at 1, get at 1.
    cbn [m_fileWatchUnblockTimer]. rewrite Htimer.
    destruct (500 <=? Z.of_N (elapsed dialog)); cbn [andb].
    + unfold unblockTimer_timeout, unblockAutoReload.
      unfold bind at 1, modify at 1. unfold bind at 1, modify at 1.
      unfold bind at 1, get at 1.
      rewrite updateFilePath_run. unfold ret. reflexivity.
    + unfold modify, ret. reflexivity.
  - unfold bind at 1, in_MessageBox at 1, TwoSlot.question.
    rewrite standardBox_override by exact Hslot.
    eexists. unfold bind, ret. cbn [andb]. rewrite <- Htimer. reflexivity.
Qed.

Local Abbreviation leaves :=
  (save_leaves Q_OS_LINUX statfs disk tr_Writing_failed answer elapsed dialog).

(** The last write of a run: [attempt] is negative, or above 2 with safe
    saves off. *)
Lemma save_last (fuel : nat) (attempt : Z) (s : Saver) :
  writable s ->
  attempt < 0 \/ (2 < attempt /\ uses_atomic_saves s = false) ->
  save (S fuel) attempt s
  = (let written := disk (List.length (writes s)) (db_filePath s)
                         (uses_atomic_saves s) (backs_up s) in
     if fst written then ret true
     else showMessage (tr_Writing_failed (snd written)) MessageError ;;; ret false)
      (after_write s).
Proof.
  intros Hw Hatt. rewrite save_step by exact Hw. cbv zeta.
  destruct (fst (disk _ _ _ _)); [reflexivity|].
  assert (Hno : (0 <=? attempt) && (attempt <=? 2) = false).
  { destruct Hatt as [Hneg|[Hbig _]].
    - apply andb_false_iff. left. apply Z.leb_gt. exact Hneg.
    - apply andb_false_iff. right. apply Z.leb_gt. exact Hbig. }
  assert (Hq : (2 <? attempt) && uses_atomic_saves s = false).
  { destruct Hatt as [Hneg|[_ Hoff]].
    - apply andb_false_iff. left. apply Z.ltb_ge. lia.
    - rewrite Hoff. apply andb_false_r. }
  rewrite Hno, Hq. unfold bind at 1, ret at 1. reflexivity.
Qed.

Lemma first_attempt_result (n : nat) (s : Saver) :
  save_attempt_result disk n s 0
  = disk (List.length (writes s)) (db_filePath s) (uses_atomic_saves s) (backs_up s).
Proof. unfold save_attempt_result. now rewrite Nat.add_0_r. Qed.

(** The fifth write, after the operator agreed to switch safe saves off. *)
Lemma save_after_Yes (fuel : nat) (s s2 : Saver) :
  writable s ->
  uses_atomic_saves s = true ->
  choice s = StandardButton.Yes ->
  fst (save_attempt_result disk 0 s 0) = false ->
  isLocked s2 = isLocked s ->
  currentWidget s2 = currentWidget s ->
  db_readOnly s2 = db_readOnly s ->
  db_filePath s2 = db_filePath s ->
  config s2 = config_set (config s) "UseAtomicSaves" false ->
  writes s2 = writes s ++ [(db_filePath s, true, backs_up s)] ->
  asked s2 = asked s ->
  messages s2 = messages s ->
  (m_fileWatcher s2 = m_fileWatcher s
   \/ (fires s = true
       /\ m_fileWatcher s2
          = m_fileWatcher s
            ++ watcher_calls Q_OS_LINUX statfs (db_filePath s) (db_filePath s))) ->
  exists r s', save (S fuel) 4 s2 = Some (r, s') /\ leaves 0 s r s' 2.
Proof.
  intros Hw Hat Hyes Hfail Hlock Hcw Hro Hpath Hconfig Hwrites Hasked Hmsg Hwatch.
  assert (Hoff : uses_atomic_saves s2 = false)
    by (unfold uses_atomic_saves; now rewrite Hconfig).
  assert (Hbackup : backs_up s2 = backs_up s)
    by (unfold backs_up; now rewrite Hconfig).
  assert (Hw2 : writable s2).
  { destruct Hw as (H1 & H2 & H3). repeat split; congruence. }
  assert (Hsecond : disk (List.length (writes s2)) (db_filePath s2)
                         (uses_atomic_saves s2) (backs_up s2)
                    = save_attempt_result disk 0 s 1).
  { unfold save_attempt_result. rewrite Hwrites, length_app, Hpath, Hoff, Hbackup.
    reflexivity. }
  rewrite (@save_last fuel 4 s2 Hw2) by (right; split; [lia|exact Hoff]).
  cbv zeta. rewrite Hsecond.
  assert (Hlist : writes s2 ++ [(db_filePath s2, uses_atomic_saves s2, backs_up s2)]
                  = writes s ++ map (save_attempt 0 s) (seq 0 2)).
  { rewrite Hwrites, Hpath, Hoff, Hbackup, <- app_assoc.
    unfold save_attempt. cbn [map seq Nat.leb andb app]. now rewrite Hat. }
  destruct (fst (save_attempt_result disk 0 s 1)) eqn:Hok.
  - exists true, (after_write s2). split; [reflexivity|].
    unfold save_leaves. cbn [after_write writes config messages currentWidget
      db_readOnly db_filePath asked m_fileWatchTimer m_ignoreAutoReload
      m_fileWatchUnblockTimer m_fileWatcher Nat.sub Nat.eqb Nat.add].
    rewrite app_nil_r.
    split; [lia|]. split; [exact Hlist|].
    split; [intros i Hi; assert (i = 0%nat) as -> by lia; exact Hfail|].
    split; [now rewrite Hok|]. split; [discriminate|].
    split; [intros _; now split|]. split; [discriminate|].
    split; [exact Hconfig|]. split; [exact Hmsg|].
    split; [now repeat split|]. split; [reflexivity|].
    split; [left; split; [reflexivity|]; exists 500; split; [reflexivity|lia]|].
    destruct Hwatch as [Hwatch|(Hf & Hwatch)]; [now left|right].
    split; [exact Hf|]. split; [exact Hat|]. split; [lia|exact Hwatch].
  - unfold bind, showMessage, modify, ret.
    eexists false, _. split; [reflexivity|].
    unfold save_leaves. cbn [after_write writes config messages currentWidget
      db_readOnly db_filePath asked m_fileWatchTimer m_ignoreAutoReload
      m_fileWatchUnblockTimer m_fileWatcher Nat.sub Nat.eqb Nat.add].
    split; [lia|]. split; [exact Hlist|].
    split; [intros i Hi; assert (i = 0%nat) as -> by lia; exact Hfail|].
    split; [now rewrite Hok|]. split; [lia|].
    split; [intros _; now split|]. split; [discriminate|].
    split; [exact Hconfig|]. split; [now rewrite Hmsg|].
    split; [now repeat split|]. split; [reflexivity|].
    split; [left; split; [reflexivity|]; exists 500; split; [reflexivity|lia]|].
    destruct Hwatch as [Hwatch|(Hf & Hwatch)]; [now left|right].
    split; [exact Hf|]. split; [exact Hat|]. split; [lia|exact Hwatch].
Qed.

Lemma result_shift (n : nat) (s : Saver) (i : nat) :
  save_attempt_result disk (S n) s (S i)
  = save_attempt_result disk n (after_write s) i.
Proof.
  unfold save_attempt_result. cbn [after_write writes db_filePath].
  rewrite length_app. cbn [List.length].
  replace (List.length (writes s) + 1 + i)%nat
    with (List.length (writes s) + S i)%nat by lia.
  reflexivity.
Qed.

(** Moving the start of a run one failed write back. *)
Lemma leaves_shift (n : nat) (s : Saver) (r : bool) (s' : Saver) (k : nat) :
  fst (save_attempt_result disk (S n) s 0) = false ->
  leaves n (after_write s) r s' k ->
  leaves (S n) s r s' (S k).
Proof.
  intros Hfail (Hk & Hwrites & Hfailed & Hr & Hfalse & Hfive & Hfour & Hconfig
                & Hmsg & Hframe & Htimer & Hreload & Hwatch).
  assert (Hlast : save_attempt_result disk (S n) s (S k - 1)
                  = save_attempt_result disk n (after_write s) (k - 1)).
  { replace (S k - 1)%nat with (S (k - 1)) by lia. apply result_shift. }
  unfold save_leaves.
  split; [lia|].
  split.
  { rewrite Hwrites. cbn [after_write writes seq map]. rewrite <- app_assoc.
    cbn [app]. rewrite <- seq_shift, map_map. reflexivity. }
  split.
  { intros [|i] Hi; [exact Hfail|]. rewrite result_shift. apply Hfailed. lia. }
  split; [now rewrite Hlast|].
  split; [intros E; specialize (Hfalse E); lia|].
  split; [intros E; apply Hfive; lia|].
  split; [intros E; apply Hfour; lia|].
  split; [exact Hconfig|].
  split; [rewrite Hlast; exact Hmsg|].
  split; [exact Hframe|].
  split; [exact Htimer|].
  split.
  { destruct Hreload as [H|(H1 & H2 & H3)]; [now left|right].
    split; [exact H1|]. split; [lia|exact H3]. }
  destruct Hwatch as [H|(H1 & H2 & H3 & H4)]; [now left|right].
  split; [exact H1|]. split; [exact H2|]. split; [lia|exact H4].
Qed.

(** The runs of [save], by the number of retries left. *)
Lemma save_run (n : nat) :
  forall (fuel : nat) (attempt : Z) (s : Saver),
    writable s ->
    attempt = 3 - Z.of_nat n ->
    (n <= 3)%nat ->
    (n + 2 <= fuel)%nat ->
    exists r s' k, save fuel attempt s = Some (r, s') /\ leaves n s r s' k.
Proof.
  induction n as [|n IH]; intros fuel attempt s Hw Hatt Hn Hfuel.
  - (* attempt = 3 *)
    cbn in Hatt. subst attempt.
    destruct fuel as [|[|fuel]]; try lia.
    pose proof (first_attempt_result 0 s) as Hfirst.
    destruct (uses_atomic_saves s) eqn:Hat.
    2:{ rewrite (@save_last (S fuel) 3 s Hw) by (right; split; [lia|exact Hat]).
        cbv zeta. rewrite Hat. rewrite <- Hfirst.
        destruct (fst (save_attempt_result disk 0 s 0)) eqn:Hok.
        - exists true, (after_write s), 1%nat. split; [reflexivity|].
          unfold save_leaves. cbn [after_write writes config messages currentWidget
            db_readOnly db_filePath asked m_fileWatchTimer m_ignoreAutoReload
            m_fileWatchUnblockTimer m_fileWatcher Nat.sub Nat.eqb Nat.add].
          rewrite Hat, app_nil_r.
          split; [lia|]. split; [unfold save_attempt; cbn [map seq Nat.leb andb]; now rewrite ?Hat|].
          split; [intros i Hi; lia|].
          split; [now rewrite Hok|]. split; [discriminate|].
          split; [discriminate|]. split; [discriminate|].
          split; [reflexivity|]. split; [reflexivity|].
          split; [repeat split|]. split; [reflexivity|].
          split; [left; split; [reflexivity|]; exists 500; split; [reflexivity|lia]|].
          now left.
        - unfold bind, showMessage, modify, ret.
          eexists false, _, 1%nat. split; [reflexivity|].
          unfold save_leaves. cbn [after_write writes config messages currentWidget
            db_readOnly db_filePath asked m_fileWatchTimer m_ignoreAutoReload
            m_fileWatchUnblockTimer m_fileWatcher Nat.sub Nat.eqb Nat.add].
          rewrite Hat.
          split; [lia|]. split; [unfold save_attempt; cbn [map seq Nat.leb andb]; now rewrite ?Hat|].
          split; [intros i Hi; lia|].
          split; [now rewrite Hok|]. split; [lia|].
          split; [discriminate|]. split; [intros _ _ H; discriminate H|].
          split; [reflexivity|]. split; [reflexivity|].
          split; [repeat split|]. split; [reflexivity|].
          split; [left; split; [reflexivity|]; exists 500; split; [reflexivity|lia]|].
          now left. }
    rewrite save_step by exact Hw. cbv zeta. rewrite Hat. rewrite <- Hfirst.
    destruct (fst (save_attempt_result disk 0 s 0)) eqn:Hok.
    { exists true, (after_write s), 1%nat. split; [reflexivity|].
      unfold save_leaves. cbn [after_write writes config messages currentWidget
        db_readOnly db_filePath asked m_fileWatchTimer m_ignoreAutoReload
        m_fileWatchUnblockTimer m_fileWatcher Nat.sub Nat.eqb Nat.add].
      rewrite Hat, app_nil_r.
      split; [lia|]. split; [unfold save_attempt; cbn [map seq Nat.leb andb]; now rewrite ?Hat|].
      split; [intros i Hi; lia|].
      split; [now rewrite Hok|]. split; [discriminate|].
      split; [discriminate|]. split; [discriminate|].
      split; [reflexivity|]. split; [reflexivity|].
      split; [repeat split|]. split; [reflexivity|].
      split; [left; split; [reflexivity|]; exists 500; split; [reflexivity|lia]|].
      now left. }
    change ((0 <=? 3) && (3 <=? 2)) with false. change (2 <? 3) with true.
    cbn [andb]. unfold bind at 1.
    destruct (@save_question (after_write s) eq_refl) as (w & E). cbv zeta in E.
    rewrite E. clear E.
    change (choice (after_write s)) with (choice s).
    change (fires (after_write s)) with (fires s).
    change (dialog_is_shown (after_write s)) with (dialog_is_shown s).
    cbn [after_write currentWidget db_readOnly db_filePath config m_ignoreAutoReload
         m_fileWatchTimer m_fileWatchUnblockTimer m_fileWatcher writes asked messages].
    assert (Ht : fires s = false ->
                 0 < (if dialog_is_shown s then 500 - Z.of_N (elapsed dialog) else 500)
                 <= 500).
    { unfold timer_fires_in. destruct (dialog_is_shown s); cbn [andb]; [|lia].
      intros H. apply Z.leb_gt in H. lia. }
    destruct (choice s =? StandardButton.Yes) eqn:Hyes.
    + apply Z.eqb_eq in Hyes.
      unfold bind at 1, modify at 1. unfold bind at 1, int_succ at 1, ret at 1.
      change (3 <? 2 ^ 31 - 1) with true. cbv beta iota. change (3 + 1) with 4.
      match goal with
      | |- context [save (S fuel) 4 ?s2] =>
          destruct (@save_after_Yes fuel s s2 Hw Hat Hyes Hok)
            as (r & s' & Hrun & Hl)
      end;
        try (destruct (fires s); reflexivity);
        [destruct (fires s); cbn [writes set_config]; now rewrite Hat
        |destruct (fires s); [right; split; reflexivity|now left]
        |].
      exists r, s', 2%nat. split; [exact Hrun|exact Hl].
    + apply Z.eqb_neq in Hyes.
      unfold bind, showMessage, modify, ret.
      eexists false, _, 1%nat. split; [reflexivity|].
      unfold save_leaves.
      destruct (fires s) eqn:Hf;
        cbn [writes config messages currentWidget
          db_readOnly db_filePath asked m_fileWatchTimer m_ignoreAutoReload
          m_fileWatchUnblockTimer m_fileWatcher Nat.sub Nat.eqb Nat.add].
      * split; [lia|].
        split; [unfold save_attempt; cbn [map seq Nat.leb andb]; now rewrite ?Hat|].
        split; [intros i Hi; lia|].
        split; [now rewrite Hok|]. split; [lia|].
        split; [discriminate|]. split; [intros _ _ _; exact Hyes|].
        split; [reflexivity|]. split; [reflexivity|].
        split; [repeat split|]. split; [reflexivity|].
        split; [right; repeat split; first [exact Hat|exact Hyes|reflexivity]|].
        right. split; [reflexivity|]. split; [exact Hat|]. split; [lia|reflexivity].
      * split; [lia|].
        split; [unfold save_attempt; cbn [map seq Nat.leb andb]; now rewrite ?Hat|].
        split; [intros i Hi; lia|].
        split; [now rewrite Hok|]. split; [lia|].
        split; [discriminate|]. split; [intros _ _ _; exact Hyes|].
        split; [reflexivity|]. split; [reflexivity|].
        split; [repeat split|]. split; [reflexivity|].
        split; [left; split; [reflexivity|]; eexists; split; [reflexivity|];
                apply Ht; reflexivity|].
        now left.
  - (* attempt = 3 - S n, between 0 and 2 *)
    destruct fuel as [|fuel]; [lia|].
    pose proof (first_attempt_result (S n) s) as Hfirst.
    rewrite save_step by exact Hw. cbv zeta. rewrite <- Hfirst.
    destruct (fst (save_attempt_result disk (S n) s 0)) eqn:Hok.
    + exists true, (after_write s), 1%nat. split; [reflexivity|].
      unfold save_leaves. cbn [after_write writes config messages currentWidget
        db_readOnly db_filePath asked m_fileWatchTimer m_ignoreAutoReload
        m_fileWatchUnblockTimer m_fileWatcher Nat.sub].
      rewrite app_nil_r.
      split; [lia|]. split; [reflexivity|].
      split; [intros i Hi; lia|].
      split; [now rewrite Hok|]. split; [discriminate|].
      split; [lia|]. split; [lia|].
      split; [destruct (Nat.eqb_spec 1 (S n + 2)); [lia|reflexivity]|].
      split; [reflexivity|].
      split; [repeat split|]. split; [reflexivity|].
      split; [left; split; [reflexivity|]; exists 500; split; [reflexivity|lia]|].
      now left.
    + assert (Hin : (0 <=? attempt) && (attempt <=? 2) = true).
      { apply andb_true_intro. split; [apply Z.leb_le|apply Z.leb_le]; lia. }
      rewrite Hin. unfold bind at 1, int_succ at 1.
      assert (Hs : (attempt <? 2 ^ 31 - 1) = true) by (apply Z.ltb_lt; lia).
      rewrite Hs. unfold ret at 1.
      destruct (IH fuel (attempt + 1) (after_write s) (writable_after_write Hw))
        as (r & s' & k & Hrun & Hl); [lia|lia|lia|].
      exists r, s', (S k). split; [exact Hrun|].
      apply leaves_shift; [exact Hok|exact Hl].
Qed.

(** X11: [save(0)] stops at the first write that succeeds, and gives up
    after five at most. On a writable database it calls [m_db->save] [k]
    times, [k] between 1 and 5: every call but the last failed, and the
    result is that of the last. The first four calls use the safe-save flag
    of the configuration; a fifth is made only when that flag was on and the
    question was answered Yes, and it is made with the flag off, which is then
    off in the configuration too. False comes back only after four failed
    writes, with the error text of the last one shown; nothing is shown on
    success. The page on display, the path and the read-only flag are
    untouched and the file dialog is not opened. *)
Theorem save_retries_are_bounded (fuel : nat) (s : Saver) :
  writable s ->
  (5 <= fuel)%nat ->
  exists r s' k,
    save fuel 0 s = Some (r, s')
    /\ (1 <= k <= 5)%nat
    /\ writes s' = writes s ++ map (save_attempt 3 s) (seq 0 k)
    /\ (forall i, (S i < k)%nat -> fst (save_attempt_result disk 3 s i) = false)
    /\ r = fst (save_attempt_result disk 3 s (k - 1))
    /\ (r = false -> (4 <= k)%nat)
    /\ (k = 5%nat -> uses_atomic_saves s = true /\ choice s = StandardButton.Yes)
    /\ (k = 4%nat -> r = false -> uses_atomic_saves s = true ->
        choice s <> StandardButton.Yes)
    /\ config s' = (if (k =? 5)%nat
                    then config_set (config s) "UseAtomicSaves" false
                    else config s)
    /\ messages s'
       = messages s
         ++ (if r then []
             else [(tr_Writing_failed (snd (save_attempt_result disk 3 s (k - 1))),
                    MessageError)])
    /\ currentWidget s' = currentWidget s
    /\ db_readOnly s' = db_readOnly s
    /\ db_filePath s' = db_filePath s
    /\ asked s' = asked s.
Proof.
  intros Hw Hfuel.
  destruct (@save_run 3 fuel 0 s Hw) as (r & s' & k & Hrun & Hl);
    [reflexivity|lia|lia|].
  destruct Hl as (Hk & Hwrites & Hfailed & Hr & Hfalse & Hfive & Hfour & Hconfig
                  & Hmsg & (H1 & H2 & H3 & H4) & _).
  exists r, s', k. split; [exact Hrun|]. split; [exact Hk|].
  split; [exact Hwrites|]. split; [exact Hfailed|]. split; [exact Hr|].
  split; [exact Hfalse|]. split; [exact Hfive|]. split; [exact Hfour|].
  split; [exact Hconfig|]. split; [exact Hmsg|]. now repeat split.
Qed.

(** X12: the [save(-1)] of [saveAs] writes once. Entered with a negative
    attempt on a writable database, [save] calls [m_db->save] exactly once,
    asks no question and leaves the configuration alone; it returns what
    the write returned and shows the error text when that is false. *)
Theorem save_for_saveAs_writes_once (fuel : nat) (attempt : Z) (s : Saver) :
  writable s ->
  attempt < 0 ->
  exists r s',
    save (S fuel) attempt s = Some (r, s')
    /\ saved_in_place disk tr_Writing_failed s r s' 1
    /\ statics s' = statics s
    /\ config s' = config s.
Proof.
  intros Hw Hneg. apply save_writes_once; [exact Hw|now left].
Qed.

(** X13: a locked widget is never written. In a release build [save] returns
    true at once and changes nothing; in a debug build the assertion stops
    it. *)
Theorem save_of_a_locked_database (fuel : nat) (attempt : Z) (s : Saver) :
  isLocked s = true ->
  save (S fuel) attempt s = if debug then None else Some (true, s).
Proof.
  intros Hlock. cbn [SaveFlow.save]. unfold bind at 1, get. rewrite Hlock.
  unfold DatabaseWidget.Q_ASSERT. cbn [negb andb].
  destruct debug; [reflexivity|]. reflexivity.
Qed.

(** One round of the loop of [saveAs]. *)
Lemma saveAs_step (fuel : nat) (s : Saver) :
  saveAs (S fuel) s
  = (let suggested := if file_exists (db_filePath s) then db_filePath s
                      else default_save_path in
     let newFilePath := chooser (List.length (asked s)) suggested in
     if negb (String.eqb newFilePath EmptyString) then
       saved <- save fuel (-1) ;;
       if negb saved then saveAs fuel else ret true
     else ret false) (set_db (if negb (String.eqb
                                         (chooser (List.length (asked s))
                                            (if file_exists (db_filePath s)
                                             then db_filePath s
                                             else default_save_path))
                                         EmptyString)
                              then false else db_readOnly s)
                             (if negb (String.eqb
                                         (chooser (List.length (asked s))
                                            (if file_exists (db_filePath s)
                                             then db_filePath s
                                             else default_save_path))
                                         EmptyString)
                              then chooser (List.length (asked s))
                                     (if file_exists (db_filePath s)
                                      then db_filePath s
                                      else default_save_path)
                              else db_filePath s)
                             (log_asked (if file_exists (db_filePath s)
                                         then db_filePath s
                                         else default_save_path) s)).
Proof.
  cbv zeta.
  change (saveAs (S fuel) s)
    with ((s <- get ;;
           let oldFilePath := db_filePath s in
           let oldFilePath :=
             if negb (file_exists oldFilePath) then default_save_path
             else oldFilePath in
           let newFilePath := chooser (List.length (asked s)) oldFilePath in
           modify (log_asked oldFilePath) ;;;
           if negb (String.eqb newFilePath EmptyString) then
             modify (set_db false newFilePath) ;;;
             saved <- save fuel (-1) ;;
             if negb saved then saveAs fuel else ret true
           else ret false) s).
  unfold bind at 1, get. cbv zeta.
  assert (E : (if negb (file_exists (db_filePath s)) then default_save_path
               else db_filePath s)
              = (if file_exists (db_filePath s) then db_filePath s
                 else default_save_path))
    by now destruct (file_exists (db_filePath s)).
  rewrite E. unfold bind at 1, modify at 1.
  destruct (negb (String.eqb _ EmptyString)).
  - unfold bind at 1, modify at 1. reflexivity.
  - reflexivity.
Qed.

(** X14: a failed Save As leaves the new path behind. When the operator
    picks a file, the one write fails and the operator then cancels the
    dialog that comes back, [saveAs] returns false, but the database keeps
    the picked path and is no longer read-only. *)
Theorem failed_saveAs_keeps_the_new_path (fuel : nat) (s : Saver) (picked : string) :
  isLocked s = false ->
  picked <> EmptyString ->
  (let suggested := if file_exists (db_filePath s) then db_filePath s
                    else default_save_path in
   chooser (List.length (asked s)) suggested = picked) ->
  (let suggested := if file_exists picked then picked else default_save_path in
   chooser (S (List.length (asked s))) suggested = EmptyString) ->
  fst (disk (List.length (writes s)) picked (uses_atomic_saves s) (backs_up s)) = false ->
  exists s',
    saveAs (S (S (S fuel))) s = Some (false, s')
    /\ db_filePath s' = picked
    /\ db_readOnly s' = false
    /\ List.length (writes s') = S (List.length (writes s))
    /\ List.length (asked s') = S (S (List.length (asked s)))
    /\ messages s'
       = messages s
         ++ [(tr_Writing_failed
                (snd (disk (List.length (writes s)) picked
                           (uses_atomic_saves s) (backs_up s))),
              MessageError)].
Proof.
  intros Hlock Hpicked Hfirst Hsecond Hfail. cbv zeta in Hfirst, Hsecond.
  rewrite saveAs_step. cbv zeta. rewrite Hfirst.
  apply String.eqb_neq in Hpicked. rewrite Hpicked. cbn [negb].
  set (s1 := set_db false picked _).
  assert (Hw : writable s1)
    by (repeat split; [exact Hlock|apply String.eqb_neq; exact Hpicked]).
  unfold bind at 1. rewrite (@save_step (S fuel) (-1) s1 Hw). cbv zeta.
  change (db_filePath s1) with picked.
  change (List.length (writes s1)) with (List.length (writes s)).
  change (uses_atomic_saves s1) with (uses_atomic_saves s).
  change (backs_up s1) with (backs_up s).
  rewrite Hfail.
  change ((0 <=? -1) && (-1 <=? 2)) with false. change (2 <? -1) with false.
  cbn [andb]. unfold bind at 1, ret at 1.
  unfold bind at 1, showMessage, modify. unfold ret at 1. cbn [negb].
  rewrite saveAs_step. cbv zeta. subst s1.
  cbn [db_filePath after_write asked log_asked set_db].
  rewrite length_app. cbn [List.length].
  replace (List.length (asked s) + 1)%nat with (S (List.length (asked s))) by lia.
  rewrite Hsecond. cbn [String.eqb negb]. unfold ret.
  eexists. split; [reflexivity|].
  cbn [db_filePath db_readOnly writes asked messages log_asked after_write set_db].
  rewrite !length_app. cbn [List.length].
  repeat split; try reflexivity; lia.
Qed.

(** X15: notifications of the file watcher are debounced, and dropped
    while auto reload is blocked. With the reload timer idle and auto reload
    not blocked, a notification starts the timer at 500 ms and changes
    nothing else; a second notification [dt] ms later, [dt] below 500,
    changes nothing: the timer is not started again and still has
    [500 - dt] ms to go. With auto reload blocked a notification changes
    nothing, and nothing is kept for later: when the unblock timer has timed
    out the reload timer is still idle. *)
Theorem file_changes_are_debounced (s : Saver) (dt : Z) :
  0 <= dt < 500 ->
  m_fileWatchTimer s = None ->
  (forall t, m_fileWatchUnblockTimer s = Some t -> dt < t) ->
  (m_ignoreAutoReload s = false ->
   let s1 := set_reload false (Some 500) (m_fileWatchUnblockTimer s) s in
   onWatchedFileChanged s = Some (tt, s1)
   /\ (time_passes dt ;;; onWatchedFileChanged) s1 = time_passes dt s1
   /\ exists s2, time_passes dt s1 = Some (tt, s2)
                 /\ m_fileWatchTimer s2 = Some (500 - dt))
  /\ (m_ignoreAutoReload s = true ->
      onWatchedFileChanged s = Some (tt, s)
      /\ exists s2, (onWatchedFileChanged ;;; unblockTimer_timeout Q_OS_LINUX statfs) s
                    = Some (tt, s2)
                    /\ m_ignoreAutoReload s2 = false
                    /\ m_fileWatchTimer s2 = None).
Proof.
  intros Hdt Htimer Hunblock. split.
  - intros Hign s1.
    assert (Hgo : QTimer_outlasts dt (m_fileWatchTimer s1)
                  && QTimer_outlasts dt (m_fileWatchUnblockTimer s1) = true).
    { cbn [s1 set_reload m_fileWatchTimer m_fileWatchUnblockTimer QTimer_outlasts].
      apply andb_true_intro. split; [apply Z.ltb_lt; lia|].
      destruct (m_fileWatchUnblockTimer s) as [t|]; [|reflexivity].
      apply Z.ltb_lt. now apply Hunblock. }
    split; [|split].
    + unfold onWatchedFileChanged, bind, get. rewrite Hign, Htimer.
      cbn [MasterKeySettings.is_null negb]. unfold modify. now rewrite Hign.
    + unfold bind at 1. unfold time_passes. unfold bind at 1, get at 1.
      unfold bind at 1, get at 1. rewrite Hgo. unfold modify.
      unfold onWatchedFileChanged, bind, get. reflexivity.
    + unfold time_passes, bind, get. rewrite Hgo. unfold modify.
      eexists. split; [reflexivity|]. reflexivity.
  - intros Hign. split.
    + unfold onWatchedFileChanged, bind, get. now rewrite Hign.
    + unfold bind at 1. unfold onWatchedFileChanged, bind at 1, get at 1.
      rewrite Hign. unfold ret at 1.
      unfold unblockTimer_timeout, unblockAutoReload.
      unfold bind at 1, modify at 1. unfold bind at 1, modify at 1.
      unfold bind at 1, get at 1. rewrite updateFilePath_run.
      eexists. split; [reflexivity|].
      cbn [set_reload m_ignoreAutoReload m_fileWatchTimer]. now split.
Qed.


End SaveFacts.

Lemma sample_saver_writable : writable (sample_saver SaveFlow.MainWidget).
Proof. repeat split. discriminate. Qed.

Lemma save_retries_are_bounded_witness :
  let s := sample_saver SaveFlow.MainWidget in
  let choice :=
    save_choice (fun _ => StandardButton.Yes)
      (safe_saves_question nullptr "Disable safe saves?"
                           "Saving failed multiple times.") in
  writable s
  /\ (5 <= 5)%nat
  /\ exists r s' k,
      SaveFlow.save true (fun _ => Some 0x6969) failing_disk pick_once
        (fun _ => true) "Passwords.kdbx"
        "Disable safe saves?" "Saving failed multiple times." (fun e => e)
        false (fun _ => StandardButton.Yes) (fun _ => 0%N) nullptr 5 0 s
      = Some (r, s')
      /\ (1 <= k <= 5)%nat
      /\ SaveFlow.writes s' = SaveFlow.writes s ++ map (save_attempt 3 s) (seq 0 k)
      /\ (forall i, (S i < k)%nat ->
                    fst (save_attempt_result failing_disk 3 s i) = false)
      /\ r = fst (save_attempt_result failing_disk 3 s (k - 1))
      /\ (r = false -> (4 <= k)%nat)
      /\ (k = 5%nat -> uses_atomic_saves s = true /\ choice s = StandardButton.Yes)
      /\ (k = 4%nat -> r = false -> uses_atomic_saves s = true ->
          choice s <> StandardButton.Yes)
      /\ SaveFlow.config s'
         = (if (k =? 5)%nat
            then SaveFlow.config_set (SaveFlow.config s) "UseAtomicSaves" false
            else SaveFlow.config s)
      /\ SaveFlow.messages s'
         = SaveFlow.messages s
           ++ (if r then []
               else [(snd (save_attempt_result failing_disk 3 s (k - 1)),
                      SaveFlow.MessageError)])
      /\ SaveFlow.currentWidget s' = SaveFlow.currentWidget s
      /\ SaveFlow.db_readOnly s' = SaveFlow.db_readOnly s
      /\ SaveFlow.db_filePath s' = SaveFlow.db_filePath s
      /\ SaveFlow.asked s' = SaveFlow.asked s.
Proof.
  intros s choice.
  split; [exact sample_saver_writable|]. split; [apply le_n|].
  exact (@save_retries_are_bounded true (fun _ => Some 0x6969) failing_disk
           pick_once (fun _ => true)
           "Passwords.kdbx" "Disable safe saves?" "Saving failed multiple times."
           (fun e => e) false (fun _ => StandardButton.Yes) (fun _ => 0%N) nullptr 5
           s sample_saver_writable (le_n 5)).
Defined.

Lemma save_for_saveAs_writes_once_witness :
  writable (sample_saver SaveFlow.MainWidget)
  /\ -1 < 0
  /\ exists r s',
      SaveFlow.save true (fun _ => Some 0x6969) failing_disk pick_once (fun _ => true) "Passwords.kdbx"
        "Disable safe saves?" "Saving failed multiple times." (fun e => e)
        false (fun _ => StandardButton.Yes) (fun _ => 0%N) nullptr 1 (-1)
        (sample_saver SaveFlow.MainWidget) = Some (r, s')
      /\ saved_in_place failing_disk (fun e => e)
           (sample_saver SaveFlow.MainWidget) r s' 1
      /\ SaveFlow.statics s' = SaveFlow.statics (sample_saver SaveFlow.MainWidget)
      /\ SaveFlow.config s' = SaveFlow.config (sample_saver SaveFlow.MainWidget).
Proof.
  split; [exact sample_saver_writable|]. split; [reflexivity|].
  exact (@save_for_saveAs_writes_once true (fun _ => Some 0x6969) failing_disk pick_once (fun _ => true)
           "Passwords.kdbx" "Disable safe saves?" "Saving failed multiple times."
           (fun e => e) false (fun _ => StandardButton.Yes) (fun _ => 0%N) nullptr 0 (-1)
           (sample_saver SaveFlow.MainWidget) sample_saver_writable eq_refl).
Defined.

Lemma save_of_a_locked_database_witness :
  SaveFlow.isLocked (sample_saver SaveFlow.DatabaseOpenWidget) = true
  /\ SaveFlow.save true (fun _ => Some 0x6969) failing_disk pick_once (fun _ => true) "Passwords.kdbx"
       "Disable safe saves?" "Saving failed multiple times." (fun e => e)
       false (fun _ => StandardButton.Yes) (fun _ => 0%N) nullptr 1 0
       (sample_saver SaveFlow.DatabaseOpenWidget)
     = Some (true, sample_saver SaveFlow.DatabaseOpenWidget).
Proof.
  split; [reflexivity|].
  exact (@save_of_a_locked_database true (fun _ => Some 0x6969) failing_disk pick_once (fun _ => true)
           "Passwords.kdbx" "Disable safe saves?" "Saving failed multiple times."
           (fun e => e) false (fun _ => StandardButton.Yes) (fun _ => 0%N) nullptr 0 0
           (sample_saver SaveFlow.DatabaseOpenWidget) eq_refl).
Defined.

Lemma failed_saveAs_keeps_the_new_path_witness :
  let s := sample_saver SaveFlow.MainWidget in
  SaveFlow.isLocked s = false
  /\ "new.kdbx"%string <> EmptyString
  /\ pick_once 0 "db.kdbx" = "new.kdbx"%string
  /\ pick_once 1 "new.kdbx" = EmptyString
  /\ fst (failing_disk 0 "new.kdbx" true false) = false
  /\ exists s',
      SaveFlow.saveAs true (fun _ => Some 0x6969) failing_disk pick_once (fun _ => true) "Passwords.kdbx"
        "Disable safe saves?" "Saving failed multiple times." (fun e => e)
        false (fun _ => StandardButton.Yes) (fun _ => 0%N) nullptr 3 s = Some (false, s')
      /\ SaveFlow.db_filePath s' = "new.kdbx"%string
      /\ SaveFlow.db_readOnly s' = false
      /\ List.length (SaveFlow.writes s') = S (List.length (SaveFlow.writes s))
      /\ List.length (SaveFlow.asked s') = S (S (List.length (SaveFlow.asked s)))
      /\ SaveFlow.messages s'
         = SaveFlow.messages s
           ++ [(snd (failing_disk (List.length (SaveFlow.writes s)) "new.kdbx"
                                  (uses_atomic_saves s) (backs_up s)),
                SaveFlow.MessageError)].
Proof.
  intros s.
  assert (H2 : "new.kdbx"%string <> EmptyString) by discriminate.
  split; [reflexivity|]. split; [exact H2|]. do 3 (split; [reflexivity|]).
  exact (@failed_saveAs_keeps_the_new_path true (fun _ => Some 0x6969) failing_disk pick_once (fun _ => true)
           "Passwords.kdbx" "Disable safe saves?" "Saving failed multiple times."
           (fun e => e) false (fun _ => StandardButton.Yes) (fun _ => 0%N) nullptr 0 s
           "new.kdbx" eq_refl H2 eq_refl eq_refl eq_refl).
Defined.

(** The second notification comes 200 ms after the first. *)
Lemma file_changes_are_debounced_witness :
  let s := sample_saver SaveFlow.MainWidget in
  0 <= 200 < 500
  /\ SaveFlow.m_fileWatchTimer s = None
  /\ (forall t, SaveFlow.m_fileWatchUnblockTimer s = Some t -> 200 < t)
  /\ (SaveFlow.m_ignoreAutoReload s = false ->
      let s1 := SaveFlow.set_reload false (Some 500)
                  (SaveFlow.m_fileWatchUnblockTimer s) s in
      SaveFlow.onWatchedFileChanged s = Some (tt, s1)
      /\ (SaveFlow.time_passes 200 ;;; SaveFlow.onWatchedFileChanged) s1
         = SaveFlow.time_passes 200 s1
      /\ exists s2, SaveFlow.time_passes 200 s1 = Some (tt, s2)
                    /\ SaveFlow.m_fileWatchTimer s2 = Some (500 - 200))
  /\ (SaveFlow.m_ignoreAutoReload s = true ->
      SaveFlow.onWatchedFileChanged s = Some (tt, s)
      /\ exists s2,
          (SaveFlow.onWatchedFileChanged ;;;
           SaveFlow.unblockTimer_timeout true (fun _ => Some 0x6969)) s
          = Some (tt, s2)
          /\ SaveFlow.m_ignoreAutoReload s2 = false
          /\ SaveFlow.m_fileWatchTimer s2 = None).
Proof.
  intros s.
  assert (H1 : 0 <= 200 < 500) by lia.
  assert (H3 : forall t, SaveFlow.m_fileWatchUnblockTimer s = Some t -> 200 < t)
    by (intros t H; discriminate H).
  split; [exact H1|]. split; [reflexivity|]. split; [exact H3|].
  exact (@file_changes_are_debounced true (fun _ => Some 0x6969) s 200 H1 eq_refl H3).
Defined.


(** * Properties of [DatabaseWidget::openUrlForEntry] *)

Lemma QString_eqb_refl (a : OpenUrl.QString) : OpenUrl.QString_eqb a a = true.
Proof.
  induction a as [|x a IH]; [reflexivity|].
  cbn [OpenUrl.QString_eqb]. now rewrite N.eqb_refl, IH.
Qed.

Lemma length_shown_command (tr : OpenUrl.QString -> OpenUrl.QString)
    (command : OpenUrl.QString) :
  (List.length (OpenUrl.shownCommand (command_box tr command)) <= 404)%nat.
Proof.
  unfold command_box. cbv zeta. cbn [OpenUrl.shownCommand].
  destruct (Nat.ltb_spec 400 (List.length command)) as [H|H]; [|lia].
  unfold OpenUrl.left, OpenUrl.lit_ellipsis.
  rewrite length_app, length_firstn. cbn [List.length]. lia.
Qed.

Section OpenUrlFacts.
Import OpenUrl.

Variable RememberCmdExecAttr : QString.
Variables resolved_url webUrl : QString.
Variable tr_execute_prompt : QString -> QString.

Local Abbreviation openUrlForEntry :=
  (OpenUrl.openUrlForEntry RememberCmdExecAttr resolved_url webUrl tr_execute_prompt).

(** The branch of a command URL whose entry has the attribute. *)
Lemma openUrlForEntry_stored (operator : CommandBox -> Z * list Z) (d : Desk) :
  startsWith lit_cmd resolved_url = true ->
  hasKey (attributes d) RememberCmdExecAttr = true ->
  openUrlForEntry operator d
  = (if QString_eqb (value (attributes d) RememberCmdExecAttr) lit_1
     then modify (fun d => mkDesk (attributes d) (started d ++ [mid 6 resolved_url])
                                  (opened d) (asked d))
     else ret tt) d.
Proof.
  intros Hcmd Hkey. unfold OpenUrl.openUrlForEntry. cbv zeta. rewrite Hcmd.
  unfold bind, get. now rewrite Hkey.
Qed.

(** X17: a stored decision is final. When the entry has the attribute
    [RememberCmdExecAttr], a command URL asks nothing: the command is started
    if the value is "1" and nothing at all happens otherwise. *)
Theorem stored_decision_is_final (operator : CommandBox -> Z * list Z) (d : Desk) :
  startsWith lit_cmd resolved_url = true ->
  hasKey (attributes d) RememberCmdExecAttr = true ->
  openUrlForEntry operator d
  = Some (tt,
          if QString_eqb (value (attributes d) RememberCmdExecAttr) lit_1
          then mkDesk (attributes d) (started d ++ [mid 6 resolved_url])
                      (opened d) (asked d)
          else d).
Proof.
  intros Hcmd Hkey. rewrite openUrlForEntry_stored by assumption.
  destruct (QString_eqb _ lit_1); [reflexivity|].
  unfold ret. now destruct d.
Qed.

(** X18: only a URL that starts with [cmd://] can start a process. Any other
    resolved URL starts nothing, asks nothing and leaves the attributes
    alone; it opens the web URL of the entry when that is not empty. *)
Theorem only_cmd_urls_start_a_process (operator : CommandBox -> Z * list Z) (d : Desk) :
  startsWith lit_cmd resolved_url = false ->
  openUrlForEntry operator d
  = Some (tt,
          mkDesk (attributes d) (started d)
                 (if Nat.eqb (List.length webUrl) 0 then opened d
                  else opened d ++ [webUrl])
                 (asked d)).
Proof.
  intros Hcmd. unfold OpenUrl.openUrlForEntry. cbv zeta. rewrite Hcmd.
  destruct (Nat.eqb (List.length webUrl) 0); cbn [negb]; [|reflexivity].
  unfold ret. now destruct d.
Qed.

(** X19: the operator sees at most 400 code units of the command, and what
    runs is the whole command. For a command URL without a stored decision
    the box shows the command cut to 400 code units plus a mark (whole when
    it is no longer than that), with the default No; on the answer Yes, and
    on no other, the text after [cmd://] is started uncut. *)
Theorem command_is_shown_cut_and_run_whole (operator : CommandBox -> Z * list Z)
    (d : Desk) :
  startsWith lit_cmd resolved_url = true ->
  hasKey (attributes d) RememberCmdExecAttr = false ->
  (6 < List.length resolved_url)%nat ->
  let command := mid 6 resolved_url in
  let box := command_box tr_execute_prompt command in
  exists d',
    openUrlForEntry operator d = Some (tt, d')
    /\ asked d' = asked d ++ [box]
    /\ (List.length (shownCommand box) <= 404)%nat
    /\ ((List.length command <= 400)%nat -> shownCommand box = command)
    /\ boxDefault box = StandardButton.No
    /\ started d' = (if fst (operator box) =? StandardButton.Yes
                     then started d ++ [command] else started d)
    /\ opened d' = opened d.
Proof.
  intros Hcmd Hkey Hlen command box.
  unfold OpenUrl.openUrlForEntry. cbv zeta. rewrite Hcmd.
  unfold bind at 1, get. rewrite Hkey.
  apply Nat.ltb_lt in Hlen. rewrite Hlen.
  fold command. change (mkCommandBox _ _ _ _) with box.
  unfold bind, modify, ret.
  assert (Hshort : (List.length command <= 400)%nat -> shownCommand box = command).
  { intros Hshort. unfold box, command_box. cbv zeta. cbn [shownCommand].
    apply Nat.ltb_ge in Hshort. now rewrite Hshort. }
  pose proof (length_shown_command tr_execute_prompt command) as Hcut.
  fold box in Hcut.
  destruct (fst (operator box) =? StandardButton.Yes), (existsb _ _);
    eexists; (split; [reflexivity|]); cbn [asked started opened];
    repeat (split; [first [reflexivity|assumption]|]); reflexivity.
Qed.

(** X20: ticking "Remember my choice" once is enough, and settles every
    later call. If the check box was in the checked state at any moment of
    the dialog, also when it was cleared again before the answer, the next
    call for the same entry asks nothing: it starts the command again after
    the answer Yes and does nothing after any other answer. *)
Theorem remembered_choice_settles_later_calls
    (operator1 operator2 : CommandBox -> Z * list Z) (d : Desk) :
  startsWith lit_cmd resolved_url = true ->
  hasKey (attributes d) RememberCmdExecAttr = false ->
  (6 < List.length resolved_url)%nat ->
  let command := mid 6 resolved_url in
  let box := command_box tr_execute_prompt command in
  In Checked (snd (operator1 box)) ->
  exists d',
    (openUrlForEntry operator1 ;;; openUrlForEntry operator2) d = Some (tt, d')
    /\ asked d' = asked d ++ [box]
    /\ started d' = (if fst (operator1 box) =? StandardButton.Yes
                     then started d ++ [command; command] else started d)
    /\ value (attributes d') RememberCmdExecAttr
       = (if fst (operator1 box) =? StandardButton.Yes then lit_1 else lit_0).
Proof.
  intros Hcmd Hkey Hlen command box Hticked.
  assert (Hrem : existsb (fun state => state =? Checked) (snd (operator1 box)) = true).
  { apply existsb_exists. exists Checked. split; [exact Hticked|reflexivity]. }
  unfold bind at 1.
  unfold OpenUrl.openUrlForEntry at 1. cbv zeta. rewrite Hcmd.
  unfold bind at 1, get. rewrite Hkey.
  pose proof Hlen as Hlen'. apply Nat.ltb_lt in Hlen'. rewrite Hlen'.
  fold command. change (mkCommandBox _ _ _ _) with box. rewrite Hrem.
  unfold bind at 1, modify at 1. unfold bind at 1.
  destruct (fst (operator1 box) =? StandardButton.Yes).
  - unfold modify.
    rewrite openUrlForEntry_stored;
      [|exact Hcmd|cbn [attributes]; unfold hasKey, set; now rewrite QString_eqb_refl].
    cbn [attributes started opened asked]. unfold value, set.
    rewrite QString_eqb_refl. cbn [QString_eqb lit_1 N.eqb Pos.eqb andb].
    unfold modify.
    eexists. split; [reflexivity|]. cbn [asked started attributes].
    rewrite QString_eqb_refl, <- app_assoc. repeat split.
  - unfold ret at 1, modify.
    rewrite openUrlForEntry_stored;
      [|exact Hcmd|cbn [attributes]; unfold hasKey, set; now rewrite QString_eqb_refl].
    cbn [attributes started opened asked]. unfold value, set.
    rewrite QString_eqb_refl. cbn [QString_eqb lit_1 lit_0 N.eqb Pos.eqb andb].
    unfold ret.
    eexists. split; [reflexivity|]. cbn [asked started attributes].
    rewrite QString_eqb_refl. repeat split.
Qed.

(** X21: the bare URL [cmd://] does nothing. With no command after the
    prefix and no stored decision, nothing is asked, started or opened. *)
Theorem bare_cmd_url_does_nothing (operator : CommandBox -> Z * list Z) (d : Desk) :
  resolved_url = lit_cmd ->
  hasKey (attributes d) RememberCmdExecAttr = false ->
  openUrlForEntry operator d = Some (tt, d).
Proof.
  intros Hurl Hkey. unfold OpenUrl.openUrlForEntry. cbv zeta. rewrite Hurl.
  cbn [startsWith lit_cmd N.eqb Pos.eqb andb].
  unfold bind, get. rewrite Hkey. reflexivity.
Qed.

End OpenUrlFacts.

(** The entry carries the stored decision "1". *)
Lemma stored_decision_is_final_witness :
  let d := OpenUrl.mkDesk (OpenUrl.set (fun _ => None) sample_attr OpenUrl.lit_1)
                          [] [] [] in
  OpenUrl.startsWith OpenUrl.lit_cmd sample_cmd_url = true
  /\ OpenUrl.hasKey (OpenUrl.attributes d) sample_attr = true
  /\ OpenUrl.openUrlForEntry sample_attr sample_cmd_url [] (fun c => c)
       (fun _ => (StandardButton.No, [])) d
     = Some (tt,
             if OpenUrl.QString_eqb (OpenUrl.value (OpenUrl.attributes d) sample_attr)
                                    OpenUrl.lit_1
             then OpenUrl.mkDesk (OpenUrl.attributes d)
                    (OpenUrl.started d ++ [OpenUrl.mid 6 sample_cmd_url])
                    (OpenUrl.opened d) (OpenUrl.asked d)
             else d).
Proof.
  intros d. split; [reflexivity|]. split; [reflexivity|].
  exact (@stored_decision_is_final sample_attr sample_cmd_url [] (fun c => c)
           (fun _ => (StandardButton.No, [])) d eq_refl eq_refl).
Defined.

(** The URL [ls], which is no command. *)
Lemma only_cmd_urls_start_a_process_witness :
  OpenUrl.startsWith OpenUrl.lit_cmd [108; 115]%N = false
  /\ OpenUrl.openUrlForEntry sample_attr [108; 115]%N [108; 115]%N (fun c => c)
       (fun _ => (StandardButton.Yes, [OpenUrl.Checked])) sample_desk
     = Some (tt,
             OpenUrl.mkDesk (OpenUrl.attributes sample_desk)
               (OpenUrl.started sample_desk)
               (if Nat.eqb (List.length [108; 115]%N) 0
                then OpenUrl.opened sample_desk
                else OpenUrl.opened sample_desk ++ [[108; 115]%N])
               (OpenUrl.asked sample_desk)).
Proof.
  split; [reflexivity|].
  exact (@only_cmd_urls_start_a_process sample_attr [108; 115]%N [108; 115]%N
           (fun c => c) (fun _ => (StandardButton.Yes, [OpenUrl.Checked]))
           sample_desk eq_refl).
Defined.

Lemma command_is_shown_cut_and_run_whole_witness :
  let operator := fun _ : OpenUrl.CommandBox => (StandardButton.Yes, @nil Z) in
  let command := OpenUrl.mid 6 sample_cmd_url in
  let box := command_box (fun c => c) command in
  OpenUrl.startsWith OpenUrl.lit_cmd sample_cmd_url = true
  /\ OpenUrl.hasKey (OpenUrl.attributes sample_desk) sample_attr = false
  /\ (6 < List.length sample_cmd_url)%nat
  /\ exists d',
      OpenUrl.openUrlForEntry sample_attr sample_cmd_url [] (fun c => c) operator
        sample_desk = Some (tt, d')
      /\ OpenUrl.asked d' = OpenUrl.asked sample_desk ++ [box]
      /\ (List.length (OpenUrl.shownCommand box) <= 404)%nat
      /\ ((List.length command <= 400)%nat -> OpenUrl.shownCommand box = command)
      /\ OpenUrl.boxDefault box = StandardButton.No
      /\ OpenUrl.started d'
         = (if fst (operator box) =? StandardButton.Yes
            then OpenUrl.started sample_desk ++ [command]
            else OpenUrl.started sample_desk)
      /\ OpenUrl.opened d' = OpenUrl.opened sample_desk.
Proof.
  intros operator command box.
  assert (Hlen : (6 < List.length sample_cmd_url)%nat) by (cbn; lia).
  split; [reflexivity|]. split; [reflexivity|]. split; [exact Hlen|].
  exact (@command_is_shown_cut_and_run_whole sample_attr sample_cmd_url []
           (fun c => c) operator sample_desk eq_refl eq_refl Hlen).
Defined.

(** The operator ticks the box, clears it again and answers No. *)
Lemma remembered_choice_settles_later_calls_witness :
  let operator1 := fun _ : OpenUrl.CommandBox =>
                     (StandardButton.No, [OpenUrl.Checked; OpenUrl.Unchecked]) in
  let operator2 := fun _ : OpenUrl.CommandBox => (StandardButton.Yes, @nil Z) in
  let command := OpenUrl.mid 6 sample_cmd_url in
  let box := command_box (fun c => c) command in
  OpenUrl.startsWith OpenUrl.lit_cmd sample_cmd_url = true
  /\ OpenUrl.hasKey (OpenUrl.attributes sample_desk) sample_attr = false
  /\ (6 < List.length sample_cmd_url)%nat
  /\ In OpenUrl.Checked (snd (operator1 box))
  /\ exists d',
      (OpenUrl.openUrlForEntry sample_attr sample_cmd_url [] (fun c => c) operator1 ;;;
       OpenUrl.openUrlForEntry sample_attr sample_cmd_url [] (fun c => c) operator2)
        sample_desk = Some (tt, d')
      /\ OpenUrl.asked d' = OpenUrl.asked sample_desk ++ [box]
      /\ OpenUrl.started d'
         = (if fst (operator1 box) =? StandardButton.Yes
            then OpenUrl.started sample_desk ++ [command; command]
            else OpenUrl.started sample_desk)
      /\ OpenUrl.value (OpenUrl.attributes d') sample_attr
         = (if fst (operator1 box) =? StandardButton.Yes
            then OpenUrl.lit_1 else OpenUrl.lit_0).
Proof.
  intros operator1 operator2 command box.
  assert (Hlen : (6 < List.length sample_cmd_url)%nat) by (cbn; lia).
  assert (Hin : In OpenUrl.Checked (snd (operator1 box))) by (left; reflexivity).
  split; [reflexivity|]. split; [reflexivity|]. split; [exact Hlen|].
  split; [exact Hin|].
  exact (@remembered_choice_settles_later_calls sample_attr sample_cmd_url []
           (fun c => c) operator1 operator2 sample_desk eq_refl eq_refl Hlen Hin).
Defined.

Lemma bare_cmd_url_does_nothing_witness :
  OpenUrl.lit_cmd = OpenUrl.lit_cmd
  /\ OpenUrl.hasKey (OpenUrl.attributes sample_desk) sample_attr = false
  /\ OpenUrl.openUrlForEntry sample_attr OpenUrl.lit_cmd [] (fun c => c)
       (fun _ => (StandardButton.Yes, [OpenUrl.Checked])) sample_desk
     = Some (tt, sample_desk).
Proof.
  split; [reflexivity|]. split; [reflexivity|].
  exact (@bare_cmd_url_does_nothing sample_attr OpenUrl.lit_cmd [] (fun c => c)
           (fun _ => (StandardButton.Yes, [OpenUrl.Checked])) sample_desk
           eq_refl eq_refl).
Defined.

(** * Properties of [DatabaseWidget::lock] and [closeEvent] *)

(** A confirmation of the revision with two slots always returns, and
    touches the statics only. *)
Lemma question_runs (answer : Shown -> Z) (parent : ptr) (title text : string)
    (buttons defaultButton : Z) (v : SaveFlow.Saver) :
  exists r w,
    SaveFlow.in_MessageBox
      (TwoSlot.question answer parent title text buttons defaultButton) v
    = Some (r, SaveFlow.mkSaver w (SaveFlow.currentWidget v) (SaveFlow.db_readOnly v)
                 (SaveFlow.db_filePath v) (SaveFlow.config v)
                 (SaveFlow.m_ignoreAutoReload v) (SaveFlow.m_fileWatchTimer v)
                 (SaveFlow.m_fileWatchUnblockTimer v) (SaveFlow.m_fileWatcher v)
                 (SaveFlow.writes v) (SaveFlow.asked v) (SaveFlow.messages v)).
Proof.
  destruct (standardBox_paths Question answer parent title text buttons
              defaultButton (SaveFlow.statics v)) as (r & w & E & _).
  exists r, w. unfold SaveFlow.in_MessageBox, TwoSlot.question. now rewrite E.
Qed.

(** The same on the dialog path: the static dialog goes on the screen and
    the operator answers. *)
Lemma question_shows (answer : Shown -> Z) (parent : ptr) (title text : string)
    (buttons defaultButton : Z) (v : SaveFlow.Saver) :
  TwoSlot.m_nextAnswer (SaveFlow.statics v) = StandardButton.NoButton ->
  let d := Standard Question parent title text buttons defaultButton in
  SaveFlow.in_MessageBox
    (TwoSlot.question answer parent title text buttons defaultButton) v
  = Some (answer d,
          SaveFlow.mkSaver
            (TwoSlot.mkWorld StandardButton.NoButton
               (TwoSlot.m_newNextAnswer (SaveFlow.statics v))
               (mkEnv (m_buttonMap (TwoSlot.env (SaveFlow.statics v)))
                      (heap_next (TwoSlot.env (SaveFlow.statics v)))
                      (screen (TwoSlot.env (SaveFlow.statics v)) ++ [d])))
            (SaveFlow.currentWidget v) (SaveFlow.db_readOnly v)
            (SaveFlow.db_filePath v) (SaveFlow.config v)
            (SaveFlow.m_ignoreAutoReload v) (SaveFlow.m_fileWatchTimer v)
            (SaveFlow.m_fileWatchUnblockTimer v) (SaveFlow.m_fileWatcher v)
            (SaveFlow.writes v) (SaveFlow.asked v) (SaveFlow.messages v)).
Proof.
  intros Hslot d. unfold SaveFlow.in_MessageBox, TwoSlot.question.
  now rewrite standardBox_dialog by exact Hslot.
Qed.

Ltac ask_question :=
  match goal with
  | |- context [SaveFlow.in_MessageBox (TwoSlot.question ?a ?p ?t ?x ?b ?d) ?v] =>
      let r := fresh "result" in
      let w := fresh "w" in
      let E := fresh "E" in
      destruct (question_runs a p t x b d v) as (r & w & E);
      rewrite E; clear E
  end.


Section LockFacts.
Import SaveFlow LockFlow.

Variable Q_OS_LINUX : bool.
Variable statfs : string -> option Z.
Variable disk : nat -> string -> bool -> bool -> bool * string.
Variable db_isModified : bool.
Variable escaped_name : string.
Variable currentGroup_uuid : option QUuid.
Variable rootGroup_uuid : QUuid.
Variable currentEntry_uuid : option QUuid.
Variable created_readOnly : string -> bool.
Variable created_filePath : string -> string.
Variables tr_Lock_Database tr_You_are_editing tr_Save_changes
          tr_Database_was_modified : string.
Variable tr_was_modified : string -> string.
Variable answer : Shown -> Z.
Variable this : ptr.

(** What [SaveFlow.save] needs besides. *)
Variable chooser : nat -> string -> string.
Variable file_exists : string -> bool.
Variable default_save_path : string.
Variables tr_Disable_safe_saves tr_failed_multiple_times : string.
Variable tr_Writing_failed : string -> string.
Variable debug : bool.
Variable elapsed : Shown -> N.

Local Abbreviation lock :=
  (LockFlow.lock Q_OS_LINUX statfs disk db_isModified escaped_name
     currentGroup_uuid rootGroup_uuid currentEntry_uuid created_readOnly
     created_filePath tr_Lock_Database tr_You_are_editing tr_Save_changes
     tr_Database_was_modified tr_was_modified answer this).
Local Abbreviation closeEvent :=
  (LockFlow.closeEvent Q_OS_LINUX statfs disk db_isModified escaped_name
     currentGroup_uuid rootGroup_uuid currentEntry_uuid created_readOnly
     created_filePath tr_Lock_Database tr_You_are_editing tr_Save_changes
     tr_Database_was_modified tr_was_modified answer this).
Local Abbreviation outcome :=
  (after_lock Q_OS_LINUX statfs currentGroup_uuid rootGroup_uuid
     currentEntry_uuid created_readOnly created_filePath).

(** The last part of [lock], which locks. *)
Lemma lock_tail (w : TwoSlot.World) (wrote : bool) (s : Locker) :
  let v := saver s in
  let t := mkLocker
             (mkSaver w (currentWidget v) (db_readOnly v) (db_filePath v)
                (config v) (m_ignoreAutoReload v) (m_fileWatchTimer v)
                (m_fileWatchUnblockTimer v) (m_fileWatcher v)
                (writes v ++ (if wrote then [(db_filePath v, false, false)] else []))
                (asked v) (messages v))
             (m_groupBeforeLock s) (m_entryBeforeLock s)
             (effects s ++ [clearCopiedText]) in
  (modify
     (set_groupBeforeLock
        match currentGroup_uuid with
        | Some u => u
        | None => rootGroup_uuid
        end);;;
   match currentEntry_uuid with
   | Some u => modify (set_entryBeforeLock u)
   | None => ret tt
   end;;;
   effect endSearch;;;
   effect clearAllWidgets;;;
   s0 <- get;;
   switchToOpenDatabase Q_OS_LINUX statfs (db_filePath (saver s0));;;
   s1 <- get;;
   in_Saver
     (modify
        (set_db (created_readOnly (db_filePath (saver s1)))
           (created_filePath (db_filePath (saver s1)))));;;
   effect (replaceDatabase (db_filePath (saver s1)));;;
   effect emit_databaseLocked;;; ret true) t
  = Some (true, outcome true w wrote s).
Proof.
  intros v t. subst t v.
  unfold after_lock, watcher_calls. cbv zeta.
  unfold bind at 1, modify at 1. unfold set_groupBeforeLock at 1.
  cbn [saver m_groupBeforeLock m_entryBeforeLock effects].
  unfold bind at 1.
  assert (E : forall (q : QUuid) (st : Locker),
             match currentEntry_uuid with
             | Some u => modify (set_entryBeforeLock u)
             | None => ret tt
             end st
             = Some (tt, mkLocker (saver st) (m_groupBeforeLock st)
                           (match currentEntry_uuid with
                            | Some u => u
                            | None => m_entryBeforeLock st
                            end) (effects st))).
  { intros _ st. destruct currentEntry_uuid; [reflexivity|]. now destruct st. }
  rewrite (E 0%N). clear E.
  cbn [saver m_groupBeforeLock m_entryBeforeLock effects].
  unfold bind at 1, effect at 1, modify at 1.
  cbn [saver m_groupBeforeLock m_entryBeforeLock effects].
  unfold bind at 1, effect at 1, modify at 1.
  cbn [saver m_groupBeforeLock m_entryBeforeLock effects].
  unfold bind at 1, get at 1.
  cbn [saver db_filePath].
  unfold bind at 1, switchToOpenDatabase at 1.
  unfold bind at 1, in_Saver at 1. rewrite updateFilePath_run.
  cbn [saver m_groupBeforeLock m_entryBeforeLock effects
       statics currentWidget db_readOnly db_filePath config
       m_ignoreAutoReload m_fileWatchTimer m_fileWatchUnblockTimer
       m_fileWatcher writes asked messages].
  unfold bind at 1, effect at 1, modify at 1.
  unfold in_Saver at 1, setCurrentWidget at 1, modify at 1.
  cbn [saver m_groupBeforeLock m_entryBeforeLock effects
       statics currentWidget db_readOnly db_filePath config
       m_ignoreAutoReload m_fileWatchTimer m_fileWatchUnblockTimer
       m_fileWatcher writes asked messages].
  unfold bind at 1, get at 1.
  unfold bind at 1, in_Saver at 1, modify at 1. unfold set_db at 1.
  cbn [saver m_groupBeforeLock m_entryBeforeLock effects
       statics currentWidget db_readOnly db_filePath config
       m_ignoreAutoReload m_fileWatchTimer m_fileWatchUnblockTimer
       m_fileWatcher writes asked messages].
  unfold bind at 1, effect at 1, modify at 1.
  cbn [saver m_groupBeforeLock m_entryBeforeLock effects].
  unfold bind at 1, effect at 1, modify at 1.
  cbn [saver m_groupBeforeLock m_entryBeforeLock effects].
  unfold ret. rewrite <- !app_assoc. cbn [app]. reflexivity.
Qed.


(** [lock] from the test of [m_db->isModified()] on. *)
Lemma lock_second_half (w : TwoSlot.World) (s : Locker) :
  isLocked (saver s) = false ->
  let v := saver s in
  let t := mkLocker
             (mkSaver w (currentWidget v) (db_readOnly v) (db_filePath v)
                (config v) (m_ignoreAutoReload v) (m_fileWatchTimer v)
                (m_fileWatchUnblockTimer v) (m_fileWatcher v) (writes v)
                (asked v) (messages v))
             (m_groupBeforeLock s) (m_entryBeforeLock s)
             (effects s ++ [clearCopiedText]) in
  exists r w' wrote,
    (goOn <-
       (if db_isModified then
          s0 <- get ;;
          if config_get (config (saver s0)) "AutoSaveOnExit" false then
            saved <- in_Saver (Database_save disk false false) ;;
            ret saved
          else if negb (isLocked (saver s0)) then
            result0 <- in_Saver
                         (in_MessageBox
                            (TwoSlot.question answer this tr_Save_changes
                               (if negb (String.eqb escaped_name EmptyString)
                                then tr_was_modified escaped_name
                                else tr_Database_was_modified)
                               (Z.lor (Z.lor StandardButton.Yes StandardButton.Discard)
                                      StandardButton.Cancel)
                               StandardButton.Yes)) ;;
            failed <- (if result0 =? StandardButton.Yes
                       then saved <- in_Saver (Database_save disk false false) ;;
                            ret (negb saved)
                       else ret false) ;;
            if failed then ret false
            else if result0 =? StandardButton.Cancel then ret false
            else ret true
          else ret true
        else ret true) ;;
     if negb goOn then ret false
     else
       modify (set_groupBeforeLock
                 (match currentGroup_uuid with
                  | Some u => u
                  | None => rootGroup_uuid
                  end)) ;;;
       (match currentEntry_uuid with
        | Some u => modify (set_entryBeforeLock u)
        | None => ret tt
        end) ;;;
       effect endSearch ;;;
       effect clearAllWidgets ;;;
       s0 <- get ;;
       switchToOpenDatabase Q_OS_LINUX statfs (db_filePath (saver s0)) ;;;
       s1 <- get ;;
       in_Saver (modify (set_db (created_readOnly (db_filePath (saver s1)))
                                (created_filePath (db_filePath (saver s1))))) ;;;
       effect (replaceDatabase (db_filePath (saver s1))) ;;;
       effect emit_databaseLocked ;;;
       ret true) t
    = Some (r, outcome r w' wrote s)
    /\ (wrote = true -> db_isModified = true)
    /\ (wrote = true ->
        r = fst (disk (List.length (writes v)) (db_filePath v) false false)).
Proof.
  intros Hl v t. subst v t.
  assert (Hstop : forall w',
             Some (false, mkLocker
                     (mkSaver w' (currentWidget (saver s)) (db_readOnly (saver s)) (db_filePath (saver s))
                        (config (saver s)) (m_ignoreAutoReload (saver s)) (m_fileWatchTimer (saver s))
                        (m_fileWatchUnblockTimer (saver s)) (m_fileWatcher (saver s)) (writes (saver s))
                        (asked (saver s)) (messages (saver s)))
                     (m_groupBeforeLock s) (m_entryBeforeLock s)
                     (effects s ++ [clearCopiedText]))
             = Some (false, outcome false w' false s)).
  { intros w'. unfold after_lock. cbv zeta. now rewrite app_nil_r. }
  assert (Hgo : forall w',
             mkLocker
               (mkSaver w' (currentWidget (saver s)) (db_readOnly (saver s)) (db_filePath (saver s))
                  (config (saver s)) (m_ignoreAutoReload (saver s)) (m_fileWatchTimer (saver s))
                  (m_fileWatchUnblockTimer (saver s)) (m_fileWatcher (saver s)) (writes (saver s))
                  (asked (saver s)) (messages (saver s)))
               (m_groupBeforeLock s) (m_entryBeforeLock s)
               (effects s ++ [clearCopiedText])
             = mkLocker
               (mkSaver w' (currentWidget (saver s)) (db_readOnly (saver s)) (db_filePath (saver s))
                  (config (saver s)) (m_ignoreAutoReload (saver s)) (m_fileWatchTimer (saver s))
                  (m_fileWatchUnblockTimer (saver s)) (m_fileWatcher (saver s))
                  (writes (saver s) ++ (if false then [(db_filePath (saver s), false, false)] else []))
                  (asked (saver s)) (messages (saver s)))
               (m_groupBeforeLock s) (m_entryBeforeLock s)
               (effects s ++ [clearCopiedText])).
  { intros w'. now rewrite app_nil_r. }
  unfold bind at 1.
  destruct db_isModified.
  2: { unfold ret at 1. cbn [negb]. exists true, w, false.
       split; [|split; discriminate].
       rewrite Hgo. apply (lock_tail w false s). }
  unfold bind at 1, get at 1. cbn [saver config].
  destruct (config_get (config (saver s)) "AutoSaveOnExit" false).
  - unfold bind at 1, in_Saver at 1, Database_save at 1.
    unfold bind at 1, get at 1. unfold bind at 1, modify at 1. unfold ret at 1.
    cbn [saver writes db_filePath log_write statics currentWidget db_readOnly
         config m_ignoreAutoReload m_fileWatchTimer m_fileWatchUnblockTimer
         m_fileWatcher asked messages m_groupBeforeLock m_entryBeforeLock effects].
    unfold ret at 1.
    match goal with |- context [negb ?c] => destruct c eqn:Hok end; cbn [negb].
    + exists true, w, true. split; [|split; [reflexivity|intros _; reflexivity]].
      apply (lock_tail w true s).
    + exists false, w, true. split; [|split; [reflexivity|intros _; reflexivity]].
      unfold ret, after_lock. cbv zeta. reflexivity.
  - match goal with
    | |- context [isLocked ?x] => change (isLocked x) with (isLocked (saver s))
    end.
    rewrite Hl. cbn [negb].
    unfold bind at 1, in_Saver at 1. cbn [saver]. ask_question.
    cbn [m_groupBeforeLock m_entryBeforeLock effects].
    unfold bind at 1.
    destruct (result =? StandardButton.Yes) eqn:Hyes.
    + apply Z.eqb_eq in Hyes. subst result.
      change (StandardButton.Yes =? StandardButton.Cancel) with false.
      unfold bind at 1, in_Saver at 1, Database_save at 1.
      unfold bind at 1, get at 1. unfold bind at 1, modify at 1. unfold ret at 1.
      cbn [saver writes db_filePath log_write statics currentWidget db_readOnly
           config m_ignoreAutoReload m_fileWatchTimer m_fileWatchUnblockTimer
           m_fileWatcher asked messages m_groupBeforeLock m_entryBeforeLock effects].
      unfold ret at 1.
      match goal with |- context [negb ?c] => destruct c eqn:Hok end; cbn [negb].
      * unfold ret at 1. cbn [negb]. exists true, w0, true.
        split; [|split; [reflexivity|intros _; reflexivity]].
        apply (lock_tail w0 true s).
      * exists false, w0, true. split; [|split; [reflexivity|intros _; reflexivity]].
        unfold ret, after_lock. cbv zeta. reflexivity.
    + unfold ret at 1.
      destruct (result =? StandardButton.Cancel).
      * unfold ret at 1. cbn [negb]. exists false, w0, false.
        split; [|split; discriminate]. apply Hstop.
      * unfold ret at 1. cbn [negb]. exists true, w0, false.
        split; [|split; discriminate].
        rewrite Hgo. apply (lock_tail w0 false s).
Qed.

(** Every run of [lock] on a widget that is not locked. *)
Lemma lock_outcomes (s : Locker) :
  isLocked (saver s) = false ->
  exists r w wrote,
    lock s = Some (r, outcome r w wrote s)
    /\ (wrote = true -> db_isModified = true)
    /\ (wrote = true ->
        r = fst (disk (List.length (writes (saver s))) (db_filePath (saver s))
                      false false)).
Proof.
  intros Hl. unfold LockFlow.lock. unfold bind at 1, get at 1. rewrite Hl.
  unfold bind at 1, effect at 1, modify at 1.
  unfold bind at 1, get at 1. cbn [saver].
  unfold bind at 1.
  destruct (Mode_eqb (currentMode (saver s)) EditMode).
  - unfold bind at 1, in_Saver at 1. cbn [saver]. ask_question.
    cbn [m_groupBeforeLock m_entryBeforeLock effects]. unfold ret at 1.
    destruct (result =? StandardButton.Cancel); cbn [negb].
    + exists false, w, false. split; [|split; discriminate].
      unfold ret, after_lock. cbv zeta. now rewrite app_nil_r.
    + apply (lock_second_half w s Hl).
  - unfold ret at 1. cbn [negb].
    destruct (lock_second_half (statics (saver s)) s Hl) as (r & w & wrote & E & H).
    exists r, w, wrote. split; [|exact H].
    rewrite <- E. clear E. destruct s as [v gb eb ef]. cbn [saver]. now destruct v.
Qed.

Lemma isLocked_outcome (r : bool) (w : TwoSlot.World) (wrote : bool) (s : Locker) :
  isLocked (saver s) = false ->
  isLocked (saver (outcome r w wrote s)) = r.
Proof.
  intros Hl. unfold after_lock. cbv zeta. destruct r; [reflexivity|exact Hl].
Qed.

(** X22: [lock] and [closeEvent] always return, and their result is the
    lock state they leave: true exactly when the widget is locked
    afterwards. A close event is accepted on a locked widget only. *)
Theorem lock_result_is_the_lock_state (s : Locker) :
  (exists r s', lock s = Some (r, s') /\ isLocked (saver s') = r)
  /\ (exists r s', closeEvent s = Some (r, s') /\ isLocked (saver s') = r).
Proof.
  destruct (isLocked (saver s)) eqn:Hl.
  - split; exists true, s; (split; [|exact Hl]).
    + unfold LockFlow.lock, bind, get. now rewrite Hl.
    + unfold LockFlow.closeEvent, bind, get. now rewrite Hl.
  - destruct (lock_outcomes s Hl) as (r & w & wrote & E & _).
    split; exists r, (outcome r w wrote s);
      (split; [|now apply isLocked_outcome]).
    + exact E.
    + unfold LockFlow.closeEvent. unfold bind at 1, get at 1. rewrite Hl.
      cbn [negb]. unfold bind at 1. unfold bind at 1. rewrite E.
      unfold ret at 1. now destruct r.
Qed.

(** X23: [lock] saves without the safety net of [save]. It writes the
    database at most once, and only a modified one; the write is never
    atomic and never makes a backup, whatever the configuration says; no
    message is shown when the write fails, and the configuration is not
    changed. *)
Theorem lock_writes_without_safety_net (s : Locker) :
  exists r s',
    lock s = Some (r, s')
    /\ (writes (saver s') = writes (saver s)
        \/ (db_isModified = true
            /\ writes (saver s')
               = writes (saver s) ++ [(db_filePath (saver s), false, false)]
            /\ r = fst (disk (List.length (writes (saver s)))
                             (db_filePath (saver s)) false false)))
    /\ messages (saver s') = messages (saver s)
    /\ config (saver s') = config (saver s)
    /\ asked (saver s') = asked (saver s).
Proof.
  destruct (isLocked (saver s)) eqn:Hl.
  - exists true, s. split; [unfold LockFlow.lock, bind, get; now rewrite Hl|].
    split; [now left|]. repeat split.
  - destruct (lock_outcomes s Hl) as (r & w & wrote & E & Hmod & Hres).
    exists r, (outcome r w wrote s). split; [exact E|].
    unfold after_lock. cbv zeta.
    destruct wrote.
    + split; [right|now destruct r].
      split; [now apply Hmod|]. split; [now destruct r|now apply Hres].
    + split; [left; destruct r; cbn [saver writes]; now rewrite app_nil_r|].
      now destruct r.
Qed.


(** X25: a widget that [lock] has locked is left alone. After [lock]
    returned true, another [lock] and a close event return true and change
    nothing, and [save] writes nothing: it returns true at once in a release
    build, and its assertion stops it in a debug build. *)
Theorem locked_widget_is_left_alone (s s' : Locker) (fuel : nat) (attempt : Z) :
  lock s = Some (true, s') ->
  lock s' = Some (true, s')
  /\ closeEvent s' = Some (true, s')
  /\ SaveFlow.save Q_OS_LINUX statfs disk chooser file_exists default_save_path
       tr_Disable_safe_saves tr_failed_multiple_times tr_Writing_failed
       debug answer elapsed this (S fuel) attempt (saver s')
     = if debug then None else Some (true, saver s').
Proof.
  intros Hrun.
  assert (Hl' : isLocked (saver s') = true).
  { destruct (isLocked (saver s)) eqn:Hl.
    - unfold LockFlow.lock, bind, get in Hrun. rewrite Hl in Hrun.
      injection Hrun as <-. exact Hl.
    - destruct (lock_outcomes s Hl) as (r & w & wrote & E & _).
      rewrite E in Hrun. injection Hrun as -> <-. reflexivity. }
  split; [unfold LockFlow.lock, bind, get; now rewrite Hl'|].
  split; [unfold LockFlow.closeEvent, bind, get; now rewrite Hl'|].
  cbn [SaveFlow.save]. unfold bind at 1, get. rewrite Hl'.
  unfold DatabaseWidget.Q_ASSERT. cbn [negb andb].
  destruct debug; reflexivity.
Qed.

(** X26: unsaved changes are written on the answer [Yes] only. On a
    modified database that is not being edited, without [AutoSaveOnExit] and
    with no scripted answer, [lock] asks "Save changes?" once. [Yes] writes
    the database and locks if the write succeeds; [Cancel] refuses the lock;
    every other answer ([Discard], or whatever else comes back) locks
    without a write. *)
Theorem unsaved_changes_are_written_on_Yes_only (s : Locker) :
  isLocked (saver s) = false ->
  Mode_eqb (currentMode (saver s)) EditMode = false ->
  db_isModified = true ->
  config_get (config (saver s)) "AutoSaveOnExit" false = false ->
  TwoSlot.m_nextAnswer (statics (saver s)) = StandardButton.NoButton ->
  let d := Standard Question this tr_Save_changes
             (if negb (String.eqb escaped_name EmptyString)
              then tr_was_modified escaped_name
              else tr_Database_was_modified)
             (Z.lor (Z.lor StandardButton.Yes StandardButton.Discard)
                    StandardButton.Cancel)
             StandardButton.Yes in
  let a := answer d in
  let written := disk (List.length (writes (saver s))) (db_filePath (saver s))
                      false false in
  exists s',
    lock s = Some (if a =? StandardButton.Yes then fst written
                   else negb (a =? StandardButton.Cancel), s')
    /\ screen (TwoSlot.env (statics (saver s')))
       = screen (TwoSlot.env (statics (saver s))) ++ [d]
    /\ writes (saver s')
       = writes (saver s)
         ++ (if a =? StandardButton.Yes then [(db_filePath (saver s), false, false)]
             else []).
Proof.
  intros Hl Hedit Hmod Hauto Hslot d a written.
  unfold LockFlow.lock. unfold bind at 1, get at 1. rewrite Hl.
  unfold bind at 1, effect at 1, modify at 1.
  unfold bind at 1, get at 1. cbn [saver]. rewrite Hedit.
  unfold bind at 1, ret at 1. cbn [negb].
  unfold bind at 1. rewrite Hmod.
  unfold bind at 1, get at 1. cbn [saver]. rewrite Hauto, Hl. cbn [negb].
  unfold bind at 1, in_Saver at 1. cbn [saver].
  rewrite question_shows by exact Hslot. cbv zeta. fold d. fold a.
  cbn [m_groupBeforeLock m_entryBeforeLock effects].
  set (w := TwoSlot.mkWorld _ _ _).
  unfold bind at 1.
  destruct (a =? StandardButton.Yes) eqn:Hyes.
  - apply Z.eqb_eq in Hyes. rewrite Hyes.
    change (StandardButton.Yes =? StandardButton.Cancel) with false.
    unfold bind at 1, in_Saver at 1, Database_save at 1.
    unfold bind at 1, get at 1. unfold bind at 1, modify at 1. unfold ret at 1.
    cbn [saver writes db_filePath log_write statics currentWidget db_readOnly
         config m_ignoreAutoReload m_fileWatchTimer m_fileWatchUnblockTimer
         m_fileWatcher asked messages m_groupBeforeLock m_entryBeforeLock effects].
    unfold ret at 1. fold written.
    destruct (fst written); cbn [negb].
    + unfold ret at 1. cbn [negb].
      exists (outcome true w true s). split; [apply (lock_tail w true s)|].
      unfold after_lock. cbv zeta. cbn [saver statics writes]. split; reflexivity.
    + unfold ret. eexists. split; [reflexivity|]. cbn [saver statics writes].
      split; reflexivity.
  - unfold ret at 1.
    destruct (a =? StandardButton.Cancel); unfold ret at 1; cbn [negb].
    + unfold ret. eexists. split; [reflexivity|]. cbn [saver statics writes].
      split; [reflexivity|now rewrite app_nil_r].
    + exists (outcome true w false s). split.
      * rewrite <- (lock_tail w false s). cbv zeta. now rewrite app_nil_r.
      * unfold after_lock. cbv zeta. cbn [saver statics writes]. split; reflexivity.
Qed.

End LockFacts.


(** An unmodified database on the main view is locked without a question. *)
Lemma locked_widget_is_left_alone_witness :
  let s := sample_locker SaveFlow.MainWidget in
  let s' := after_lock true (fun _ => Some 0xEF53) None 1%N None (fun _ => false)
              (fun path => path) true TwoSlot.initial false s in
  let answer := fun _ : Shown => StandardButton.Yes in
  sample_lock false answer s = Some (true, s')
  /\ sample_lock false answer s' = Some (true, s')
  /\ sample_closeEvent false answer s' = Some (true, s')
  /\ SaveFlow.save true (fun _ => Some 0xEF53) failing_disk pick_once
       (fun _ => true) "Passwords.kdbx"
       "Disable safe saves?" "Saving failed multiple times." (fun e => e)
       false answer (fun _ => 0%N) nullptr 1 0 (LockFlow.saver s')
     = (if false then None else Some (true, LockFlow.saver s')).
Proof.
  intros s s' answer. unfold sample_lock, sample_closeEvent.
  split; [reflexivity|].
  exact (@locked_widget_is_left_alone true (fun _ => Some 0xEF53)
           failing_disk false EmptyString None 1%N None (fun _ => false)
           (fun path => path) "Lock Database?"
           "You are editing an entry. Discard changes and lock anyway?"
           "Save changes?" "Database was modified." (fun name => name)
           answer nullptr pick_once (fun _ => true) "Passwords.kdbx"
           "Disable safe saves?" "Saving failed multiple times." (fun e => e)
           false (fun _ => 0%N) s s' 0%nat 0 eq_refl).
Defined.

(** The operator answers Discard on a disk where every write fails: the
    widget is locked and nothing was written. *)
Lemma unsaved_changes_are_written_on_Yes_only_witness :
  let s := sample_locker SaveFlow.MainWidget in
  let answer := fun _ : Shown => StandardButton.Discard in
  let d := Standard Question nullptr "Save changes?" "Database was modified."
             (Z.lor (Z.lor StandardButton.Yes StandardButton.Discard)
                    StandardButton.Cancel)
             StandardButton.Yes in
  SaveFlow.isLocked (LockFlow.saver s) = false
  /\ SaveFlow.Mode_eqb (SaveFlow.currentMode (LockFlow.saver s)) SaveFlow.EditMode
     = false
  /\ true = true
  /\ SaveFlow.config_get (SaveFlow.config (LockFlow.saver s)) "AutoSaveOnExit" false
     = false
  /\ TwoSlot.m_nextAnswer (SaveFlow.statics (LockFlow.saver s))
     = StandardButton.NoButton
  /\ exists s',
      sample_lock true answer s = Some (true, s')
      /\ screen (TwoSlot.env (SaveFlow.statics (LockFlow.saver s')))
         = screen (TwoSlot.env (SaveFlow.statics (LockFlow.saver s))) ++ [d]
      /\ SaveFlow.writes (LockFlow.saver s') = SaveFlow.writes (LockFlow.saver s) ++ [].
Proof.
  intros s answer d. unfold sample_lock.
  do 5 (split; [reflexivity|]).
  exact (@unsaved_changes_are_written_on_Yes_only true (fun _ => Some 0xEF53)
           failing_disk true EmptyString None 1%N None (fun _ => false)
           (fun path => path) "Lock Database?"
           "You are editing an entry. Discard changes and lock anyway?"
           "Save changes?" "Database was modified." (fun name => name)
           answer nullptr s eq_refl eq_refl eq_refl eq_refl eq_refl).
Defined.

(** * Properties of the search functions of [DatabaseWidget] *)

Section SearchFacts.
Import SearchFlow.

Variable EntryView : Type.
Variable inSearchMode : EntryView -> bool.
Variable displaySearch : list N -> EntryView -> EntryView.
Variable displayGroup : option N -> EntryView -> EntryView.
Variable EntrySearcher_search : string -> option N -> list N.
Variable currentGroup : option N.
Variable rootGroup : option N.
Variable tr_Search_Results : nat -> string.
Variable tr_No_Results : string.
Variable tr_Searching : string.

Local Abbreviation endSearch :=
  (SearchFlow.endSearch inSearchMode displayGroup currentGroup tr_Searching).
Local Abbreviation search :=
  (SearchFlow.search inSearchMode displaySearch displayGroup EntrySearcher_search
     currentGroup rootGroup tr_Search_Results tr_No_Results tr_Searching).
Local Abbreviation refreshSearch :=
  (SearchFlow.refreshSearch inSearchMode displaySearch displayGroup
     EntrySearcher_search currentGroup rootGroup tr_Search_Results tr_No_Results
     tr_Searching).
Local Abbreviation onGroupChanged :=
  (SearchFlow.onGroupChanged inSearchMode displaySearch displayGroup
     EntrySearcher_search currentGroup rootGroup tr_Search_Results tr_No_Results
     tr_Searching).

Lemma endSearch_run (s : Searching EntryView) :
  endSearch s
  = Some (tt,
          if isSearchActive inSearchMode s
          then mkSearching (displayGroup currentGroup (m_entryView s)) EmptyString
                 (m_searchLimitGroup s) false tr_Searching
                 (emitted s ++ [listModeAboutToActivate; listModeActivated])
          else mkSearching (m_entryView s) EmptyString (m_searchLimitGroup s)
                 false tr_Searching (emitted s)).
Proof.
  unfold SearchFlow.endSearch. unfold bind at 1, get at 1.
  destruct (isSearchActive inSearchMode s);
    unfold bind, emit, on_entryView, label_setVisible, label_setText,
      set_lastSearchText, modify, ret;
    cbn [m_entryView m_lastSearchText m_searchLimitGroup label_visible label_text
         emitted];
    rewrite <- ?app_assoc; reflexivity.
Qed.

Lemma search_run (searchtext : string) (s : Searching EntryView) :
  searchtext <> EmptyString ->
  let searchResult :=
    EntrySearcher_search searchtext
      (if m_searchLimitGroup s then currentGroup else rootGroup) in
  search searchtext s
  = Some (tt,
          mkSearching (displaySearch searchResult (m_entryView s)) searchtext
            (m_searchLimitGroup s) true
            (if negb (Nat.eqb (List.length searchResult) 0)
             then tr_Search_Results (List.length searchResult)
             else tr_No_Results)
            (emitted s ++ [searchModeAboutToActivate; searchModeActivated])).
Proof.
  intros Htext searchResult. unfold SearchFlow.search.
  apply String.eqb_neq in Htext. rewrite Htext.
  unfold bind at 1, emit at 1, modify at 1. unfold bind at 1, get at 1.
  cbn [m_searchLimitGroup]. fold searchResult.
  destruct (negb (Nat.eqb (List.length searchResult) 0));
    unfold bind, emit, on_entryView, label_setVisible, label_setText,
      set_lastSearchText, modify, ret;
    cbn [m_entryView m_lastSearchText m_searchLimitGroup label_visible label_text
         emitted];
    rewrite <- ?app_assoc; reflexivity.
Qed.

(** X27: a group change never clears the search. The branch of
    [onGroupChanged] that emits [clearSearch] is dead: the function runs the
    last search again when a search is active, whatever group it is handed,
    and displays the group otherwise. *)
Theorem group_change_never_clears_the_search (group : option N)
    (s : Searching EntryView) :
  onGroupChanged group s
  = (if isSearchActive inSearchMode s then search (m_lastSearchText s) s
     else Some (tt, mkSearching (displayGroup group (m_entryView s))
                      (m_lastSearchText s) (m_searchLimitGroup s)
                      (label_visible s) (label_text s) (emitted s)))
  /\ exists s' l,
      onGroupChanged group s = Some (tt, s')
      /\ emitted s' = emitted s ++ l
      /\ ~ In clearSearch l.
Proof.
  assert (E : onGroupChanged group s
              = (if isSearchActive inSearchMode s then search (m_lastSearchText s) s
                 else Some (tt, mkSearching (displayGroup group (m_entryView s))
                                  (m_lastSearchText s) (m_searchLimitGroup s)
                                  (label_visible s) (label_text s) (emitted s)))).
  { unfold SearchFlow.onGroupChanged. unfold bind at 1, get at 1.
    destruct (isSearchActive inSearchMode s) eqn:Ha; [reflexivity|].
    unfold bind, get. now rewrite Ha. }
  split; [exact E|].
  rewrite E.
  destruct (isSearchActive inSearchMode s) eqn:Ha.
  - destruct (String.eqb (m_lastSearchText s) EmptyString) eqn:Htext.
    + unfold SearchFlow.search. rewrite Htext.
      rewrite endSearch_run, Ha.
      do 2 eexists. split; [reflexivity|]. split; [reflexivity|].
      intros [H|[H|[]]]; discriminate H.
    + apply String.eqb_neq in Htext.
      rewrite (search_run s Htext).
      do 2 eexists. split; [reflexivity|]. split; [reflexivity|].
      intros [H|[H|[]]]; discriminate H.
  - eexists. exists []. split; [reflexivity|]. cbn [emitted].
    split; [now rewrite app_nil_r|]. intros [].
Qed.

(** X28: the search functions always return, and what they emit announces
    at most one change of mode: nothing, or [searchModeAboutToActivate]
    followed by [searchModeActivated], or [listModeAboutToActivate] followed
    by [listModeActivated]. *)
Theorem mode_signals_come_in_pairs (s : Searching EntryView) :
  (exists s', endSearch s = Some (tt, s')
              /\ exists l, emitted s' = emitted s ++ l /\ mode_change l)
  /\ (forall searchtext,
         exists s', search searchtext s = Some (tt, s')
                    /\ exists l, emitted s' = emitted s ++ l /\ mode_change l)
  /\ (exists s', refreshSearch s = Some (tt, s')
                 /\ exists l, emitted s' = emitted s ++ l /\ mode_change l)
  /\ (forall group,
         exists s', onGroupChanged group s = Some (tt, s')
                    /\ exists l, emitted s' = emitted s ++ l /\ mode_change l).
Proof.
  assert (Hend : exists s', endSearch s = Some (tt, s')
                            /\ exists l, emitted s' = emitted s ++ l /\ mode_change l).
  { rewrite endSearch_run. eexists. split; [reflexivity|].
    destruct (isSearchActive inSearchMode s); eexists.
    - split; [reflexivity|]. right. now right.
    - split; [cbn [emitted]; now rewrite app_nil_r|]. now left. }
  assert (Hsearch : forall searchtext,
             exists s', search searchtext s = Some (tt, s')
                        /\ exists l, emitted s' = emitted s ++ l /\ mode_change l).
  { intros searchtext.
    destruct (String.eqb searchtext EmptyString) eqn:Htext.
    - unfold SearchFlow.search. rewrite Htext. exact Hend.
    - apply String.eqb_neq in Htext. rewrite (search_run s Htext).
      eexists. split; [reflexivity|]. eexists. split; [reflexivity|].
      right. now left. }
  split; [exact Hend|]. split; [exact Hsearch|]. split.
  - unfold SearchFlow.refreshSearch. unfold bind at 1, get at 1.
    destruct (isSearchActive inSearchMode s); [apply Hsearch|].
    exists s. split; [reflexivity|]. exists []. split; [now rewrite app_nil_r|].
    now left.
  - intros group. unfold SearchFlow.onGroupChanged. unfold bind at 1, get at 1.
    destruct (isSearchActive inSearchMode s) eqn:Ha; [apply Hsearch|].
    unfold bind, get. rewrite Ha. unfold on_entryView, modify.
    eexists. split; [reflexivity|]. exists []. cbn [emitted].
    split; [now rewrite app_nil_r|]. now left.
Qed.

End SearchFacts.
